(** * Bloom Watch: feature engineering, stress labels and online features

    A shallow embedding of

    - [src/2_ingenieria_features.py]  ([crear_features], [procesar_datos]),
    - [src/3_entrenamiento_modelo.py] ([entrenar_modelo], up to the class gate),
    - [src/4_api_prediccion.py]       ([calcular_features]),

    together with the pandas / numpy operations those functions call.

    Numbers.  A Python [float] is modelled by an exact rational ([Q]), and
    equality of numbers is then [Qeq] (written [==]).  Cells of derived
    pandas columns are [float64] values, which add the two infinities and
    NaN (the pandas null) to the finite numbers.  Rounding bears on the
    stress labels, which compare computed numbers with thresholds: the part
    of [crear_features] that the labels read is therefore embedded a second
    time on IEEE-754 doubles (module [Ingenieria64]).  Elsewhere the values
    are exact rationals, which the doubles of the program approximate. *)

From Stdlib Require Import String Ascii DecimalString.
From Stdlib Require Import QArith Qminmax Qround Lqa ZArith List Bool Arith Lia.
From Stdlib Require Import Floats.
From Stdlib Require Import Sorted Permutation.
Import ListNotations.

(** ** Python and numpy numbers *)

Module Np.

Open Scope Q_scope.

(** A numpy [float64] cell.  [NaN] is what pandas calls null. *)
Inductive float64 : Type :=
| Fin (q : Q)
| PInf
| NInf
| NaN.

Definition Qltb (x y : Q) : bool := negb (Qle_bool y x).

(** [a < b] on cells: every comparison with NaN is False. *)
Definition flt (a b : float64) : bool :=
  match a, b with
  | NaN, _ | _, NaN => false
  | Fin x, Fin y => Qltb x y
  | NInf, NInf => false
  | NInf, _ => true
  | _, PInf => match a with PInf => false | _ => true end
  | _, _ => false
  end.

Definition fgt (a b : float64) : bool := flt b a.

(** [a - b] on cells. *)
Definition fsub (a b : float64) : float64 :=
  match a, b with
  | NaN, _ | _, NaN => NaN
  | Fin x, Fin y => Fin (x - y)
  | PInf, PInf | NInf, NInf => NaN
  | PInf, _ | _, NInf => PInf
  | NInf, _ | _, PInf => NInf
  end.

(** numpy true division of two finite numbers: a zero divisor gives an
    infinity or NaN, never an exception. *)
Definition np_div (a b : Q) : float64 :=
  if Qeq_bool b 0 then
    (if Qeq_bool a 0 then NaN else if Qltb 0 a then PInf else NInf)
  else Fin (a / b).

Definition isnull (c : float64) : bool :=
  match c with NaN => true | _ => false end.

(** Python exceptions that the modelled code can raise. *)
Inductive exn : Type :=
| ZeroDivisionError
| ValueError.

Inductive result (A : Type) : Type :=
| Ok (a : A)
| Raise (e : exn).
Arguments Ok {A} a.
Arguments Raise {A} e.

Definition bind {A B} (m : result A) (k : A -> result B) : result B :=
  match m with
  | Ok a => k a
  | Raise e => Raise e
  end.

(** Python [a / b] on floats: a zero divisor raises. *)
Definition py_div (a b : Q) : result Q :=
  if Qeq_bool b 0 then Raise ZeroDivisionError else Ok (a / b).

(** [np.clip(x, lo, hi)] = [minimum(maximum(x, lo), hi)]. *)
Definition clip (lo hi x : Q) : Q := Qmin (Qmax x lo) hi.

Definition Qsum (xs : list Q) : Q := fold_right Qplus 0 xs.

Definition Qmean (xs : list Q) : Q := Qsum xs / inject_Z (Z.of_nat (length xs)).

End Np.

Notation "x <- m ;; k" := (Np.bind m (fun x => k))
  (at level 61, m at next level, right associativity).

(** ** pandas column operations *)

Module Pd.

Import Np.
Open Scope Q_scope.

(** [Series.shift(periods)]: the first [periods] cells become NaN and the
    column keeps its length. *)
Definition shift (periods : nat) (xs : list Q) : list float64 :=
  firstn (length xs) (repeat NaN periods ++ map Fin xs).

Fixpoint zip_with {A B C} (f : A -> B -> C) (xs : list A) (ys : list B) : list C :=
  match xs, ys with
  | x :: xs', y :: ys' => f x y :: zip_with f xs' ys'
  | _, _ => []
  end.

(** [Series.diff(periods)] is [s - s.shift(periods)]. *)
Definition diff (periods : nat) (xs : list Q) : list float64 :=
  zip_with fsub (map Fin xs) (shift periods xs).

(** [calc_mean] of the rolling kernel: NaN until [minp] observations. *)
Definition calc_mean (minp nobs : nat) (sum_x : Q) : float64 :=
  if (minp <=? nobs)%nat then Fin (sum_x / inject_Z (Z.of_nat nobs)) else NaN.

(** The sliding kernel of [rolling(window, min_periods).mean()] for a fixed
    trailing window: at row [i] the value leaving the window (row [i - window])
    is removed from the running sum, row [i] is added, and the mean of the
    [nobs] values in the window is emitted. *)
Fixpoint roll_mean_from (window minp : nat) (values : list Q)
    (i : nat) (rest : list Q) (sum_x : Q) (nobs : nat) : list float64 :=
  match rest with
  | [] => []
  | x :: rest' =>
      let '(sum1, nobs1) :=
        if (window <=? i)%nat
        then (sum_x - nth (i - window) values 0, pred nobs)
        else (sum_x, nobs) in
      let sum2 := sum1 + x in
      let nobs2 := S nobs1 in
      calc_mean minp nobs2 sum2
        :: roll_mean_from window minp values (S i) rest' sum2 nobs2
  end.

Definition roll_mean (window minp : nat) (values : list Q) : list float64 :=
  roll_mean_from window minp values 0 values 0 0.

(** [Series.rolling(window, min_periods)] validates its arguments first:
    [min_periods] larger than [window] is a ValueError. *)
Definition rolling_mean (window minp : nat) (values : list Q)
  : result (list float64) :=
  if (window <? minp)%nat then Raise ValueError
  else Ok (roll_mean window minp values).

(** The trailing window ending at row [i]: rows [max(0, i-window+1) .. i]. *)
Definition trailing (window i : nat) (values : list Q) : list Q :=
  let start := (S i - window)%nat in
  firstn (S i - start) (skipn start values).

Definition Qmaximum (x : Q) (xs : list Q) : Q := fold_left Qmax xs x.

(** [rolling(window, min_periods=1).max()]: the largest value of the trailing
    window. *)
Definition roll_max (window : nat) (values : list Q) : list float64 :=
  map (fun i =>
         match trailing window i values with
         | [] => NaN
         | x :: xs => Fin (Qmaximum x xs)
         end)
      (seq 0 (length values)).

(** Insertion sort, used for [sort_values] and inside [quantile]. *)
Section Sort.
Variable A : Type.
Variable leb : A -> A -> bool.

Fixpoint insert (x : A) (l : list A) : list A :=
  match l with
  | [] => [x]
  | y :: l' => if leb x y then x :: l else y :: insert x l'
  end.

Fixpoint sort (l : list A) : list A :=
  match l with
  | [] => []
  | x :: l' => insert x (sort l')
  end.
End Sort.
Arguments insert {A} leb x l.
Arguments sort {A} leb l.

(** A column in ascending order. *)
Inductive ascending : list Q -> Prop :=
| asc_nil : ascending []
| asc_cons (x : Q) (l : list Q) :
    (forall y, In y l -> x <= y) -> ascending l -> ascending (x :: l).

(** [Series.quantile(q)] with the default linear interpolation: on the sorted
    values, position [q * (n - 1)] is interpolated between its two
    neighbours.  An empty column gives NaN. *)
Definition quantile (q : Q) (xs : list Q) : float64 :=
  match xs with
  | [] => NaN
  | _ :: _ =>
      let s := sort Qle_bool xs in
      let n := length s in
      let pos := q * inject_Z (Z.of_nat (n - 1)) in
      let lo := Z.to_nat (Qfloor pos) in
      let hi := Nat.min (S lo) (n - 1) in
      let frac := pos - inject_Z (Qfloor pos) in
      Fin (nth lo s 0 + (nth hi s 0 - nth lo s 0) * frac)
  end.

(** [df.loc[mask, col] = v]. *)
Definition loc_set {A} (mask : list bool) (v : A) (col : list A) : list A :=
  zip_with (fun (m : bool) old => if m then v else old) mask col.

(** [Series.nunique()] on an integer column. *)
Fixpoint unique (xs : list Z) : list Z :=
  match xs with
  | [] => []
  | x :: xs' => x :: filter (fun y => negb (Z.eqb x y)) (unique xs')
  end.

Definition nunique (xs : list Z) : nat := length (unique xs).

End Pd.

(** ** Calendar dates *)

Module Fecha.

Open Scope Z_scope.

(** A pandas [Timestamp] at day resolution. *)
Record Timestamp : Type := mkTimestamp { year : Z; month : Z; day : Z }.

Definition is_leap (y : Z) : bool :=
  (y mod 4 =? 0) && (negb (y mod 100 =? 0) || (y mod 400 =? 0)).

Definition days_before_month (y m : Z) : Z :=
  nth (Z.to_nat (m - 1)) [0; 31; 59; 90; 120; 151; 181; 212; 243; 273; 304; 334] 0
  + (if is_leap y && (2 <? m) then 1 else 0).

Definition days_in_month (y m : Z) : Z :=
  if m =? 2 then (if is_leap y then 29 else 28)
  else if (m =? 4) || (m =? 6) || (m =? 9) || (m =? 11) then 30 else 31.

(** [Timestamp.dayofyear]. *)
Definition dayofyear (t : Timestamp) : Z :=
  days_before_month (year t) (month t) + day t.

Definition days_before_year (y : Z) : Z :=
  let p := y - 1 in 365 * p + p / 4 - p / 100 + p / 400.

(** Day number of a date; the difference of two of them is [(a - b).days]. *)
Definition toordinal (t : Timestamp) : Z :=
  days_before_year (year t) + dayofyear t.

Definition digit (c : ascii) : option Z :=
  let n := nat_of_ascii c in
  if ((48 <=? n) && (n <=? 57))%nat then Some (Z.of_nat (n - 48)) else None.

Fixpoint number (acc : Z) (cs : list ascii) : option Z :=
  match cs with
  | [] => Some acc
  | c :: cs' =>
      match digit c with
      | Some d => number (10 * acc + d) cs'
      | None => None
      end
  end.

(** What [pd.to_datetime] returns for one string: a Timestamp, the null
    date NaT, or an exception (pandas raises subclasses of ValueError). *)
Inductive parsed : Type :=
| Stamp (t : Timestamp)
| NaT
| ParseError.

Definition separador (c : ascii) : bool := Ascii.eqb c "-" || Ascii.eqb c "/".

(** [_ymd.resolve_ymd] of dateutil, which pandas consults to read a date
    string, for three numeric members and no month name, as called with
    [dayfirst=True] and [yearfirst=False].  [ystridx] is the place of the
    member written with more than two digits, which dateutil takes as the
    year.  The result is year, month, day. *)
Definition resolve_ymd (ystridx : nat) (v0 v1 v2 : Z) : Z * Z * Z :=
  if (31 <? v0) || (ystridx =? 0)%nat then
    if v2 <=? 12 then (v0, v2, v1) else (v0, v1, v2)
  else if (12 <? v0) || (v1 <=? 12) then (v2, v1, v0)
  else (v2, v0, v1).

(** A date that exists, with its year within the years a pandas Timestamp
    can hold in full (1678 to 2261). *)
Definition valid (t : Timestamp) : bool :=
  (1678 <=? year t) && (year t <=? 2261) && (1 <=? month t) && (month t <=? 12)
  && (1 <=? day t) && (day t <=? days_in_month (year t) (month t)).

Definition civil (ymd : Z * Z * Z) : option Timestamp :=
  let '(y, m, d) := ymd in
  let t := mkTimestamp y m d in
  if valid t then Some t else None.

(** The strings of ten characters made of a four-digit year and two
    two-digit members, the year first or last, with twice the same
    separator [-] or [/]: [2024-06-15], [15/06/2024], [15-06-2024].
    With [dayfirst=True] the member next to the year is the day whenever
    the other one can be a month, also in the year-first layout:
    [2024-06-01] is the 6th of January. *)
Definition numeric_date (s : string) : option Timestamp :=
  match list_ascii_of_string s with
  | [c0; c1; c2; c3; c4; c5; c6; c7; c8; c9] =>
      if separador c4 && Ascii.eqb c4 c7 then
        match number 0 [c0; c1; c2; c3], number 0 [c5; c6], number 0 [c8; c9] with
        | Some a, Some b, Some c => civil (resolve_ymd 0 a b c)
        | _, _, _ => None
        end
      else if separador c2 && Ascii.eqb c2 c5 then
        match number 0 [c0; c1], number 0 [c3; c4], number 0 [c6; c7; c8; c9] with
        | Some a, Some b, Some c => civil (resolve_ymd 2 a b c)
        | _, _, _ => None
        end
      else None
  | _ => None
  end.




Section ToDatetime.
(** pandas reads many more strings than the numeric layouts above (month
    names, times, other separators; the empty string gives NaT).  What it
    returns on those is not modelled and is taken as given. *)
Variable otras_cadenas : string -> parsed.

(** [pd.to_datetime(s, dayfirst=True)] on one string. *)
Definition to_datetime (s : string) : parsed :=
  match numeric_date s with
  | Some t => Stamp t
  | None => otras_cadenas s
  end.
End ToDatetime.

End Fecha.

(** ** [src/2_ingenieria_features.py] *)

Module Ingenieria.

Import Np Pd Fecha.
Open Scope Q_scope.

(** A line of [datos_crudos.csv] as [pd.read_csv] delivers it: any cell may
    be missing. *)
Record CsvRow : Type := mkCsvRow {
  csv_date : option Timestamp;
  csv_ndvi : option Q;
  csv_evi : option Q;
  csv_lst : option Q;
  csv_tmax : option Q;
  csv_tmin : option Q;
  csv_soil_humidity : option Q
}.

(** A row without missing cells.  The [date] cell is held as the
    [Timestamp] that line 16 of [crear_features] converts it to. *)
Record Obs : Type := mkObs {
  date : Timestamp;
  ndvi : Q;
  evi : Q;
  lst : Q;
  tmax : Q;
  tmin : Q;
  soil_humidity : Q
}.

Definition complete (r : CsvRow) : option Obs :=
  match csv_date r, csv_ndvi r, csv_evi r, csv_lst r, csv_tmax r, csv_tmin r,
        csv_soil_humidity r with
  | Some d, Some a, Some b, Some c, Some e, Some f, Some g =>
      Some (mkObs d a b c e f g)
  | _, _, _, _, _, _, _ => None
  end.

(** [df.dropna()] on the raw table. *)
Fixpoint dropna (rows : list CsvRow) : list Obs :=
  match rows with
  | [] => []
  | r :: rows' =>
      match complete r with
      | Some o => o :: dropna rows'
      | None => dropna rows'
      end
  end.

(** The six columns written by one turn of the loop over [ventanas]. *)
Record Ventana : Type := mkVentana {
  ndvi_promedio : float64;
  ndvi_tendencia : float64;
  humedad_promedio : float64;
  humedad_tendencia : float64;
  lst_max : float64;
  tmax_promedio : float64
}.

Record FeatureRow : Type := mkFeatureRow {
  obs : Obs;
  v7 : Ventana;
  v14 : Ventana;
  evi_ndvi_ratio : float64;
  temp_promedio : Q;
  amplitud_termica : Q;
  deficit_combinado : Q;
  mes : Z;
  dia_anio : Z;
  dias_desde_inicio : Z
}.

Record LabeledRow : Type := mkLabeledRow {
  feat : FeatureRow;
  estres_nivel : Z;
  estres_etiqueta : option string
}.

(** [df.sort_values('date')].  The insertion sort keeps rows of equal date
    in their order; pandas does not promise that, and the tables are
    expected to hold one row per date. *)
Definition sort_values (df : list Obs) : list Obs :=
  sort (fun a b => (toordinal (date a) <=? toordinal (date b))%Z) df.

(** Row [i] of the columns of one window (lines 22-33). *)
Definition ventana_row (ventana : nat) (df : list Obs) (i : nat) : Ventana :=
  {| ndvi_promedio := nth i (roll_mean ventana 1 (map ndvi df)) NaN;
     ndvi_tendencia := nth i (diff ventana (map ndvi df)) NaN;
     humedad_promedio := nth i (roll_mean ventana 1 (map soil_humidity df)) NaN;
     humedad_tendencia := nth i (diff ventana (map soil_humidity df)) NaN;
     lst_max := nth i (roll_max ventana (map lst df)) NaN;
     tmax_promedio := nth i (roll_mean ventana 1 (map tmax df)) NaN |}.

(** Lines 41-54. *)
Definition humedad_norm (o : Obs) : Q := clip 0 1 (soil_humidity o / 35).

Definition temp_norm (o : Obs) : Q := clip 0 1 ((lst o - 25) / 20).

Definition deficit (o : Obs) : Q :=
  clip 0 1 ((1 - humedad_norm o) * 0.5 + temp_norm o * 0.3 + (1 - ndvi o) * 0.2).

Definition Zminimum (x : Z) (xs : list Z) : Z := fold_left Z.min xs x.

(** [df['date'].min()] as a day number. *)
Definition fecha_min (df : list Obs) : Z :=
  match map (fun o => toordinal (date o)) df with
  | [] => 0%Z
  | d :: ds => Zminimum d ds
  end.

(** Sections 1 to 4 of [crear_features] (lines 16-59), row by row over the
    sorted table. *)
Definition feature_row (df : list Obs) (i : nat) (o : Obs) : FeatureRow :=
  {| obs := o;
     v7 := ventana_row 7 df i;
     v14 := ventana_row 14 df i;
     evi_ndvi_ratio := np_div (evi o) (ndvi o + 0.001);
     temp_promedio := (tmax o + tmin o) / 2;
     amplitud_termica := tmax o - tmin o;
     deficit_combinado := deficit o;
     mes := month (date o);
     dia_anio := dayofyear (date o);
     dias_desde_inicio := (toordinal (date o) - fecha_min df)%Z |}.

Fixpoint mapi_from {A B} (f : nat -> A -> B) (i : nat) (xs : list A) : list B :=
  match xs with
  | [] => []
  | x :: xs' => f i x :: mapi_from f (S i) xs'
  end.

Definition features (df : list Obs) : list FeatureRow :=
  let df := sort_values df in
  mapi_from (feature_row df) 0 df.

(** The percentile thresholds of lines 65-69. *)
Record Umbrales : Type := mkUmbrales {
  p25_humedad : float64;
  p50_humedad : float64;
  p25_ndvi : float64;
  p50_ndvi : float64;
  p75_lst : float64
}.

Definition umbrales (df : list FeatureRow) : Umbrales :=
  {| p25_humedad := quantile 0.25 (map (fun r => soil_humidity (obs r)) df);
     p50_humedad := quantile 0.50 (map (fun r => soil_humidity (obs r)) df);
     p25_ndvi := quantile 0.25 (map (fun r => ndvi (obs r)) df);
     p50_ndvi := quantile 0.50 (map (fun r => ndvi (obs r)) df);
     p75_lst := quantile 0.75 (map (fun r => lst (obs r)) df) |}.

(** Lines 79-83. *)
Definition estres_moderado (u : Umbrales) (r : FeatureRow) : bool :=
  (flt (Fin (soil_humidity (obs r))) (p50_humedad u)
     && flt (Fin (ndvi (obs r))) (p50_ndvi u))
  || (fgt (Fin (deficit_combinado r)) (Fin 0.4)
     && flt (Fin (soil_humidity (obs r))) (p50_humedad u))
  || (flt (ndvi_tendencia (v7 r)) (Fin (-0.03))
     && flt (Fin (soil_humidity (obs r))) (p50_humedad u)).

(** Lines 87-91. *)
Definition estres_severo (u : Umbrales) (r : FeatureRow) : bool :=
  flt (Fin (soil_humidity (obs r))) (p25_humedad u)
  || (flt (Fin (ndvi (obs r))) (p25_ndvi u)
     && flt (Fin (soil_humidity (obs r))) (p50_humedad u))
  || (fgt (Fin (lst (obs r))) (p75_lst u)
     && flt (ndvi_tendencia (v14 r)) (Fin (-0.05))).

(** The [estres_nivel] column after lines 76, 84 and 92. *)
Definition niveles (df : list FeatureRow) : list Z :=
  let u := umbrales df in
  let nivel := repeat 0%Z (length df) in
  let nivel := loc_set (map (estres_moderado u) df) 1%Z nivel in
  loc_set (map (estres_severo u) df) 2%Z nivel.

(** The dictionary of lines 95-99. *)
Definition etiquetas : list (Z * string) :=
  [(0%Z, "sin_estres"%string);
   (1%Z, "estres_moderado"%string);
   (2%Z, "estres_severo"%string)].

(** [Series.map(dict)] on one cell: a key that is absent gives a null. *)
Fixpoint dict_get {V} (d : list (Z * V)) (k : Z) : option V :=
  match d with
  | [] => None
  | (k', v) :: d' => if Z.eqb k' k then Some v else dict_get d' k
  end.

Definition crear_features (df : list Obs) : list LabeledRow :=
  let rows := features df in
  zip_with (fun r n => mkLabeledRow r n (dict_get etiquetas n))
           rows (niveles rows).

(** [procesar_datos] without its file input and output. *)
Definition procesar_datos (csv : list CsvRow) : list LabeledRow :=
  crear_features (dropna csv).

End Ingenieria.

(** ** [src/3_entrenamiento_modelo.py], up to the class gate *)

Module Entrenamiento.

Import Np Pd Ingenieria.

Definition ventana_notnull (v : Ventana) : bool :=
  negb (isnull (ndvi_promedio v)) && negb (isnull (ndvi_tendencia v))
  && negb (isnull (humedad_promedio v)) && negb (isnull (humedad_tendencia v))
  && negb (isnull (lst_max v)) && negb (isnull (tmax_promedio v)).

(** A row that [dropna(subset=features + ['estres_nivel'])] keeps: no null
    in any column of [features].  The raw, derived-pointwise, calendar and
    label columns hold numbers, so only the window columns and the ratio can
    be null. *)
Definition notnull (r : LabeledRow) : bool :=
  ventana_notnull (v7 (feat r)) && ventana_notnull (v14 (feat r))
  && negb (isnull (evi_ndvi_ratio (feat r))).

Definition df_limpio (df : list LabeledRow) : list LabeledRow :=
  filter notnull df.

Section Entrenar.
(** The fitted bundle and the scikit-learn steps after the gate (split,
    scaling, fit, save) are outside the model. *)
Variable Modelo : Type.
Variable ajustar : list FeatureRow -> list Z -> Modelo.

(** [entrenar_modelo] on the table read back from [datos_procesados.csv]:
    [None] is Python's [return None] of line 62. *)
Definition entrenar_modelo (df : list LabeledRow) : option Modelo :=
  let limpio := df_limpio df in
  let X := map feat limpio in
  let y := map estres_nivel limpio in
  if (nunique y <? 2)%nat then None else Some (ajustar X y).
End Entrenar.

End Entrenamiento.

(** ** [src/4_api_prediccion.py] *)

Module Api.

Import Np Fecha.
Open Scope Q_scope.

Record DatosEntrada : Type := mkDatosEntrada {
  date : string;
  ndvi : Q;
  evi : Q;
  lst : Q;
  tmax : Q;
  tmin : Q;
  soil_humidity : Q
}.

(** Values of [features_dict]: Python floats and ints; [PyNaN] is the
    float nan, which the attributes of NaT hold. *)
Inductive pyval : Type :=
| PyFloat (q : Q)
| PyInt (z : Z)
| PyNaN.

Definition dict : Type := list (string * pyval).

Fixpoint dict_get (d : dict) (k : string) : option pyval :=
  match d with
  | [] => None
  | (k', v) :: d' => if String.eqb k' k then Some v else dict_get d' k
  end.

(** [d[k] = v]: an existing key keeps its place, a new one goes last. *)
Fixpoint dict_set (d : dict) (k : string) (v : pyval) : dict :=
  match d with
  | [] => [(k, v)]
  | (k', v') :: d' =>
      if String.eqb k' k then (k', v) :: d' else (k', v') :: dict_set d' k v
  end.

(** [str(n)] of a window size. *)
Definition str (n : nat) : string := NilEmpty.string_of_uint (Nat.to_uint n).

(** The f-string [f'{prefijo}_{ventana}d']. *)
Definition clave (prefijo : string) (ventana : nat) : string :=
  (prefijo ++ "_" ++ str ventana ++ "d")%string.

(** One turn of the loop of lines 89-95. *)
Definition ventana_features (datos : DatosEntrada) (d : dict) (ventana : nat) : dict :=
  let d := dict_set d (clave "ndvi_promedio" ventana) (PyFloat (ndvi datos)) in
  let d := dict_set d (clave "ndvi_tendencia" ventana) (PyInt 0) in
  let d := dict_set d (clave "humedad_promedio" ventana) (PyFloat (soil_humidity datos)) in
  let d := dict_set d (clave "humedad_tendencia" ventana) (PyInt 0) in
  let d := dict_set d (clave "lst_max" ventana) (PyFloat (lst datos)) in
  dict_set d (clave "tmax_promedio" ventana) (PyFloat (tmax datos)).

(** Lines 76-80: the blend, with no clamp. *)
Definition deficit (datos : DatosEntrada) : Q :=
  (1 - soil_humidity datos / 35) * 0.5
  + ((lst datos - 25) / 20) * 0.3
  + (1 - ndvi datos) * 0.2.

Section CalcularFeatures.
Variable otras_cadenas : string -> parsed.

(** [pd.to_datetime(datos.date, dayfirst=True)]; [None] is NaT. *)
Definition parse_date (s : string) : result (option Timestamp) :=
  match to_datetime otras_cadenas s with
  | Stamp t => Ok (Some t)
  | NaT => Ok None
  | ParseError => Raise ValueError
  end.

(** [.month] and [.dayofyear]: an int on a Timestamp, nan on NaT. *)
Definition atributo (campo : Timestamp -> Z) (t : option Timestamp) : pyval :=
  match t with
  | Some t => PyInt (campo t)
  | None => PyNaN
  end.

(** [calcular_features]: the dictionary literal is evaluated entry by entry,
    so the division comes before the two date conversions. *)
Definition calcular_features (datos : DatosEntrada) : result dict :=
  ratio <- py_div (evi datos) (ndvi datos + 0.001) ;;
  t1 <- parse_date (date datos) ;;
  t2 <- parse_date (date datos) ;;
  let features_dict :=
    [("ndvi"%string, PyFloat (ndvi datos));
     ("evi"%string, PyFloat (evi datos));
     ("lst"%string, PyFloat (lst datos));
     ("tmax"%string, PyFloat (tmax datos));
     ("tmin"%string, PyFloat (tmin datos));
     ("soil_humidity"%string, PyFloat (soil_humidity datos));
     ("evi_ndvi_ratio"%string, PyFloat ratio);
     ("temp_promedio"%string, PyFloat ((tmax datos + tmin datos) / 2));
     ("amplitud_termica"%string, PyFloat (tmax datos - tmin datos));
     ("deficit_combinado"%string, PyFloat (deficit datos));
     ("mes"%string, atributo month t1);
     ("dia_año"%string, atributo dayofyear t2);
     ("dias_desde_inicio"%string, PyInt 0)] in
  Ok (fold_left (ventana_features datos) [7; 14]%nat features_dict).
End CalcularFeatures.

End Api.

(** ** The specification's wording, for comparison with the code *)

Module Spec.

Import Np Pd Ingenieria.
Open Scope Q_scope.

(** The composite deficit score as section 4.1 of the specification writes it. *)
Definition deficit_score (soil_humidity lst ndvi : Q) : Q :=
  clip 0 1 (0.5 * (1 - clip 0 1 (soil_humidity / 35))
            + 0.3 * clip 0 1 ((lst - 25) / 20)
            + 0.2 * (1 - ndvi)).

(** The Percentile Threshold Set of a table. *)
Record Thresholds : Type := mkThresholds {
  P25_humidity : Q;
  P50_humidity : Q;
  P25_ndvi : Q;
  P50_ndvi : Q;
  P75_lst : Q
}.

Definition thresholds_of (table : list Obs) (T : Thresholds) : Prop :=
  quantile 0.25 (map soil_humidity table) = Fin (P25_humidity T)
  /\ quantile 0.50 (map soil_humidity table) = Fin (P50_humidity T)
  /\ quantile 0.25 (map ndvi table) = Fin (P25_ndvi T)
  /\ quantile 0.50 (map ndvi table) = Fin (P50_ndvi T)
  /\ quantile 0.75 (map lst table) = Fin (P75_lst T).

(** A trend cell is below [q]: it holds a number, and that number is. *)
Definition trend_below (c : float64) (q : Q) : Prop :=
  exists t : Q, c = Fin t /\ t < q.

(** Step 3, rules (a), (b), (c). *)
Definition moderate (T : Thresholds) (r : FeatureRow) : Prop :=
  (soil_humidity (obs r) < P50_humidity T /\ ndvi (obs r) < P50_ndvi T)
  \/ (0.4 < deficit_combinado r /\ soil_humidity (obs r) < P50_humidity T)
  \/ (trend_below (ndvi_tendencia (v7 r)) (-0.03)
      /\ soil_humidity (obs r) < P50_humidity T).

(** Step 4, rules (a), (b), (c). *)
Definition severe (T : Thresholds) (r : FeatureRow) : Prop :=
  soil_humidity (obs r) < P25_humidity T
  \/ (ndvi (obs r) < P25_ndvi T /\ soil_humidity (obs r) < P50_humidity T)
  \/ (P75_lst T < lst (obs r) /\ trend_below (ndvi_tendencia (v14 r)) (-0.05)).

(** Steps 2 to 4: level 0 by default, level 1 for a moderate row, level 2 for
    a severe row whatever step 3 said. *)
Inductive label (T : Thresholds) (r : FeatureRow) : Z -> Prop :=
| label_severe : severe T r -> label T r 2
| label_moderate : ~ severe T r -> moderate T r -> label T r 1
| label_none : ~ severe T r -> ~ moderate T r -> label T r 0.

(** The result that section 4.2 asks of the Stress Label Deriver: the
    labelled table, or an explicit signal when it holds fewer than two
    distinct levels. *)
Inductive Outcome : Type :=
| Labeled (table : list LabeledRow)
| InsufficientLabelDiversity.

Definition derive_outcome (table : list LabeledRow) : Outcome :=
  if (nunique (map estres_nivel table) <? 2)%nat
  then InsufficientLabelDiversity
  else Labeled table.


(** The textual tags as section 4.2 of the specification spells them. *)
Definition tag (level : Z) : option string :=
  if (level =? 0)%Z then Some "no_stress"%string
  else if (level =? 1)%Z then Some "moderate_stress"%string
  else if (level =? 2)%Z then Some "severe_stress"%string
  else None.

End Spec.

(** ** The two pointwise formulas of the serving path in binary64

    The same expressions as lines 71 and 76-80 of [calcular_features], on
    IEEE-754 doubles, to check the sample inputs without the idealisation of
    floats by rationals. *)

Module Binary64.

#[local] Set Warnings "-inexact-float".
Open Scope float_scope.

Definition divisor (ndvi : float) : float := ndvi + 0.001.

Definition ratio (evi ndvi : float) : float := evi / divisor ndvi.

Definition deficit (soil_humidity lst ndvi : float) : float :=
  (1 - soil_humidity / 35) * 0.5 + ((lst - 25) / 20) * 0.3 + (1 - ndvi) * 0.2.

(** The samples: soil_humidity = -100, lst = 30, ndvi = 0.6 for the
    deficit; evi = 0.5, ndvi = 0 for the ratio; ndvi = -0.001 for the
    divisor. *)
Definition deficit_humedad_extrema : float := deficit (-100) 30 0.6.

Definition ratio_ndvi_0 : float := ratio 0.5 0.

Definition divisor_ndvi_menos_epsilon : float := divisor (-0.001).

End Binary64.

(** ** Sample inputs *)

Module Ejemplos.

Import Fecha.
Open Scope Q_scope.

(** A raw table with a single, complete line. *)
Definition csv_una_fila : list Ingenieria.CsvRow :=
  [Ingenieria.mkCsvRow (Some (mkTimestamp 2024 6 15))
     (Some 0.6) (Some 0.5) (Some 30) (Some 28) (Some 15) (Some 20)].

Definition obs_una_fila : list Ingenieria.Obs :=
  [Ingenieria.mkObs (mkTimestamp 2024 6 15) 0.6 0.5 30 28 15 20].

(** The observation of the specification's single-point example. *)
Definition datos_ejemplo : Api.DatosEntrada :=
  Api.mkDatosEntrada "2024-06-15" 0.6 0.5 30 28 15 20.

(** The same observation with a soil humidity far below its range. *)
Definition datos_humedad_extrema : Api.DatosEntrada :=
  Api.mkDatosEntrada "2024-06-15" 0.6 0.5 30 28 15 (-100).

Definition obs_humedad_extrema : list Ingenieria.Obs :=
  [Ingenieria.mkObs (mkTimestamp 2024 6 15) 0.6 0.5 30 28 15 (-100)].

(** An observation whose NDVI cancels the epsilon of the ratio. *)
Definition datos_ndvi_menos_epsilon : Api.DatosEntrada :=
  Api.mkDatosEntrada "2024-06-15" (-0.001) 0.5 30 28 15 20.

Definition obs_ndvi_menos_epsilon : list Ingenieria.Obs :=
  [Ingenieria.mkObs (mkTimestamp 2024 6 15) (-0.001) 0.5 30 28 15 20].

End Ejemplos.

(** ** The label path of [crear_features] in binary64

    The stress labels compare computed numbers with constants and with
    quantiles, so a label can change with the rounding of one operation:
    for soil_humidity = 14.7, lst = 27, ndvi = 0.6 the deficit is 0.4 on
    rationals and 0.4000000000000001 on doubles, which is above 0.4.  This
    module repeats the parts of [crear_features] that the labels read (the
    sort, the deficit, the two NDVI trends, the thresholds, the rules and the
    tags) on IEEE-754 doubles, operation by operation in the order of the
    source. *)

Module Ingenieria64.

Import Pd Fecha.
#[local] Set Warnings "-inexact-float".
Open Scope float_scope.

(** A complete row of the raw table, its date already converted. *)
Record Obs : Type := mkObs {
  date : Timestamp;
  ndvi : float;
  evi : float;
  lst : float;
  tmax : float;
  tmin : float;
  soil_humidity : float
}.

(** [df.sort_values('date')]; rows of equal date keep their order here,
    which pandas does not promise. *)
Definition sort_values (df : list Obs) : list Obs :=
  sort (fun a b => Z.leb (toordinal (date a)) (toordinal (date b))) df.

Definition isna (x : float) : bool := negb (x =? x).

(** [Series.clip(lower, upper)]: [where(mask | (self >= lower), lower)]
    followed by [where(mask | (self <= upper), upper)], [mask] marking the
    nulls. *)
Definition clip (lower upper x : float) : float :=
  let result := if isna x || (lower <=? x) then x else lower in
  if isna x || (x <=? upper) then result else upper.

(** Lines 42-54. *)
Definition humedad_norm (o : Obs) : float := clip 0 1 (soil_humidity o / 35).

Definition temp_norm (o : Obs) : float := clip 0 1 ((lst o - 25) / 20).

Definition deficit (o : Obs) : float :=
  clip 0 1 ((1 - humedad_norm o) * 0.5 + temp_norm o * 0.3 + (1 - ndvi o) * 0.2).

(** [Series.shift(periods)] and [Series.diff(periods)]. *)
Definition shift (periods : nat) (xs : list float) : list float :=
  firstn (length xs) (repeat nan periods ++ xs).

Definition diff (periods : nat) (xs : list float) : list float :=
  zip_with PrimFloat.sub xs (shift periods xs).

Definition of_nat (n : nat) : float :=
  PrimFloat.of_uint63 (Uint63.of_Z (Z.of_nat n)).

(** [np.floor] of a virtual index [0 <= v], as an index not above [bound]:
    the largest [k <= bound] with [k <= v]. *)
Fixpoint floor_index (v : float) (bound : nat) : nat :=
  match bound with
  | O => O
  | S b => if of_nat bound <=? v then bound else floor_index v b
  end.

(** numpy's [_lerp]: [a + (b - a) * t], replaced by [b - (b - a) * (1 - t)]
    where [t >= 0.5]. *)
Definition lerp (a b t : float) : float :=
  let diff_b_a := b - a in
  if 0.5 <=? t then b - diff_b_a * (1 - t) else a + diff_b_a * t.

(** [Series.quantile(q)] on a column without nulls, which is numpy's
    [percentile] with the linear method: the virtual index [(n - 1) * q],
    its two neighbours in the sorted column, and [_lerp] between them.  An
    index at or past the last one takes the last value for both neighbours
    and [-1] for the previous index.  An empty column gives NaN. *)
Definition quantile (q : float) (xs : list float) : float :=
  match xs with
  | [] => nan
  | _ :: _ =>
      let arr := sort PrimFloat.leb xs in
      let n := length arr in
      let virtual_index := of_nat (n - 1) * q in
      let above := of_nat (n - 1) <=? virtual_index in
      let previous_index := floor_index virtual_index (n - 1) in
      let previous := if above then (n - 1)%nat else previous_index in
      let next := if above then (n - 1)%nat else S previous_index in
      let gamma :=
        if above then virtual_index - (-1) else virtual_index - of_nat previous_index in
      lerp (nth previous arr nan) (nth next arr nan) gamma
  end.

(** The columns of a row that the labels read. *)
Record Fila : Type := mkFila {
  obs : Obs;
  ndvi_tendencia_7d : float;
  ndvi_tendencia_14d : float;
  deficit_combinado : float
}.

Record Etiquetada : Type := mkEtiquetada {
  fila : Fila;
  estres_nivel : Z;
  estres_etiqueta : option string
}.

Definition fila_de (df : list Obs) (i : nat) (o : Obs) : Fila :=
  {| obs := o;
     ndvi_tendencia_7d := nth i (diff 7 (map ndvi df)) nan;
     ndvi_tendencia_14d := nth i (diff 14 (map ndvi df)) nan;
     deficit_combinado := deficit o |}.

Definition features (df : list Obs) : list Fila :=
  let df := sort_values df in
  Ingenieria.mapi_from (fila_de df) 0 df.

(** Lines 65-69. *)
Record Umbrales : Type := mkUmbrales {
  p25_humedad : float;
  p50_humedad : float;
  p25_ndvi : float;
  p50_ndvi : float;
  p75_lst : float
}.

Definition umbrales (df : list Fila) : Umbrales :=
  {| p25_humedad := quantile 0.25 (map (fun r => soil_humidity (obs r)) df);
     p50_humedad := quantile 0.50 (map (fun r => soil_humidity (obs r)) df);
     p25_ndvi := quantile 0.25 (map (fun r => ndvi (obs r)) df);
     p50_ndvi := quantile 0.50 (map (fun r => ndvi (obs r)) df);
     p75_lst := quantile 0.75 (map (fun r => lst (obs r)) df) |}.

(** Lines 79-83. *)
Definition estres_moderado (u : Umbrales) (r : Fila) : bool :=
  ((soil_humidity (obs r) <? p50_humedad u) && (ndvi (obs r) <? p50_ndvi u))
  || ((0.4 <? deficit_combinado r) && (soil_humidity (obs r) <? p50_humedad u))
  || ((ndvi_tendencia_7d r <? -0.03) && (soil_humidity (obs r) <? p50_humedad u)).

(** Lines 87-91. *)
Definition estres_severo (u : Umbrales) (r : Fila) : bool :=
  (soil_humidity (obs r) <? p25_humedad u)
  || ((ndvi (obs r) <? p25_ndvi u) && (soil_humidity (obs r) <? p50_humedad u))
  || ((p75_lst u <? lst (obs r)) && (ndvi_tendencia_14d r <? -0.05)).

(** The [estres_nivel] column after lines 76, 84 and 92. *)
Definition niveles (df : list Fila) : list Z :=
  let u := umbrales df in
  let nivel := repeat 0%Z (length df) in
  let nivel := loc_set (map (estres_moderado u) df) 1%Z nivel in
  loc_set (map (estres_severo u) df) 2%Z nivel.

Definition crear_features (df : list Obs) : list Etiquetada :=
  let rows := features df in
  zip_with (fun r n => mkEtiquetada r n (Ingenieria.dict_get Ingenieria.etiquetas n))
           rows (niveles rows).

End Ingenieria64.

(** The rules of the specification on binary64 numbers: a comparison holds
    when the IEEE comparison answers true, so every comparison with NaN
    fails. *)

Module Spec64.

Import Ingenieria64.
#[local] Set Warnings "-inexact-float".
Open Scope float_scope.

Definition lt (x y : float) : Prop := (x <? y) = true.

(** The composite deficit score as section 4.1 of the specification writes
    it, each operation rounded to a double. *)
Definition deficit_score (soil_humidity lst ndvi : float) : float :=
  clip 0 1 (0.5 * (1 - clip 0 1 (soil_humidity / 35))
            + 0.3 * clip 0 1 ((lst - 25) / 20)
            + 0.2 * (1 - ndvi)).

(** The Percentile Threshold Set of a table. *)
Definition thresholds_of (table : list Obs) (T : Umbrales) : Prop :=
  p25_humedad T = quantile 0.25 (map soil_humidity table)
  /\ p50_humedad T = quantile 0.50 (map soil_humidity table)
  /\ p25_ndvi T = quantile 0.25 (map ndvi table)
  /\ p50_ndvi T = quantile 0.50 (map ndvi table)
  /\ p75_lst T = quantile 0.75 (map lst table).

(** Step 3, rules (a), (b), (c). *)
Definition moderate (T : Umbrales) (r : Fila) : Prop :=
  (lt (soil_humidity (obs r)) (p50_humedad T) /\ lt (ndvi (obs r)) (p50_ndvi T))
  \/ (lt 0.4 (deficit_combinado r) /\ lt (soil_humidity (obs r)) (p50_humedad T))
  \/ (lt (ndvi_tendencia_7d r) (-0.03)
      /\ lt (soil_humidity (obs r)) (p50_humedad T)).

(** Step 4, rules (a), (b), (c). *)
Definition severe (T : Umbrales) (r : Fila) : Prop :=
  lt (soil_humidity (obs r)) (p25_humedad T)
  \/ (lt (ndvi (obs r)) (p25_ndvi T) /\ lt (soil_humidity (obs r)) (p50_humedad T))
  \/ (lt (p75_lst T) (lst (obs r)) /\ lt (ndvi_tendencia_14d r) (-0.05)).

Inductive label (T : Umbrales) (r : Fila) : Z -> Prop :=
| label_severe : severe T r -> label T r 2
| label_moderate : ~ severe T r -> moderate T r -> label T r 1
| label_none : ~ severe T r -> ~ moderate T r -> label T r 0.

End Spec64.

(** ** The column list of the trainer *)

Module Columnas.

(** The list [features] of [entrenar_modelo] (lines 23-43 of
    [src/3_entrenamiento_modelo.py]), which the bundle stores and the
    prediction service reads back as [features_requeridos]. *)
Definition features : list string :=
  ["ndvi"; "evi"; "lst"; "tmax"; "tmin"; "soil_humidity";
   "ndvi_promedio_7d"; "ndvi_tendencia_7d";
   "ndvi_promedio_14d"; "ndvi_tendencia_14d";
   "humedad_promedio_7d"; "humedad_tendencia_7d";
   "humedad_promedio_14d"; "humedad_tendencia_14d";
   "lst_max_7d"; "lst_max_14d";
   "tmax_promedio_7d"; "tmax_promedio_14d";
   "evi_ndvi_ratio"; "temp_promedio"; "amplitud_termica";
   "deficit_combinado";
   "mes"; "dia_año"; "dias_desde_inicio"]%string.

(** Two checks on column lists: no name twice, and every name of one list
    present in another. *)
Fixpoint distintas (l : list string) : bool :=
  match l with
  | [] => true
  | x :: l' => negb (existsb (String.eqb x) l') && distintas l'
  end.

Definition incluidas (l l' : list string) : bool :=
  forallb (fun x => existsb (String.eqb x) l') l.

End Columnas.

(** ** [src/4_api_prediccion.py]: the endpoint [/predecir] *)

Module Servicio.

Import Np Api.
Open Scope Q_scope.

(** What the body of [predecir] can raise: an exception of
    [calcular_features], a missing column or dictionary key, or an index
    past the end of the probability vector. *)
Inductive excepcion : Type :=
| DeFeatures (e : exn)
| KeyError (k : string)
| KeyErrorInt (k : Z)
| IndexError (i : nat).

Inductive resultado (A : Type) : Type :=
| Bien (a : A)
| Falla (e : excepcion).
Arguments Bien {A} a.
Arguments Falla {A} e.

Definition ligar {A B} (m : resultado A) (k : A -> resultado B) : resultado B :=
  match m with
  | Bien a => k a
  | Falla e => Falla e
  end.

Definition de_features {A} (m : result A) : resultado A :=
  match m with
  | Ok a => Bien a
  | Raise e => Falla (DeFeatures e)
  end.

(** [features_dict[k]]. *)
Definition item (d : dict) (k : string) : resultado pyval :=
  match dict_get d k with
  | Some v => Bien v
  | None => Falla (KeyError k)
  end.

(** [pd.DataFrame([features_dict])[columnas]]: the values of the listed
    columns, in the order of the list; the first absent one is a KeyError. *)
Fixpoint seleccionar (d : dict) (columnas : list string) : resultado (list pyval) :=
  match columnas with
  | [] => Bien []
  | k :: columnas' =>
      ligar (item d k) (fun v =>
      ligar (seleccionar d columnas') (fun vs => Bien (v :: vs)))
  end.

(** [float(v)]: a Python float, which can be nan. *)
Definition float_of (v : pyval) : float64 :=
  match v with
  | PyFloat q => Fin q
  | PyInt z => Fin (inject_Z z)
  | PyNaN => NaN
  end.

(** [probabilidades[i]]. *)
Definition indice (probabilidades : list Q) (i : nat) : resultado Q :=
  match nth_error probabilidades i with
  | Some p => Bien p
  | None => Falla (IndexError i)
  end.

(** The dictionary [mapa] of line 145. *)
Definition mapa : list (Z * string) :=
  [(0%Z, "sin_estres"%string);
   (1%Z, "estres_moderado"%string);
   (2%Z, "estres_severo"%string)].

(** The dictionary of lines 149-153. *)
Definition niveles_alerta : list (string * string) :=
  [("sin_estres"%string, "✅ ÓPTIMO"%string);
   ("estres_moderado"%string, "⚠️ ALERTA HÍDRICA"%string);
   ("estres_severo"%string, "🚨 CRÍTICO"%string)].

Fixpoint buscar (d : list (string * string)) (k : string) : option string :=
  match d with
  | [] => None
  | (k', v) :: d' => if String.eqb k' k then Some v else buscar d' k
  end.

(** The dictionary [probs] of lines 156-160. *)
Record Probs : Type := mkProbs {
  sin_estres : Q;
  moderado : Q;
  severo : Q
}.

(** [generar_recomendacion]; its third argument is not used. *)
Definition generar_recomendacion (prediccion : string) (probs : Probs)
    (datos : DatosEntrada) : string :=
  if String.eqb prediccion "estres_severo" then
    "🚨 Aplicar riego inmediato: 25-30mm | Horario óptimo: 5-7am o 6-8pm"%string
  else if String.eqb prediccion "estres_moderado" then
    let dias := if Qltb 0.3 (severo probs) then 3%nat else 5%nat in
    ("⚠️ Programar riego en " ++ str dias ++ " días | Monitorear cada 2 días")%string
  else
    "✅ Condiciones óptimas | Monitoreo rutinario semanal"%string.

(** The dictionary [metricas] of lines 166-173. *)
Record Metricas : Type := mkMetricas {
  m_ndvi : Q;
  m_soil_humidity : Q;
  m_lst : Q;
  m_deficit_combinado : float64;
  estado_humedad : string;
  estado_ndvi : string
}.

Record Prediccion : Type := mkPrediccion {
  fecha : string;
  prediccion : string;
  probabilidad_sin_estres : Q;
  probabilidad_moderado : Q;
  probabilidad_severo : Q;
  nivel_alerta : string;
  recomendacion : string;
  metricas : Metricas
}.

(** The answer of the endpoint: the response model, or the HTTPException
    with status 500 that the [except] clause raises. *)
Inductive http : Type :=
| Http200 (p : Prediccion)
| Http500 (e : excepcion).

Section Predecir.
(** The bundle loaded from [models/modelo.pkl]: the column list, and the
    scaler followed by the classifier's [predict] and [predict_proba] on the
    one selected row. *)
Variable features_requeridos : list string.
Variable predict : list pyval -> Z.
Variable predict_proba : list pyval -> list Q.
(** What [pd.to_datetime] returns outside the numeric date layouts. *)
Variable otras_cadenas : string -> Fecha.parsed.

(** The [try] body of [predecir], steps 1 to 10. *)
Definition cuerpo (datos : DatosEntrada) : resultado Prediccion :=
  ligar (de_features (calcular_features otras_cadenas datos)) (fun features_dict =>
  ligar (seleccionar features_dict features_requeridos) (fun X =>
  let prediccion_num := predict X in
  let probabilidades := predict_proba X in
  ligar (match Ingenieria.dict_get mapa prediccion_num with
         | Some t => Bien t
         | None => Falla (KeyErrorInt prediccion_num)
         end) (fun prediccion_texto =>
  ligar (match buscar niveles_alerta prediccion_texto with
         | Some a => Bien a
         | None => Falla (KeyError prediccion_texto)
         end) (fun alerta =>
  ligar (indice probabilidades 0) (fun p0 =>
  ligar (indice probabilidades 1) (fun p1 =>
  ligar (indice probabilidades 2) (fun p2 =>
  let probs := mkProbs p0 p1 p2 in
  let texto := generar_recomendacion prediccion_texto probs datos in
  ligar (item features_dict "deficit_combinado") (fun d =>
  let m :=
    {| m_ndvi := ndvi datos;
       m_soil_humidity := soil_humidity datos;
       m_lst := lst datos;
       m_deficit_combinado := float_of d;
       estado_humedad :=
         if Qltb (soil_humidity datos) 12 then "crítico"%string
         else if Qltb (soil_humidity datos) 18 then "bajo"%string
         else "adecuado"%string;
       estado_ndvi :=
         if Qltb (ndvi datos) 0.5 then "bajo"%string
         else if Qltb (ndvi datos) 0.65 then "moderado"%string
         else "óptimo"%string |} in
  Bien {| fecha := date datos;
          prediccion := prediccion_texto;
          probabilidad_sin_estres := sin_estres probs;
          probabilidad_moderado := moderado probs;
          probabilidad_severo := severo probs;
          nivel_alerta := alerta;
          recomendacion := texto;
          metricas := m |})))))))).

Definition predecir (datos : DatosEntrada) : http :=
  match cuerpo datos with
  | Bien p => Http200 p
  | Falla e => Http500 e
  end.
End Predecir.

End Servicio.

(** ** Comparing the serving path with the training path *)

Module Paridad.

Import Np Api.
Open Scope Q_scope.

(** The line of the training table that holds the values of a request,
    once its date is read. *)
Definition como_obs (datos : DatosEntrada) (t : Fecha.Timestamp) : Ingenieria.Obs :=
  Ingenieria.mkObs t (ndvi datos) (evi datos) (lst datos) (tmax datos)
                   (tmin datos) (soil_humidity datos).


End Paridad.

(** ** Further sample inputs *)

Module Muestras.

Import Fecha.
Open Scope Q_scope.

(** Three lines out of date order; the second has no NDVI. *)
Definition csv_tres_lineas : list Ingenieria.CsvRow :=
  [Ingenieria.mkCsvRow (Some (mkTimestamp 2024 6 16))
     (Some 0.5) (Some 0.4) (Some 33) (Some 29) (Some 16) (Some 12);
   Ingenieria.mkCsvRow (Some (mkTimestamp 2024 6 14))
     None (Some 0.5) (Some 30) (Some 28) (Some 15) (Some 20);
   Ingenieria.mkCsvRow (Some (mkTimestamp 2024 6 15))
     (Some 0.6) (Some 0.5) (Some 30) (Some 28) (Some 15) (Some 20)].

Definition obs_dos_filas : list Ingenieria.Obs :=
  [Ingenieria.mkObs (mkTimestamp 2024 6 16) 0.5 0.4 33 29 16 12;
   Ingenieria.mkObs (mkTimestamp 2024 6 15) 0.6 0.5 30 28 15 20].

(** A drier, hotter, less green observation and a milder one. *)
Definition obs_seca : Ingenieria.Obs :=
  Ingenieria.mkObs (mkTimestamp 2024 6 16) 0.5 0.4 33 29 16 12.

Definition obs_suave : Ingenieria.Obs :=
  Ingenieria.mkObs (mkTimestamp 2024 6 15) 0.6 0.5 30 28 15 20.

(** Four days of rising soil humidity and NDVI. *)
Definition obs_cuatro : list Ingenieria.Obs :=
  [Ingenieria.mkObs (mkTimestamp 2024 1 1) 0.3 0.5 30 28 15 10;
   Ingenieria.mkObs (mkTimestamp 2024 1 2) 0.5 0.5 30 28 15 18;
   Ingenieria.mkObs (mkTimestamp 2024 1 3) 0.6 0.5 30 28 15 22;
   Ingenieria.mkObs (mkTimestamp 2024 1 4) 0.7 0.5 30 28 15 30].

(** Nine days on which two labels hang on one rounding each: the second
    row, whose deficit is 0.4 on rationals, and the eighth, whose NDVI is
    0.03 below that of the first row. *)
Definition obs_redondeo : list Ingenieria.Obs :=
  [Ingenieria.mkObs (mkTimestamp 2024 1 1) 0.53 0.5 20 28 15 30;
   Ingenieria.mkObs (mkTimestamp 2024 1 2) 0.6 0.5 27 28 15 14.7;
   Ingenieria.mkObs (mkTimestamp 2024 1 3) 0.4 0.5 20 28 15 10;
   Ingenieria.mkObs (mkTimestamp 2024 1 4) 0.45 0.5 20 28 15 12;
   Ingenieria.mkObs (mkTimestamp 2024 1 5) 0.5 0.5 20 28 15 28;
   Ingenieria.mkObs (mkTimestamp 2024 1 6) 0.5 0.5 20 28 15 26;
   Ingenieria.mkObs (mkTimestamp 2024 1 7) 0.48 0.5 20 28 15 24;
   Ingenieria.mkObs (mkTimestamp 2024 1 8) 0.5 0.5 20 28 15 16;
   Ingenieria.mkObs (mkTimestamp 2024 1 9) 0.7 0.5 20 28 15 32].

(** Fifteen consecutive days, the NDVI falling by 0.01 a day. *)
Definition obs_quince : list Ingenieria.Obs :=
  map (fun k : nat =>
         Ingenieria.mkObs (mkTimestamp 2024 6 (Z.of_nat k))
           (0.8 - inject_Z (Z.of_nat k) / 100) 0.5 30 28 15
           (30 - inject_Z (Z.of_nat k)))
      (seq 1 15).


(** pandas on the strings outside the numeric date layouts, as far as the
    samples go: the empty string gives NaT, and any other string is taken
    here as one that pandas refuses. *)
Definition solo_vacia (s : string) : parsed :=
  if String.eqb s "" then NaT else ParseError.

(** The observation of the specification's example under three other
    dates: one that is read day first, one written day first, and none. *)
Definition datos_primero_de_junio : Api.DatosEntrada :=
  Api.mkDatosEntrada "2024-06-01" 0.6 0.5 30 28 15 20.

Definition datos_dia_primero : Api.DatosEntrada :=
  Api.mkDatosEntrada "15-06-2024" 0.6 0.5 30 28 15 20.

Definition datos_sin_fecha : Api.DatosEntrada :=
  Api.mkDatosEntrada "" 0.6 0.5 30 28 15 20.

(** The observation of the example on a cooler day, below the 25 degrees
    from which the deficit counts the temperature. *)
Definition datos_fresco : Api.DatosEntrada :=
  Api.mkDatosEntrada "2024-06-15" 0.6 0.5 20 28 15 20.

(** A scaler and classifier that always answers class 1 with the three
    probabilities 0.2, 0.5, 0.3, and one fitted on two classes only. *)
Definition predict_1 (X : list Api.pyval) : Z := 1%Z.

Definition proba_3 (X : list Api.pyval) : list Q := [0.2; 0.5; 0.3].

Definition proba_2 (X : list Api.pyval) : list Q := [0.4; 0.6].

End Muestras.

(** The nine days of [Muestras.obs_redondeo] as doubles. *)

Module Muestras64.

Import Fecha.
#[local] Set Warnings "-inexact-float".
Open Scope float_scope.

Definition obs_redondeo : list Ingenieria64.Obs :=
  [Ingenieria64.mkObs (mkTimestamp 2024 1 1) 0.53 0.5 20 28 15 30;
   Ingenieria64.mkObs (mkTimestamp 2024 1 2) 0.6 0.5 27 28 15 14.7;
   Ingenieria64.mkObs (mkTimestamp 2024 1 3) 0.4 0.5 20 28 15 10;
   Ingenieria64.mkObs (mkTimestamp 2024 1 4) 0.45 0.5 20 28 15 12;
   Ingenieria64.mkObs (mkTimestamp 2024 1 5) 0.5 0.5 20 28 15 28;
   Ingenieria64.mkObs (mkTimestamp 2024 1 6) 0.5 0.5 20 28 15 26;
   Ingenieria64.mkObs (mkTimestamp 2024 1 7) 0.48 0.5 20 28 15 24;
   Ingenieria64.mkObs (mkTimestamp 2024 1 8) 0.5 0.5 20 28 15 16;
   Ingenieria64.mkObs (mkTimestamp 2024 1 9) 0.7 0.5 20 28 15 32].

(** The example on a day of 20 degrees: the row of the training table and
    the deficit that [calcular_features] serves for it. *)
Definition obs_fresca : Ingenieria64.Obs :=
  Ingenieria64.mkObs (mkTimestamp 2024 6 15) 0.6 0.5 20 28 15 20.

Definition deficit_servido_fresco : float := Binary64.deficit 20 20 0.6.

(** Two humidities one unit in the last place apart. *)
Definition humedades_vecinas : list float := [20; 20.000000000000004].

End Muestras64.
(** * Properties *)

(** ** Facts about numbers and columns *)

Module NpFacts.

Import Np.
Open Scope Q_scope.

Lemma Qltb_lt (x y : Q) : Qltb x y = true <-> x < y.
Proof.
  unfold Qltb. rewrite negb_true_iff. split; intro H.
  - apply Qnot_le_lt. intro Hle. apply Qle_bool_iff in Hle. congruence.
  - destruct (Qle_bool y x) eqn:E; [|reflexivity].
    apply Qle_bool_iff in E. exfalso. apply (Qlt_not_le _ _ H E).
Qed.

Lemma clip_bounds (lo hi x : Q) : lo <= hi -> lo <= clip lo hi x <= hi.
Proof.
  intro H. unfold clip. split.
  - apply Q.min_glb; [apply Q.le_max_r | exact H].
  - apply Q.le_min_r.
Qed.

Lemma clip_below (lo hi x : Q) : lo <= hi -> x <= lo -> clip lo hi x == lo.
Proof.
  intros H1 H2. unfold clip.
  rewrite (Q.max_r x lo H2). apply Q.min_l. exact H1.
Qed.

Lemma clip_above (lo hi x : Q) : lo <= hi -> hi <= x -> clip lo hi x == hi.
Proof.
  intros H1 H2. unfold clip. apply Q.min_r.
  apply Qle_trans with x; [exact H2 | apply Q.le_max_l].
Qed.

#[global] Instance clip_Proper : Proper (Qeq ==> Qeq ==> Qeq ==> Qeq) clip.
Proof.
  intros lo lo' Hlo hi hi' Hhi x x' Hx. unfold clip.
  rewrite Hlo, Hhi, Hx. reflexivity.
Qed.

End NpFacts.

Module PdFacts.

Import Np Pd NpFacts.
Open Scope Q_scope.

Section ZipWith.
Variables A B C : Type.
Variable f : A -> B -> C.

Lemma zip_with_length (xs : list A) (ys : list B) :
  length (zip_with f xs ys) = Nat.min (length xs) (length ys).
Proof.
  revert ys. induction xs as [|x xs IH]; intros [|y ys]; simpl; auto.
Qed.

Lemma zip_with_nth_error (xs : list A) (ys : list B) (i : nat) (x : A) (y : B) :
  nth_error xs i = Some x -> nth_error ys i = Some y ->
  nth_error (zip_with f xs ys) i = Some (f x y).
Proof.
  revert ys i. induction xs as [|a xs IH]; intros [|b ys] [|i]; simpl;
    try discriminate.
  - intros [= ->] [= ->]. reflexivity.
  - apply IH.
Qed.

End ZipWith.

(** *** [shift] and [diff] *)

Lemma shift_length (w : nat) (xs : list Q) : length (shift w xs) = length xs.
Proof.
  unfold shift. rewrite length_firstn, length_app, repeat_length, length_map. lia.
Qed.

Lemma shift_nth_error_early (w : nat) (xs : list Q) (i : nat) :
  (i < length xs)%nat -> (i < w)%nat -> nth_error (shift w xs) i = Some NaN.
Proof.
  intros Hi Hw. unfold shift. rewrite nth_error_firstn.
  apply Nat.ltb_lt in Hi. rewrite Hi.
  rewrite nth_error_app, repeat_length.
  apply Nat.ltb_lt in Hw. rewrite Hw.
  apply nth_error_repeat. apply Nat.ltb_lt. exact Hw.
Qed.

Lemma shift_nth_error_late (w : nat) (xs : list Q) (i : nat) :
  (i < length xs)%nat -> (w <= i)%nat ->
  nth_error (shift w xs) i = option_map Fin (nth_error xs (i - w)).
Proof.
  intros Hi Hw. unfold shift. rewrite nth_error_firstn.
  apply Nat.ltb_lt in Hi. rewrite Hi.
  rewrite nth_error_app, repeat_length.
  assert (E : (i <? w)%nat = false) by (apply Nat.ltb_ge; exact Hw).
  rewrite E. apply nth_error_map.
Qed.

Lemma diff_length (w : nat) (xs : list Q) : length (diff w xs) = length xs.
Proof.
  unfold diff. rewrite zip_with_length, length_map, shift_length. lia.
Qed.

Lemma diff_early (w : nat) (xs : list Q) (i : nat) :
  (i < length xs)%nat -> (i < w)%nat -> nth_error (diff w xs) i = Some NaN.
Proof.
  intros Hi Hw. unfold diff.
  destruct (nth_error xs i) as [x|] eqn:Ex.
  - rewrite (zip_with_nth_error _ _ _ fsub (map Fin xs) (shift w xs) i (Fin x) NaN).
    + reflexivity.
    + rewrite nth_error_map, Ex. reflexivity.
    + apply shift_nth_error_early; assumption.
  - apply nth_error_None in Ex. lia.
Qed.

Lemma diff_late (w : nat) (xs : list Q) (i : nat) (x y : Q) :
  (w <= i)%nat -> nth_error xs i = Some x -> nth_error xs (i - w) = Some y ->
  nth_error (diff w xs) i = Some (Fin (x - y)).
Proof.
  intros Hw Ex Ey. unfold diff.
  rewrite (zip_with_nth_error _ _ _ fsub (map Fin xs) (shift w xs) i (Fin x) (Fin y)).
  - reflexivity.
  - rewrite nth_error_map, Ex. reflexivity.
  - rewrite shift_nth_error_late; [rewrite Ey; reflexivity | | exact Hw].
    apply nth_error_Some. congruence.
Qed.

End PdFacts.

(** ** The rolling kernel computes trailing-window means *)

Module RollFacts.

Import Np Pd NpFacts PdFacts.
Open Scope Q_scope.

Lemma skipn_nth_cons (v : list Q) (a : nat) :
  (a < length v)%nat -> skipn a v = nth a v 0 :: skipn (S a) v.
Proof.
  revert a. induction v as [|y v IH]; intros a Ha; simpl in Ha; [lia|].
  destruct a as [|a]; [reflexivity|].
  simpl. apply IH. lia.
Qed.

Lemma Qsum_firstn_snoc (l : list Q) (n : nat) :
  (n < length l)%nat -> Qsum (firstn (S n) l) == Qsum (firstn n l) + nth n l 0.
Proof.
  revert n. induction l as [|y l IH]; intros n Hn; simpl in Hn; [lia|].
  destruct n as [|n].
  - simpl. lra.
  - change (Qsum (firstn (S (S n)) (y :: l))) with (y + Qsum (firstn (S n) l)).
    change (Qsum (firstn (S n) (y :: l))) with (y + Qsum (firstn n l)).
    change (nth (S n) (y :: l) 0) with (nth n l 0).
    rewrite IH by lia. lra.
Qed.

Lemma nth_skipn (v : list Q) (a n : nat) : nth n (skipn a v) 0 = nth (a + n) v 0.
Proof.
  revert v. induction a as [|a IH]; intros v; [reflexivity|].
  destruct v as [|y v]; simpl.
  - destruct n; reflexivity.
  - apply IH.
Qed.

(** Sum of the rows [[i - window, i)]: the running sum before row [i]. *)
Abbreviation before window i values :=
  (Qsum (firstn (i - (i - window)) (skipn (i - window) values))).

Lemma trailing_before (window i : nat) (values : list Q) :
  Qsum (trailing window i values) = before window (S i) values.
Proof. reflexivity. Qed.

Lemma before_step (window i : nat) (values : list Q) :
  (1 <= window)%nat -> (i < length values)%nat ->
  before window (S i) values ==
  (if (window <=? i)%nat
   then before window i values - nth (i - window) values 0
   else before window i values) + nth i values 0.
Proof.
  intros Hw Hi. destruct (window <=? i)%nat eqn:E.
  - apply Nat.leb_le in E.
    replace (S i - window)%nat with (S (i - window)) by lia.
    replace (S i - S (i - window))%nat with window by lia.
    replace (i - (i - window))%nat with window by lia.
    set (a := (i - window)%nat).
    assert (H1 : Qsum (firstn (S window) (skipn a values))
                 == Qsum (firstn window (skipn a values)) + nth i values 0).
    { rewrite Qsum_firstn_snoc by (rewrite length_skipn; lia).
      rewrite nth_skipn. replace (a + window)%nat with i by lia. reflexivity. }
    rewrite (skipn_nth_cons values a) in H1 at 1 by lia.
    change (Qsum (firstn (S window) (nth a values 0 :: skipn (S a) values)))
      with (nth a values 0 + Qsum (firstn window (skipn (S a) values))) in H1.
    lra.
  - apply Nat.leb_gt in E.
    replace (S i - window)%nat with 0%nat by lia.
    replace (i - window)%nat with 0%nat by lia.
    rewrite !Nat.sub_0_r. simpl skipn.
    apply Qsum_firstn_snoc. exact Hi.
Qed.

Lemma trailing_length (window i : nat) (values : list Q) :
  (i < length values)%nat ->
  length (trailing window i values) = Nat.min (S i) window.
Proof.
  intro Hi. unfold trailing. rewrite length_firstn, length_skipn. lia.
Qed.

Lemma roll_mean_from_spec (window : nat) (values : list Q) :
  (1 <= window)%nat ->
  forall (rest : list Q) (i : nat) (sum_x : Q) (nobs : nat),
    rest = skipn i values ->
    sum_x == before window i values ->
    nobs = Nat.min i window ->
    forall (j : nat) (x : Q),
      nth_error rest j = Some x ->
      exists m : Q,
        nth_error (roll_mean_from window 1 values i rest sum_x nobs) j
          = Some (Fin m)
        /\ m == Qmean (trailing window (i + j) values).
Proof.
  intros Hw. induction rest as [|y rest IH]; intros i sum_x nobs Hrest Hsum Hn j x Hj.
  - destruct j; discriminate.
  - assert (Hi : (i < length values)%nat).
    { destruct (Nat.lt_ge_cases i (length values)) as [H|H]; [exact H|].
      rewrite (skipn_all2 values H) in Hrest. discriminate. }
    assert (Hy : y = nth i values 0).
    { rewrite (skipn_nth_cons values i Hi) in Hrest. congruence. }
    assert (Hrest' : rest = skipn (S i) values).
    { rewrite (skipn_nth_cons values i Hi) in Hrest. congruence. }
    pose proof (before_step window i values Hw Hi) as Hstep.
    simpl roll_mean_from.
    destruct (window <=? i)%nat eqn:E.
    + apply Nat.leb_le in E.
      destruct j as [|j].
      * exists ((sum_x - nth (i - window) values 0 + y)
                / inject_Z (Z.of_nat (S (pred nobs)))).
        split; [reflexivity|].
        rewrite Nat.add_0_r. unfold Qmean.
        rewrite trailing_length by exact Hi.
        rewrite trailing_before, Hstep, <- Hsum, <- Hy.
        replace (S (pred nobs)) with (Nat.min (S i) window) by lia.
        reflexivity.
      * replace (i + S j)%nat with (S i + j)%nat by lia.
        simpl nth_error.
        apply (IH (S i)) with (x := x); [exact Hrest' | | lia | exact Hj].
        rewrite Hstep, <- Hsum, <- Hy. reflexivity.
    + apply Nat.leb_gt in E.
      destruct j as [|j].
      * exists ((sum_x + y) / inject_Z (Z.of_nat (S nobs))).
        split; [reflexivity|].
        rewrite Nat.add_0_r. unfold Qmean.
        rewrite trailing_length by exact Hi.
        rewrite trailing_before, Hstep, <- Hsum, <- Hy.
        replace (S nobs) with (Nat.min (S i) window) by lia.
        reflexivity.
      * replace (i + S j)%nat with (S i + j)%nat by lia.
        simpl nth_error.
        apply (IH (S i)) with (x := x); [exact Hrest' | | lia | exact Hj].
        rewrite Hstep, <- Hsum, <- Hy. reflexivity.
Qed.

Lemma roll_mean_spec (window : nat) (values : list Q) (i : nat) (x : Q) :
  (1 <= window)%nat -> nth_error values i = Some x ->
  exists m : Q,
    nth_error (roll_mean window 1 values) i = Some (Fin m)
    /\ m == Qmean (trailing window i values).
Proof.
  intros Hw Hx. unfold roll_mean.
  pose proof (roll_mean_from_spec window values Hw) as H.
  specialize (H values 0%nat 0 0%nat eq_refl).
  apply H with (x := x).
  - simpl. reflexivity.
  - reflexivity.
  - exact Hx.
Qed.

Lemma trailing_0 (window : nat) (x : Q) (values : list Q) :
  (1 <= window)%nat -> trailing window 0 (x :: values) = [x].
Proof.
  intro Hw. unfold trailing.
  replace (1 - window)%nat with 0%nat by lia. reflexivity.
Qed.

End RollFacts.

(** ** Sorting and quantiles *)

Module QuantileFacts.

Import Np Pd NpFacts.
Open Scope Q_scope.

Lemma insert_length (A : Type) (leb : A -> A -> bool) (x : A) (l : list A) :
  length (insert leb x l) = S (length l).
Proof.
  induction l as [|y l IH]; simpl; [reflexivity|].
  destruct (leb x y); simpl; [reflexivity | rewrite IH; reflexivity].
Qed.

Lemma sort_length (A : Type) (leb : A -> A -> bool) (l : list A) :
  length (sort leb l) = length l.
Proof.
  induction l as [|x l IH]; simpl; [reflexivity|].
  rewrite insert_length, IH. reflexivity.
Qed.

Lemma insert_In (A : Type) (leb : A -> A -> bool) (x y : A) (l : list A) :
  In y (insert leb x l) <-> y = x \/ In y l.
Proof.
  induction l as [|z l IH]; simpl.
  - intuition auto.
  - destruct (leb x z); simpl; rewrite ?IH; intuition auto.
Qed.

Lemma sort_In (A : Type) (leb : A -> A -> bool) (y : A) (l : list A) :
  In y (sort leb l) <-> In y l.
Proof.
  induction l as [|x l IH]; simpl; [tauto|].
  rewrite insert_In, IH. intuition auto.
Qed.

Lemma insert_ascending (x : Q) (l : list Q) :
  ascending l -> ascending (insert Qle_bool x l).
Proof.
  induction 1 as [|y l Hy Hl IH]; simpl.
  - constructor; [intros ? [] | constructor].
  - destruct (Qle_bool x y) eqn:E.
    + apply Qle_bool_iff in E. constructor.
      * intros z [<- | Hz]; [exact E|].
        apply Qle_trans with y; [exact E | apply Hy, Hz].
      * constructor; assumption.
    + assert (Hyx : y <= x).
      { destruct (Qlt_le_dec y x) as [H|H]; [apply Qlt_le_weak, H|].
        apply Qle_bool_iff in H. congruence. }
      constructor; [|exact IH].
      intros z Hz. apply insert_In in Hz. destruct Hz as [-> | Hz]; auto.
Qed.

Lemma sort_ascending (l : list Q) : ascending (sort Qle_bool l).
Proof.
  induction l as [|x l IH]; simpl; [constructor | apply insert_ascending, IH].
Qed.

Lemma ascending_nth (s : list Q) :
  ascending s ->
  forall i j, (i <= j)%nat -> (j < length s)%nat -> nth i s 0 <= nth j s 0.
Proof.
  induction 1 as [|x l Hx Hl IH]; intros i j Hij Hj; simpl in Hj; [lia|].
  destruct i as [|i], j as [|j]; simpl; try lia.
  - apply Qle_refl.
  - apply Hx, nth_In. lia.
  - apply IH; lia.
Qed.

(** The value that [quantile] reads off the sorted column at position [pos]. *)
Abbreviation interp s pos :=
  (nth (Z.to_nat (Qfloor pos)) s 0
   + (nth (Nat.min (S (Z.to_nat (Qfloor pos))) (length s - 1)) s 0
      - nth (Z.to_nat (Qfloor pos)) s 0)
     * (pos - inject_Z (Qfloor pos))).

Lemma quantile_interp (q x : Q) (xs : list Q) :
  quantile q (x :: xs)
  = Fin (interp (sort Qle_bool (x :: xs))
                (q * inject_Z (Z.of_nat (length (sort Qle_bool (x :: xs)) - 1)))).
Proof. reflexivity. Qed.

Section Interp.
Variable s : list Q.
Hypothesis s_asc : ascending s.
Hypothesis s_nonempty : (0 < length s)%nat.

Let top : Q := inject_Z (Z.of_nat (length s - 1)).

Lemma floor_range (pos : Q) :
  0 <= pos -> pos <= top ->
  (0 <= Qfloor pos)%Z /\ (Z.to_nat (Qfloor pos) <= length s - 1)%nat.
Proof.
  intros H0 H1. split.
  - change 0%Z with (Qfloor 0). apply Qfloor_resp_le, H0.
  - apply Qfloor_resp_le in H1. unfold top in H1. rewrite Qfloor_Z in H1. lia.
Qed.

Lemma frac_range (pos : Q) :
  0 <= pos - inject_Z (Qfloor pos) /\ pos - inject_Z (Qfloor pos) < 1.
Proof.
  pose proof (Qfloor_le pos) as H1. pose proof (Qlt_floor pos) as H2.
  rewrite inject_Z_plus in H2. change (inject_Z 1) with 1 in H2.
  split; lra.
Qed.

Lemma interp_bounds (pos : Q) :
  0 <= pos -> pos <= top ->
  nth (Z.to_nat (Qfloor pos)) s 0 <= interp s pos
  /\ interp s pos <= nth (Nat.min (S (Z.to_nat (Qfloor pos))) (length s - 1)) s 0.
Proof.
  intros H0 H1. destruct (floor_range pos H0 H1) as [_ Hlo].
  destruct (frac_range pos) as [Hf0 Hf1].
  assert (Hab : nth (Z.to_nat (Qfloor pos)) s 0
                <= nth (Nat.min (S (Z.to_nat (Qfloor pos))) (length s - 1)) s 0).
  { apply ascending_nth; [exact s_asc | lia | lia]. }
  set (a := nth (Z.to_nat (Qfloor pos)) s 0) in *.
  set (b := nth (Nat.min (S (Z.to_nat (Qfloor pos))) (length s - 1)) s 0) in *.
  set (f := pos - inject_Z (Qfloor pos)) in *.
  split; nra.
Qed.

Lemma interp_mono (p1 p2 : Q) :
  0 <= p1 -> p1 <= p2 -> p2 <= top -> interp s p1 <= interp s p2.
Proof.
  intros H0 H12 H2.
  assert (H1 : p1 <= top) by lra.
  assert (H0' : 0 <= p2) by lra.
  destruct (floor_range p1 H0 H1) as [Hz1 Hlo1].
  destruct (floor_range p2 H0' H2) as [Hz2 Hlo2].
  pose proof (Qfloor_resp_le _ _ H12) as Hfl.
  destruct (Z.eq_dec (Qfloor p1) (Qfloor p2)) as [E|E].
  - rewrite E.
    assert (Hab : nth (Z.to_nat (Qfloor p2)) s 0
                  <= nth (Nat.min (S (Z.to_nat (Qfloor p2))) (length s - 1)) s 0).
    { apply ascending_nth; [exact s_asc | lia | lia]. }
    destruct (frac_range p2) as [Hf0 Hf1].
    assert (Hf : p1 - inject_Z (Qfloor p2) <= p2 - inject_Z (Qfloor p2)) by lra.
    assert (Hf1' : 0 <= p1 - inject_Z (Qfloor p2)).
    { rewrite <- E. apply frac_range. }
    set (a := nth (Z.to_nat (Qfloor p2)) s 0) in *.
    set (b := nth (Nat.min (S (Z.to_nat (Qfloor p2))) (length s - 1)) s 0) in *.
    nra.
  - destruct (interp_bounds p1 H0 H1) as [_ Hup].
    destruct (interp_bounds p2 H0' H2) as [Hdown _].
    apply Qle_trans with (nth (Nat.min (S (Z.to_nat (Qfloor p1))) (length s - 1)) s 0);
      [exact Hup|].
    apply Qle_trans with (nth (Z.to_nat (Qfloor p2)) s 0); [|exact Hdown].
    apply ascending_nth; [exact s_asc | lia | lia].
Qed.
End Interp.

(** Quantiles of one column are ordered like their levels. *)
Lemma quantile_mono (q1 q2 : Q) (xs : list Q) :
  0 <= q1 -> q1 <= q2 -> q2 <= 1 -> xs <> [] ->
  exists a b, quantile q1 xs = Fin a /\ quantile q2 xs = Fin b /\ a <= b.
Proof.
  intros H0 H12 H2 Hne. destruct xs as [|x xs]; [congruence|].
  rewrite !quantile_interp.
  set (s := sort Qle_bool (x :: xs)).
  assert (Hlen : (0 < length s)%nat).
  { unfold s. rewrite sort_length. simpl. lia. }
  assert (Htop : 0 <= inject_Z (Z.of_nat (length s - 1))).
  { change 0 with (inject_Z 0). rewrite <- Zle_Qle. lia. }
  eexists. eexists. split; [reflexivity|]. split; [reflexivity|].
  apply interp_mono.
  - apply sort_ascending.
  - exact Hlen.
  - apply Qmult_le_0_compat; assumption.
  - apply Qmult_le_compat_r; assumption.
  - rewrite <- (Qmult_1_l (inject_Z (Z.of_nat (length s - 1)))) at 2.
    apply Qmult_le_compat_r; assumption.
Qed.

End QuantileFacts.

(** ** The rows of [crear_features] *)

Module RowFacts.

Import Np Pd Fecha Ingenieria NpFacts PdFacts QuantileFacts.
Open Scope Q_scope.

Lemma zip_with_nth (A B C : Type) (f : A -> B -> C) (xs : list A) (ys : list B)
      (i : nat) :
  nth_error (zip_with f xs ys) i =
  match nth_error xs i, nth_error ys i with
  | Some x, Some y => Some (f x y)
  | _, _ => None
  end.
Proof.
  revert ys i. induction xs as [|a xs IH]; intros [|b ys] [|i]; simpl;
    try reflexivity.
  - destruct (nth_error xs i); reflexivity.
  - apply IH.
Qed.

Lemma mapi_from_nth (A B : Type) (f : nat -> A -> B) (xs : list A) (k i : nat) :
  nth_error (mapi_from f k xs) i = option_map (f (k + i)%nat) (nth_error xs i).
Proof.
  revert k i. induction xs as [|x xs IH]; intros k [|i]; simpl; try reflexivity.
  - rewrite Nat.add_0_r. reflexivity.
  - rewrite IH. replace (S k + i)%nat with (k + S i)%nat by lia. reflexivity.
Qed.

Lemma mapi_from_length (A B : Type) (f : nat -> A -> B) (xs : list A) (k : nat) :
  length (mapi_from f k xs) = length xs.
Proof.
  revert k. induction xs as [|x xs IH]; intros k; simpl; [|rewrite IH]; reflexivity.
Qed.

Lemma features_nth (df : list Obs) (i : nat) :
  nth_error (features df) i
  = option_map (feature_row (sort_values df) i) (nth_error (sort_values df) i).
Proof. unfold features. apply mapi_from_nth. Qed.

Lemma features_length (df : list Obs) : length (features df) = length df.
Proof.
  unfold features. rewrite mapi_from_length. apply sort_length.
Qed.

Lemma features_obs (df : list Obs) : map obs (features df) = sort_values df.
Proof.
  unfold features. generalize (sort_values df) at 1 as d.
  generalize 0%nat as k. generalize (sort_values df) as l.
  induction l as [|o l IH]; intros k d; simpl; [reflexivity|].
  rewrite IH. reflexivity.
Qed.

(** The label that lines 76, 84 and 92 leave on a row. *)
Abbreviation nivel_de u r :=
  (if estres_severo u r then 2%Z else if estres_moderado u r then 1%Z else 0%Z).

Lemma niveles_nth (rows : list FeatureRow) (i : nat) :
  nth_error (niveles rows) i
  = option_map (fun r => nivel_de (umbrales rows) r) (nth_error rows i).
Proof.
  unfold niveles, loc_set. rewrite !zip_with_nth, !nth_error_map.
  destruct (nth_error rows i) as [r|] eqn:E; simpl; [|reflexivity].
  assert (Hi : (i < length rows)%nat) by (apply nth_error_Some; congruence).
  rewrite nth_error_repeat by exact Hi.
  destruct (estres_severo (umbrales rows) r), (estres_moderado (umbrales rows) r);
    reflexivity.
Qed.

Lemma crear_features_nth (df : list Obs) (i : nat) :
  nth_error (crear_features df) i
  = option_map
      (fun o =>
         let r := feature_row (sort_values df) i o in
         let n := nivel_de (umbrales (features df)) r in
         mkLabeledRow r n (dict_get etiquetas n))
      (nth_error (sort_values df) i).
Proof.
  unfold crear_features. rewrite zip_with_nth, niveles_nth, features_nth.
  destruct (nth_error (sort_values df) i); reflexivity.
Qed.

Lemma crear_features_length (df : list Obs) :
  length (crear_features df) = length df.
Proof.
  unfold crear_features.
  rewrite zip_with_length.
  assert (H : length (niveles (features df)) = length (features df)).
  { unfold niveles, loc_set.
    rewrite !zip_with_length, !length_map, repeat_length. lia. }
  rewrite H, features_length. lia.
Qed.

(** Every labelled row sits at some index of the sorted table. *)
Lemma crear_features_In (df : list Obs) (lr : LabeledRow) :
  In lr (crear_features df) ->
  exists (i : nat) (o : Obs),
    nth_error (sort_values df) i = Some o
    /\ feat lr = feature_row (sort_values df) i o
    /\ estres_nivel lr = nivel_de (umbrales (features df)) (feat lr)
    /\ estres_etiqueta lr = dict_get etiquetas (estres_nivel lr).
Proof.
  intro H. apply In_nth_error in H. destruct H as [i Hi].
  rewrite crear_features_nth in Hi.
  destruct (nth_error (sort_values df) i) as [o|] eqn:E; [|discriminate].
  simpl in Hi. injection Hi as <-. exists i, o. simpl. auto.
Qed.

(** The raw columns of the labelled table are the sorted input. *)
Lemma crear_features_obs (df : list Obs) :
  map (fun lr => obs (feat lr)) (crear_features df) = sort_values df.
Proof.
  apply nth_error_ext. intro i.
  rewrite nth_error_map, crear_features_nth.
  destruct (nth_error (sort_values df) i); reflexivity.
Qed.

(** The thresholds are the quantiles of the sorted table's own columns. *)
Lemma umbrales_features (df : list Obs) :
  umbrales (features df)
  = {| p25_humedad := quantile 0.25 (map soil_humidity (sort_values df));
       p50_humedad := quantile 0.50 (map soil_humidity (sort_values df));
       p25_ndvi := quantile 0.25 (map ndvi (sort_values df));
       p50_ndvi := quantile 0.50 (map ndvi (sort_values df));
       p75_lst := quantile 0.75 (map lst (sort_values df)) |}.
Proof.
  unfold umbrales.
  rewrite <- !(map_map obs), features_obs. reflexivity.
Qed.

(** Trend cells are numbers or null, never an infinity. *)
Lemma diff_cell (w : nat) (xs : list Q) (i : nat) :
  nth i (diff w xs) NaN = NaN \/ exists t, nth i (diff w xs) NaN = Fin t.
Proof.
  destruct (nth_error (diff w xs) i) as [c|] eqn:E.
  - rewrite (nth_error_nth _ _ NaN E).
    assert (Hi : (i < length xs)%nat).
    { rewrite <- (diff_length w xs). apply nth_error_Some. congruence. }
    destruct (Nat.lt_ge_cases i w) as [Hw|Hw].
    + rewrite (diff_early w xs i Hi Hw) in E. left. congruence.
    + destruct (nth_error xs i) as [x|] eqn:Ex;
        [|apply nth_error_None in Ex; lia].
      destruct (nth_error xs (i - w)) as [y|] eqn:Ey;
        [|apply nth_error_None in Ey; lia].
      rewrite (diff_late w xs i x y Hw Ex Ey) in E. right. exists (x - y). congruence.
  - left. apply nth_error_None in E. apply nth_overflow. exact E.
Qed.

Lemma flt_trend (w : nat) (xs : list Q) (i : nat) (q : Q) :
  flt (nth i (diff w xs) NaN) (Fin q) = true
  <-> exists t, nth i (diff w xs) NaN = Fin t /\ t < q.
Proof.
  destruct (diff_cell w xs i) as [E | [t E]]; rewrite E; simpl.
  - split; [discriminate | intros (t & Ht & _); discriminate].
  - rewrite Qltb_lt. split.
    + intro H. exists t. auto.
    + intros (t' & [= <-] & H). exact H.
Qed.

End RowFacts.

(** ** Temporal Feature Deriver: trends and rolling means *)

Module TemporalFeatures.

Import Np Pd Ingenieria NpFacts PdFacts RollFacts QuantileFacts RowFacts.
Open Scope Q_scope.

(** The trend and rolling-mean cells of a labelled row are the cells of
    [diff] and of the rolling kernel over the sorted table's columns. *)
Lemma crear_features_ventanas (df : list Obs) (i : nat) (lr : LabeledRow) :
  nth_error (crear_features df) i = Some lr ->
  v7 (feat lr) = ventana_row 7 (sort_values df) i
  /\ v14 (feat lr) = ventana_row 14 (sort_values df) i.
Proof.
  rewrite crear_features_nth.
  destruct (nth_error (sort_values df) i) as [o|]; [|discriminate].
  simpl. intros [= <-]. split; reflexivity.
Qed.

(** The rolling means of a row of the table are trailing-window means of
    the sorted columns. *)
Lemma ventana_row_promedios (w : nat) (df : list Obs) (i : nat) :
  (1 <= w)%nat -> (i < length df)%nat ->
  exists a b c : Q,
    ndvi_promedio (ventana_row w df i) = Fin a
    /\ a == Qmean (trailing w i (map ndvi df))
    /\ humedad_promedio (ventana_row w df i) = Fin b
    /\ b == Qmean (trailing w i (map soil_humidity df))
    /\ tmax_promedio (ventana_row w df i) = Fin c
    /\ c == Qmean (trailing w i (map tmax df)).
Proof.
  intros Hw Hi.
  assert (H : forall f : Obs -> Q,
             exists m : Q,
               nth i (roll_mean w 1 (map f df)) NaN = Fin m
               /\ m == Qmean (trailing w i (map f df))).
  { intro f.
    destruct (nth_error (map f df) i) as [x|] eqn:Ex;
      [|apply nth_error_None in Ex; rewrite length_map in Ex; lia].
    destruct (roll_mean_spec w (map f df) i x Hw Ex) as (m & Hm & Hmean).
    exists m. split; [apply nth_error_nth; exact Hm | exact Hmean]. }
  destruct (H ndvi) as (a & Ha & Ha').
  destruct (H soil_humidity) as (b & Hb & Hb').
  destruct (H tmax) as (c & Hc & Hc').
  exists a, b, c. simpl. auto 10.
Qed.

(** Row [i] of the labelled table and the sorted input. *)
Lemma crear_features_fila (df : list Obs) (i : nat) (lr : LabeledRow) :
  nth_error (crear_features df) i = Some lr ->
  nth_error (sort_values df) i = Some (obs (feat lr))
  /\ (i < length (sort_values df))%nat.
Proof.
  intro H.
  assert (E : nth_error (sort_values df) i = Some (obs (feat lr))).
  { rewrite <- crear_features_obs, nth_error_map, H. reflexivity. }
  split; [exact E | apply nth_error_Some; congruence].
Qed.

(** The trend cells of the loop body on any table. *)
Lemma ventana_row_tendencias (window : nat) (tabla : list Obs) (i : nat) (o : Obs) :
  nth_error tabla i = Some o ->
  (isnull (ndvi_tendencia (ventana_row window tabla i)) = true <-> (i < window)%nat)
  /\ (isnull (humedad_tendencia (ventana_row window tabla i)) = true
      <-> (i < window)%nat)
  /\ ((window <= i)%nat ->
      exists p : Obs,
        nth_error tabla (i - window) = Some p
        /\ ndvi_tendencia (ventana_row window tabla i) = Fin (ndvi o - ndvi p)
        /\ humedad_tendencia (ventana_row window tabla i)
           = Fin (soil_humidity o - soil_humidity p))
  /\ ((length tabla < window)%nat ->
      ndvi_tendencia (ventana_row window tabla i) = NaN
      /\ humedad_tendencia (ventana_row window tabla i) = NaN).
Proof.
  intro Ho.
  assert (Hi : (i < length tabla)%nat) by (apply nth_error_Some; congruence).
  assert (Hcol : forall f : Obs -> Q,
             (isnull (nth i (diff window (map f tabla)) NaN) = true
              <-> (i < window)%nat)
             /\ (forall p : Obs,
                   (window <= i)%nat -> nth_error tabla (i - window) = Some p ->
                   nth i (diff window (map f tabla)) NaN = Fin (f o - f p))
             /\ ((i < window)%nat -> nth i (diff window (map f tabla)) NaN = NaN)).
  { intro f.
    assert (Hfi : (i < length (map f tabla))%nat) by (rewrite length_map; exact Hi).
    split; [|split].
    - destruct (Nat.lt_ge_cases i window) as [Hw|Hw].
      + rewrite (nth_error_nth _ _ NaN (diff_early window _ i Hfi Hw)).
        simpl. tauto.
      + destruct (nth_error tabla (i - window)) as [p|] eqn:Ep;
          [|apply nth_error_None in Ep; lia].
        assert (E1 : nth_error (map f tabla) i = Some (f o))
          by (rewrite nth_error_map, Ho; reflexivity).
        assert (E2 : nth_error (map f tabla) (i - window) = Some (f p))
          by (rewrite nth_error_map, Ep; reflexivity).
        rewrite (nth_error_nth _ _ NaN (diff_late window _ i _ _ Hw E1 E2)).
        simpl. split; [discriminate | lia].
    - intros p Hw Ep.
      assert (E1 : nth_error (map f tabla) i = Some (f o))
        by (rewrite nth_error_map, Ho; reflexivity).
      assert (E2 : nth_error (map f tabla) (i - window) = Some (f p))
        by (rewrite nth_error_map, Ep; reflexivity).
      apply nth_error_nth. apply diff_late; assumption.
    - intro Hw. apply nth_error_nth. apply diff_early; assumption. }
  destruct (Hcol ndvi) as (Hn1 & Hn2 & Hn3).
  destruct (Hcol soil_humidity) as (Hh1 & Hh2 & Hh3).
  split; [exact Hn1|]. split; [exact Hh1|]. split.
  - intro Hw.
    destruct (nth_error tabla (i - window)) as [p|] eqn:Ep;
      [|apply nth_error_None in Ep; lia].
    exists p. split; [reflexivity|].
    split; [apply Hn2 | apply Hh2]; auto.
  - intro Hl. split; [apply Hn3 | apply Hh3]; lia.
Qed.

(** C7.  In the table that [crear_features] returns, the window columns of
    row [i] are those of the loop body [ventana_row] for 7 and for 14 days
    on the table's own rows; and for every window size the trend cells that
    the loop body writes at row [i] (NDVI and soil humidity) are null
    exactly when [i] is among the first [window] rows, and are otherwise the
    value of row [i] minus the value [window] rows earlier.  Hence in a
    table shorter than the window every trend cell is null. *)
Theorem tendencia_null_iff_first_rows (df : list Obs) (i : nat) (lr : LabeledRow) :
  nth_error (crear_features df) i = Some lr ->
  v7 (feat lr)
  = ventana_row 7 (map (fun r => obs (feat r)) (crear_features df)) i
  /\ v14 (feat lr)
     = ventana_row 14 (map (fun r => obs (feat r)) (crear_features df)) i
  /\ forall window : nat,
       let v := ventana_row window
                  (map (fun r => obs (feat r)) (crear_features df)) i in
       (isnull (ndvi_tendencia v) = true <-> (i < window)%nat)
       /\ (isnull (humedad_tendencia v) = true <-> (i < window)%nat)
       /\ ((window <= i)%nat ->
           exists p : LabeledRow,
             nth_error (crear_features df) (i - window) = Some p
             /\ ndvi_tendencia v
                = Fin (ndvi (obs (feat lr)) - ndvi (obs (feat p)))
             /\ humedad_tendencia v
                = Fin (soil_humidity (obs (feat lr))
                       - soil_humidity (obs (feat p))))
       /\ ((length df < window)%nat ->
           ndvi_tendencia v = NaN /\ humedad_tendencia v = NaN).
Proof.
  intro Hnth.
  destruct (crear_features_ventanas df i lr Hnth) as [H7 H14].
  destruct (crear_features_fila df i lr Hnth) as [Ho Hi].
  rewrite crear_features_obs.
  split; [exact H7|]. split; [exact H14|].
  intros window v.
  destruct (ventana_row_tendencias window (sort_values df) i _ Ho)
    as (Hn & Hh & Hlate & Hshort).
  split; [exact Hn|]. split; [exact Hh|]. split.
  - intro Hw. destruct (Hlate Hw) as (p & Hp & En & Eh).
    destruct (nth_error (crear_features df) (i - window)) as [pr|] eqn:Epr.
    + exists pr. split; [reflexivity|].
      destruct (crear_features_fila df (i - window) pr Epr) as [Hp' _].
      rewrite Hp in Hp'. injection Hp' as <-. split; [exact En | exact Eh].
    + apply nth_error_None in Epr. rewrite crear_features_length in Epr.
      unfold sort_values in Hi. rewrite sort_length in Hi. lia.
  - intro Hl. apply Hshort. unfold sort_values. rewrite sort_length. exact Hl.
Qed.

Lemma tendencia_null_iff_first_rows_witness :
  exists lr : LabeledRow,
    nth_error (crear_features Muestras.obs_quince) 14 = Some lr
    /\ v7 (feat lr)
       = ventana_row 7
           (map (fun r => obs (feat r)) (crear_features Muestras.obs_quince)) 14
    /\ v14 (feat lr)
       = ventana_row 14
           (map (fun r => obs (feat r)) (crear_features Muestras.obs_quince)) 14
    /\ forall window : nat,
         let v := ventana_row window
                    (map (fun r => obs (feat r))
                         (crear_features Muestras.obs_quince)) 14 in
         (isnull (ndvi_tendencia v) = true <-> (14 < window)%nat)
         /\ (isnull (humedad_tendencia v) = true <-> (14 < window)%nat)
         /\ ((window <= 14)%nat ->
             exists p : LabeledRow,
               nth_error (crear_features Muestras.obs_quince) (14 - window) = Some p
               /\ ndvi_tendencia v
                  = Fin (ndvi (obs (feat lr)) - ndvi (obs (feat p)))
               /\ humedad_tendencia v
                  = Fin (soil_humidity (obs (feat lr))
                         - soil_humidity (obs (feat p))))
         /\ ((length Muestras.obs_quince < window)%nat ->
             ndvi_tendencia v = NaN /\ humedad_tendencia v = NaN).
Proof.
  eexists. split; [reflexivity|].
  apply (tendencia_null_iff_first_rows Muestras.obs_quince 14). reflexivity.
Defined.

(** The rolling means of the loop body on any table. *)
Lemma ventana_row_media (window : nat) (tabla : list Obs) (i : nat) (o : Obs)
      (columna : Obs -> Q) :
  (1 <= window)%nat ->
  nth_error tabla i = Some o ->
  exists (col : list float64) (m : Q),
    rolling_mean window 1 (map columna tabla) = Ok col
    /\ nth_error col i = Some (Fin m)
    /\ nth i (roll_mean window 1 (map columna tabla)) NaN = Fin m
    /\ m == Qmean (trailing window i (map columna tabla))
    /\ trailing window i (map columna tabla)
       = firstn (Nat.min (S i) window) (skipn (S i - window) (map columna tabla))
    /\ (i = 0%nat -> m == columna o).
Proof.
  intros Hw Ho.
  assert (Hx : nth_error (map columna tabla) i = Some (columna o))
    by (rewrite nth_error_map, Ho; reflexivity).
  destruct (roll_mean_spec window (map columna tabla) i _ Hw Hx) as (m & Hm & Hmean).
  exists (roll_mean window 1 (map columna tabla)), m.
  split.
  { unfold rolling_mean.
    assert (E : (window <? 1)%nat = false) by (apply Nat.ltb_ge; exact Hw).
    rewrite E. reflexivity. }
  split; [exact Hm|]. split; [apply nth_error_nth; exact Hm|].
  split; [exact Hmean|]. split.
  { unfold trailing. f_equal. lia. }
  intros ->. rewrite Hmean.
  destruct (map columna tabla) as [|y values]; [discriminate|].
  injection Hx as ->. rewrite trailing_0 by exact Hw.
  unfold Qmean, Qsum. simpl. field.
Qed.

(** C8.  In the table that [crear_features] returns, the window columns of
    row [i] are those of the loop body [ventana_row] for 7 and for 14 days
    on the table's own rows; and for every window size of at least one row,
    each rolling mean that the loop body writes at row [i] (of NDVI, of soil
    humidity and of the maximum temperature) is the cell of
    [rolling(window, min_periods=1).mean()] and equals the mean of the
    trailing window ending at [i], which holds the [min (i + 1) window] rows
    that exist; at row 0 it is the raw value of row 0. *)
Theorem promedio_trailing_window (df : list Obs) (i : nat) (lr : LabeledRow) :
  nth_error (crear_features df) i = Some lr ->
  v7 (feat lr)
  = ventana_row 7 (map (fun r => obs (feat r)) (crear_features df)) i
  /\ v14 (feat lr)
     = ventana_row 14 (map (fun r => obs (feat r)) (crear_features df)) i
  /\ forall (window : nat) (columna : Obs -> Q) (promedio : Ventana -> float64),
       (1 <= window)%nat ->
       In (columna, promedio)
          [(ndvi, ndvi_promedio); (soil_humidity, humedad_promedio);
           (tmax, tmax_promedio)] ->
       let tabla := map (fun r => obs (feat r)) (crear_features df) in
       exists (col : list float64) (m : Q),
         rolling_mean window 1 (map columna tabla) = Ok col
         /\ nth_error col i = Some (Fin m)
         /\ promedio (ventana_row window tabla i) = Fin m
         /\ m == Qmean (trailing window i (map columna tabla))
         /\ trailing window i (map columna tabla)
            = firstn (Nat.min (S i) window)
                     (skipn (S i - window) (map columna tabla))
         /\ (i = 0%nat -> m == columna (obs (feat lr))).
Proof.
  intro Hnth.
  destruct (crear_features_ventanas df i lr Hnth) as [H7 H14].
  destruct (crear_features_fila df i lr Hnth) as [Ho Hi].
  rewrite crear_features_obs.
  split; [exact H7|]. split; [exact H14|].
  intros window columna promedio Hw Hin tabla. subst tabla.
  destruct (ventana_row_media window (sort_values df) i _ columna Hw Ho)
    as (col & m & Hcol & Hm & Hcell & Hmean & Htr & H0).
  exists col, m.
  split; [exact Hcol|]. split; [exact Hm|]. split.
  { destruct Hin as [E | [E | [E | []]]]; injection E as <- <-; exact Hcell. }
  split; [exact Hmean|]. split; [exact Htr | exact H0].
Qed.

Lemma promedio_trailing_window_witness :
  exists lr : LabeledRow,
    nth_error (crear_features Muestras.obs_quince) 14 = Some lr
    /\ v7 (feat lr)
       = ventana_row 7
           (map (fun r => obs (feat r)) (crear_features Muestras.obs_quince)) 14
    /\ v14 (feat lr)
       = ventana_row 14
           (map (fun r => obs (feat r)) (crear_features Muestras.obs_quince)) 14
    /\ forall (window : nat) (columna : Obs -> Q) (promedio : Ventana -> float64),
         (1 <= window)%nat ->
         In (columna, promedio)
            [(ndvi, ndvi_promedio); (soil_humidity, humedad_promedio);
             (tmax, tmax_promedio)] ->
         let tabla := map (fun r => obs (feat r))
                          (crear_features Muestras.obs_quince) in
         exists (col : list float64) (m : Q),
           rolling_mean window 1 (map columna tabla) = Ok col
           /\ nth_error col 14 = Some (Fin m)
           /\ promedio (ventana_row window tabla 14) = Fin m
           /\ m == Qmean (trailing window 14 (map columna tabla))
           /\ trailing window 14 (map columna tabla)
              = firstn (Nat.min 15 window) (skipn (15 - window) (map columna tabla))
           /\ (14%nat = 0%nat -> m == columna (obs (feat lr))).
Proof.
  eexists. split; [reflexivity|].
  apply (promedio_trailing_window Muestras.obs_quince 14). reflexivity.
Defined.

(** The windows of [ventanas] pass the validation of [rolling]. *)
Lemma rolling_mean_ventanas (values : list Q) :
  rolling_mean 7 1 values = Ok (roll_mean 7 1 values)
  /\ rolling_mean 14 1 values = Ok (roll_mean 14 1 values).
Proof. split; reflexivity. Qed.

(** A window of zero rows is refused by [rolling]. *)
Lemma rolling_mean_window_0 (values : list Q) :
  rolling_mean 0 1 values = Raise ValueError.
Proof. reflexivity. Qed.

End TemporalFeatures.

(** ** Stress Label Deriver *)

Module Labels.

Import Np Pd Ingenieria NpFacts PdFacts QuantileFacts RowFacts.
Open Scope Q_scope.

Lemma quantile_Fin (q : Q) (xs : list Q) :
  xs <> [] -> exists a : Q, quantile q xs = Fin a.
Proof.
  destruct xs as [|x xs]; [congruence|]. intros _.
  rewrite quantile_interp. eexists. reflexivity.
Qed.

(** On a table with at least one row the five thresholds are numbers. *)
Lemma umbrales_thresholds (df : list Obs) :
  sort_values df <> [] ->
  exists T : Spec.Thresholds,
    Spec.thresholds_of (sort_values df) T
    /\ umbrales (features df)
       = {| p25_humedad := Fin (Spec.P25_humidity T);
            p50_humedad := Fin (Spec.P50_humidity T);
            p25_ndvi := Fin (Spec.P25_ndvi T);
            p50_ndvi := Fin (Spec.P50_ndvi T);
            p75_lst := Fin (Spec.P75_lst T) |}.
Proof.
  intro Hne. rewrite umbrales_features.
  assert (Hmap : forall f : Obs -> Q, map f (sort_values df) <> []).
  { intros f E. apply map_eq_nil in E. contradiction. }
  destruct (quantile_Fin 0.25 _ (Hmap soil_humidity)) as [a Ea].
  destruct (quantile_Fin 0.50 _ (Hmap soil_humidity)) as [b Eb].
  destruct (quantile_Fin 0.25 _ (Hmap ndvi)) as [c Ec].
  destruct (quantile_Fin 0.50 _ (Hmap ndvi)) as [d Ed].
  destruct (quantile_Fin 0.75 _ (Hmap lst)) as [e Ee].
  exists (Spec.mkThresholds a b c d e).
  unfold Spec.thresholds_of. simpl.
  rewrite Ea, Eb, Ec, Ed, Ee. repeat split; reflexivity.
Qed.

Section Rules.
Variable T : Spec.Thresholds.
Variable df : list Obs.
Variable i : nat.
Variable o : Obs.

Let u : Umbrales :=
  {| p25_humedad := Fin (Spec.P25_humidity T);
     p50_humedad := Fin (Spec.P50_humidity T);
     p25_ndvi := Fin (Spec.P25_ndvi T);
     p50_ndvi := Fin (Spec.P50_ndvi T);
     p75_lst := Fin (Spec.P75_lst T) |}.

Let r : FeatureRow := feature_row df i o.

Lemma estres_moderado_iff : estres_moderado u r = true <-> Spec.moderate T r.
Proof.
  unfold estres_moderado, Spec.moderate, Spec.trend_below, fgt.
  rewrite !orb_true_iff, !andb_true_iff. simpl.
  rewrite !Qltb_lt, flt_trend. tauto.
Qed.

Lemma estres_severo_iff : estres_severo u r = true <-> Spec.severe T r.
Proof.
  unfold estres_severo, Spec.severe, Spec.trend_below, fgt.
  rewrite !orb_true_iff, !andb_true_iff. simpl.
  rewrite !Qltb_lt, flt_trend. tauto.
Qed.

(** The level written by lines 76, 84 and 92 is the level of steps 2-4. *)
Lemma nivel_label : Spec.label T r (nivel_de u r).
Proof.
  destruct (estres_severo u r) eqn:Es.
  - apply Spec.label_severe, estres_severo_iff, Es.
  - assert (Hs : ~ Spec.severe T r).
    { intro H. apply estres_severo_iff in H. congruence. }
    destruct (estres_moderado u r) eqn:Em.
    + apply Spec.label_moderate; [exact Hs | apply estres_moderado_iff, Em].
    + apply Spec.label_none; [exact Hs|].
      intro H. apply estres_moderado_iff in H. congruence.
Qed.
End Rules.

Lemma label_functional (T : Spec.Thresholds) (r : FeatureRow) (n m : Z) :
  Spec.label T r n -> Spec.label T r m -> n = m.
Proof.
  intros Hn Hm. destruct Hn, Hm; try reflexivity; contradiction.
Qed.


Lemma label_cases (T : Spec.Thresholds) (r : FeatureRow) (n : Z) :
  Spec.label T r n ->
  (n = 2%Z /\ Spec.severe T r)
  \/ (n = 1%Z /\ ~ Spec.severe T r /\ Spec.moderate T r)
  \/ (n = 0%Z /\ ~ Spec.severe T r /\ ~ Spec.moderate T r).
Proof. intros []; auto. Qed.




(** In the four-row sample the second row is the moderate one: its soil
    humidity, 18, is below the median humidity 20 and not below the 25th
    percentile 16, and its NDVI, 0.5, is below the median NDVI 0.55. *)
Lemma obs_cuatro_niveles :
  map estres_nivel (crear_features Muestras.obs_cuatro) = [2; 1; 0; 0]%Z
  /\ exists T : Spec.Thresholds,
       Spec.thresholds_of (sort_values Muestras.obs_cuatro) T
       /\ Spec.P25_humidity T == 16 /\ Spec.P50_humidity T == 20
       /\ Spec.P25_ndvi T == 0.45 /\ Spec.P50_ndvi T == 0.55
       /\ Spec.P75_lst T == 30.
Proof.
  split; [reflexivity|].
  eexists (Spec.mkThresholds _ _ _ _ _). unfold Spec.thresholds_of.
  cbn [Spec.P25_humidity Spec.P50_humidity Spec.P25_ndvi Spec.P50_ndvi Spec.P75_lst].
  repeat split; reflexivity.
Qed.

(** C5 (as the code has it).  The text tag of every labelled row is the
    entry of its level in the dictionary of lines 95-99: 0 gives
    "sin_estres", 1 gives "estres_moderado", 2 gives "estres_severo". *)
Theorem crear_features_etiqueta (df : list Obs) (lr : LabeledRow) :
  In lr (crear_features df) ->
  (estres_nivel lr = 0%Z /\ estres_etiqueta lr = Some "sin_estres"%string)
  \/ (estres_nivel lr = 1%Z /\ estres_etiqueta lr = Some "estres_moderado"%string)
  \/ (estres_nivel lr = 2%Z /\ estres_etiqueta lr = Some "estres_severo"%string).
Proof.
  intro Hin.
  destruct (crear_features_In df lr Hin) as (i & o & _ & _ & Hniv & Htag).
  rewrite Htag, Hniv.
  destruct (estres_severo _ _); [right; right; split; reflexivity|].
  destruct (estres_moderado _ _); [right; left; split; reflexivity|].
  left. split; reflexivity.
Qed.

Lemma crear_features_etiqueta_witness :
  (0%Z = 0%Z /\ Some "sin_estres"%string = Some "sin_estres"%string)
  \/ (0%Z = 1%Z /\ Some "sin_estres"%string = Some "estres_moderado"%string)
  \/ (0%Z = 2%Z /\ Some "sin_estres"%string = Some "estres_severo"%string).
Proof.
  apply (crear_features_etiqueta Ejemplos.obs_una_fila
           (mkLabeledRow
              (feature_row (sort_values Ejemplos.obs_una_fila) 0
                 (mkObs (Fecha.mkTimestamp 2024 6 15) 0.6 0.5 30 28 15 20))
              0 (Some "sin_estres"%string))).
  left. reflexivity.
Defined.

(** With the tags as the specification spells them the property fails: the
    only row of a one-line table has level 0 and the tag "sin_estres", not
    "no_stress". *)
Lemma etiqueta_differs_from_spec_tag :
  (exists lr : LabeledRow,
      In lr (crear_features Ejemplos.obs_una_fila)
      /\ estres_nivel lr = 0%Z
      /\ estres_etiqueta lr = Some "sin_estres"%string
      /\ Spec.tag (estres_nivel lr) = Some "no_stress"%string)
  /\ ~ (forall (df : list Obs) (lr : LabeledRow),
          In lr (crear_features df) ->
          estres_etiqueta lr = Spec.tag (estres_nivel lr)).
Proof.
  assert (Hin : In (mkLabeledRow
                      (feature_row (sort_values Ejemplos.obs_una_fila) 0
                         (mkObs (Fecha.mkTimestamp 2024 6 15) 0.6 0.5 30 28 15 20))
                      0 (Some "sin_estres"%string))
                   (crear_features Ejemplos.obs_una_fila)).
  { left. reflexivity. }
  split.
  - eexists. split; [exact Hin|]. repeat split.
  - intro H. specialize (H _ _ Hin). discriminate H.
Qed.

End Labels.

(** ** Stress Label Deriver in binary64 *)

Module Labels64.

Import Pd Fecha Ingenieria64 PdFacts QuantileFacts RowFacts.
#[local] Set Warnings "-inexact-float".
Open Scope float_scope.

Lemma shift_length_b64 (w : nat) (xs : list float) : length (shift w xs) = length xs.
Proof.
  unfold shift. rewrite length_firstn, length_app, repeat_length. lia.
Qed.

Lemma shift_nth_error_early_b64 (w : nat) (xs : list float) (i : nat) :
  (i < length xs)%nat -> (i < w)%nat -> nth_error (shift w xs) i = Some nan.
Proof.
  intros Hi Hw. unfold shift.
  rewrite nth_error_firstn.
  assert (E : (i <? length xs)%nat = true) by (apply Nat.ltb_lt; exact Hi).
  rewrite E, nth_error_app1 by (rewrite repeat_length; exact Hw).
  apply nth_error_repeat. exact Hw.
Qed.

Lemma shift_nth_error_late_b64 (w : nat) (xs : list float) (i : nat) :
  (i < length xs)%nat -> (w <= i)%nat ->
  nth_error (shift w xs) i = nth_error xs (i - w).
Proof.
  intros Hi Hw. unfold shift.
  rewrite nth_error_firstn.
  assert (E : (i <? length xs)%nat = true) by (apply Nat.ltb_lt; exact Hi).
  rewrite E, nth_error_app2 by (rewrite repeat_length; exact Hw).
  rewrite repeat_length. reflexivity.
Qed.

(** A cell of [diff] in the first [w] rows is [x - nan], which is nan;
    later it is the difference with the value [w] rows earlier. *)
Lemma sub_nan (x : float) : x - nan = nan.
Proof.
  pose proof (FloatAxioms.sub_spec x nan) as H.
  rewrite <- (FloatAxioms.SF2Prim_Prim2SF (x - nan)), H.
  change (Prim2SF nan) with SpecFloat.S754_nan.
  destruct (Prim2SF x); reflexivity.
Qed.

Lemma diff_early_b64 (w : nat) (xs : list float) (i : nat) :
  (i < length xs)%nat -> (i < w)%nat -> nth i (diff w xs) nan = nan.
Proof.
  intros Hi Hw. apply nth_error_nth. unfold diff.
  rewrite zip_with_nth, (shift_nth_error_early_b64 w xs i Hi Hw).
  destruct (nth_error xs i) as [x|] eqn:E; [|apply nth_error_None in E; lia].
  rewrite sub_nan. reflexivity.
Qed.

Lemma diff_late_b64 (w : nat) (xs : list float) (i : nat) (x y : float) :
  (w <= i)%nat -> nth_error xs i = Some x -> nth_error xs (i - w) = Some y ->
  nth i (diff w xs) nan = x - y.
Proof.
  intros Hw Hx Hy. apply nth_error_nth. unfold diff.
  assert (Hi : (i < length xs)%nat) by (apply nth_error_Some; congruence).
  rewrite zip_with_nth, Hx, (shift_nth_error_late_b64 w xs i Hi Hw), Hy. reflexivity.
Qed.

(** The product of two doubles does not depend on their order, so the
    deficit of lines 50-54 is the specification's score. *)
Lemma SFmul_comm (x y : SpecFloat.spec_float) :
  SpecFloat.SFmul FloatOps.prec FloatOps.emax x y
  = SpecFloat.SFmul FloatOps.prec FloatOps.emax y x.
Proof.
  destruct x as [sx| sx| |sx mx ex], y as [sy| sy| |sy my ey]; simpl;
    rewrite ?(xorb_comm sx sy); try reflexivity.
  rewrite (Pos.mul_comm mx my), (Z.add_comm ex ey). reflexivity.
Qed.

Lemma mul_comm_b64 (x y : float) : x * y = y * x.
Proof.
  rewrite <- (FloatAxioms.SF2Prim_Prim2SF (x * y)),
          <- (FloatAxioms.SF2Prim_Prim2SF (y * x)).
  rewrite !FloatAxioms.mul_spec, SFmul_comm. reflexivity.
Qed.

Lemma deficit_is_deficit_score_b64 (o : Obs) :
  deficit o = Spec64.deficit_score (soil_humidity o) (lst o) (ndvi o).
Proof.
  unfold deficit, Spec64.deficit_score, humedad_norm, temp_norm.
  rewrite (mul_comm_b64 0.5), (mul_comm_b64 0.3), (mul_comm_b64 0.2).
  reflexivity.
Qed.

Lemma features_nth_b64 (df : list Obs) (i : nat) :
  nth_error (features df) i
  = option_map (fila_de (sort_values df) i) (nth_error (sort_values df) i).
Proof. unfold features. apply mapi_from_nth. Qed.

Lemma features_obs_b64 (df : list Obs) : map obs (features df) = sort_values df.
Proof.
  apply nth_error_ext. intro i. rewrite nth_error_map, features_nth_b64.
  destruct (nth_error (sort_values df) i); reflexivity.
Qed.

Lemma features_length_b64 (df : list Obs) : length (features df) = length df.
Proof.
  unfold features. rewrite mapi_from_length. apply sort_length.
Qed.

(** The label that lines 76, 84 and 92 leave on a row. *)
Lemma niveles_nth_b64 (rows : list Fila) (i : nat) :
  nth_error (niveles rows) i
  = option_map
      (fun r => if estres_severo (umbrales rows) r then 2%Z
                else if estres_moderado (umbrales rows) r then 1%Z else 0%Z)
      (nth_error rows i).
Proof.
  unfold niveles, loc_set. rewrite !zip_with_nth, !nth_error_map.
  destruct (nth_error rows i) as [r|] eqn:E; simpl; [|reflexivity].
  assert (Hi : (i < length rows)%nat) by (apply nth_error_Some; congruence).
  rewrite nth_error_repeat by exact Hi.
  destruct (estres_severo (umbrales rows) r), (estres_moderado (umbrales rows) r);
    reflexivity.
Qed.

Lemma crear_features_nth_b64 (df : list Obs) (i : nat) :
  nth_error (crear_features df) i
  = option_map
      (fun o =>
         let r := fila_de (sort_values df) i o in
         let n := if estres_severo (umbrales (features df)) r then 2%Z
                  else if estres_moderado (umbrales (features df)) r then 1%Z
                  else 0%Z in
         mkEtiquetada r n (Ingenieria.dict_get Ingenieria.etiquetas n))
      (nth_error (sort_values df) i).
Proof.
  unfold crear_features. rewrite zip_with_nth, niveles_nth_b64, features_nth_b64.
  destruct (nth_error (sort_values df) i); reflexivity.
Qed.

Lemma crear_features_obs_b64 (df : list Obs) :
  map (fun lr => obs (fila lr)) (crear_features df) = sort_values df.
Proof.
  apply nth_error_ext. intro i.
  rewrite nth_error_map, crear_features_nth_b64.
  destruct (nth_error (sort_values df) i); reflexivity.
Qed.

Lemma umbrales_features_b64 (df : list Obs) :
  Spec64.thresholds_of (sort_values df) (umbrales (features df)).
Proof.
  unfold Spec64.thresholds_of, umbrales. cbn [p25_humedad p50_humedad p25_ndvi p50_ndvi p75_lst].
  rewrite <- !(map_map obs), features_obs_b64. repeat split.
Qed.

Lemma estres_moderado_iff_b64 (T : Umbrales) (r : Fila) :
  estres_moderado T r = true <-> Spec64.moderate T r.
Proof.
  unfold estres_moderado, Spec64.moderate, Spec64.lt.
  rewrite !orb_true_iff, !andb_true_iff. tauto.
Qed.

Lemma estres_severo_iff_b64 (T : Umbrales) (r : Fila) :
  estres_severo T r = true <-> Spec64.severe T r.
Proof.
  unfold estres_severo, Spec64.severe, Spec64.lt.
  rewrite !orb_true_iff, !andb_true_iff. tauto.
Qed.

Lemma nivel_label_b64 (T : Umbrales) (r : Fila) :
  Spec64.label T r (if estres_severo T r then 2%Z
                    else if estres_moderado T r then 1%Z else 0%Z).
Proof.
  destruct (estres_severo T r) eqn:Es.
  - apply Spec64.label_severe, estres_severo_iff_b64, Es.
  - assert (Hs : ~ Spec64.severe T r).
    { intro H. apply estres_severo_iff_b64 in H. congruence. }
    destruct (estres_moderado T r) eqn:Em.
    + apply Spec64.label_moderate; [exact Hs | apply estres_moderado_iff_b64, Em].
    + apply Spec64.label_none; [exact Hs|].
      intro H. apply estres_moderado_iff_b64 in H. congruence.
Qed.

Lemma label_functional_b64 (T : Umbrales) (r : Fila) (n m : Z) :
  Spec64.label T r n -> Spec64.label T r m -> n = m.
Proof.
  intros Hn Hm. destruct Hn, Hm; try reflexivity; contradiction.
Qed.

(** C2.  On binary64 numbers, as the program computes them: every row of
    the labelled table carries the level of the rules, 0 by default, 1 when
    a moderate rule holds, 2 when a severe rule holds (severe winning over
    moderate), and no other level; the five thresholds are the percentiles
    of the table's own soil_humidity, ndvi and lst columns; the deficit the
    rules read is the specification's clipped blend of the row's own values,
    and the 7-day and 14-day trends they read are null in the first 7 and 14
    rows (where their comparisons fail) and otherwise the NDVI of the row
    minus the NDVI 7 and 14 rows earlier. *)
Theorem crear_features_label_rules (df : list Obs) (i : nat) (lr : Etiquetada) :
  nth_error (crear_features df) i = Some lr ->
  exists T : Umbrales,
    Spec64.thresholds_of (map (fun r => obs (fila r)) (crear_features df)) T
    /\ Spec64.label T (fila lr) (estres_nivel lr)
    /\ (forall n : Z, Spec64.label T (fila lr) n -> n = estres_nivel lr)
    /\ deficit_combinado (fila lr)
       = Spec64.deficit_score (soil_humidity (obs (fila lr))) (lst (obs (fila lr)))
                              (ndvi (obs (fila lr)))
    /\ forall (window : nat) (tendencia : float),
         In (window, tendencia)
            [(7%nat, ndvi_tendencia_7d (fila lr));
             (14%nat, ndvi_tendencia_14d (fila lr))] ->
         ((i < window)%nat ->
          tendencia = nan /\ forall x : float, (tendencia <? x) = false)
         /\ ((window <= i)%nat ->
             exists p : Etiquetada,
               nth_error (crear_features df) (i - window) = Some p
               /\ tendencia = ndvi (obs (fila lr)) - ndvi (obs (fila p))).
Proof.
  intro Hnth. pose proof Hnth as Hrow. rewrite crear_features_nth_b64 in Hrow.
  destruct (nth_error (sort_values df) i) as [o|] eqn:Eo; [|discriminate].
  cbn [option_map] in Hrow. injection Hrow as Hlr.
  assert (Hfila : fila lr = fila_de (sort_values df) i o)
    by (rewrite <- Hlr; reflexivity).
  assert (Hniv : estres_nivel lr
                 = if estres_severo (umbrales (features df)) (fila lr) then 2%Z
                   else if estres_moderado (umbrales (features df)) (fila lr)
                        then 1%Z else 0%Z)
    by (rewrite <- Hlr; reflexivity).
  clear Hlr.
  exists (umbrales (features df)).
  split; [rewrite crear_features_obs_b64; apply umbrales_features_b64|].
  assert (Hl : Spec64.label (umbrales (features df)) (fila lr) (estres_nivel lr))
    by (rewrite Hniv; apply nivel_label_b64).
  split; [exact Hl|].
  split; [intros n Hn; exact (label_functional_b64 _ _ _ _ Hn Hl)|].
  split; [rewrite Hfila; apply deficit_is_deficit_score_b64|].
  assert (Hi : (i < length (map ndvi (sort_values df)))%nat).
  { rewrite length_map. apply nth_error_Some. congruence. }
  assert (Hcell : forall window : nat,
             ((i < window)%nat ->
              nth i (diff window (map ndvi (sort_values df))) nan = nan)
             /\ ((window <= i)%nat ->
                 exists p : Etiquetada,
                   nth_error (crear_features df) (i - window) = Some p
                   /\ nth i (diff window (map ndvi (sort_values df))) nan
                      = ndvi (obs (fila lr)) - ndvi (obs (fila p)))).
  { intro window. split.
    - intro Hw. apply diff_early_b64; assumption.
    - intro Hw.
      destruct (nth_error (crear_features df) (i - window)) as [p|] eqn:Ep.
      + exists p. split; [reflexivity|].
        assert (Hp : nth_error (sort_values df) (i - window) = Some (obs (fila p))).
        { rewrite <- crear_features_obs_b64, nth_error_map, Ep. reflexivity. }
        apply diff_late_b64; [exact Hw | |].
        * rewrite nth_error_map, Eo, Hfila. reflexivity.
        * rewrite nth_error_map, Hp. reflexivity.
      + exfalso. apply nth_error_None in Ep.
        assert (Hlen : length (crear_features df) = length (sort_values df)).
        { rewrite <- (crear_features_obs_b64 df), length_map. reflexivity. }
        rewrite length_map in Hi. lia. }
  assert (E7 : ndvi_tendencia_7d (fila lr)
               = nth i (diff 7 (map ndvi (sort_values df))) nan)
    by (rewrite Hfila; reflexivity).
  assert (E14 : ndvi_tendencia_14d (fila lr)
                = nth i (diff 14 (map ndvi (sort_values df))) nan)
    by (rewrite Hfila; reflexivity).
  intros window tendencia [E | [E | []]]; injection E as <- <-;
    rewrite ?E7, ?E14.
  - destruct (Hcell 7%nat) as [H1 H2]. split; [|exact H2].
    intro Hw. rewrite (H1 Hw). split; [reflexivity|].
    intro x. rewrite FloatAxioms.ltb_spec. reflexivity.
  - destruct (Hcell 14%nat) as [H1 H2]. split; [|exact H2].
    intro Hw. rewrite (H1 Hw). split; [reflexivity|].
    intro x. rewrite FloatAxioms.ltb_spec. reflexivity.
Qed.

Lemma crear_features_label_rules_witness :
  exists lr : Etiquetada,
    nth_error (crear_features Muestras64.obs_redondeo) 7 = Some lr
    /\ estres_nivel lr = 1%Z
    /\ ndvi_tendencia_7d (fila lr) = 0.5 - 0.53
    /\ exists T : Umbrales,
         Spec64.thresholds_of
           (map (fun r => obs (fila r)) (crear_features Muestras64.obs_redondeo)) T
         /\ Spec64.label T (fila lr) (estres_nivel lr)
         /\ (forall n : Z, Spec64.label T (fila lr) n -> n = estres_nivel lr)
         /\ deficit_combinado (fila lr)
            = Spec64.deficit_score (soil_humidity (obs (fila lr)))
                                   (lst (obs (fila lr))) (ndvi (obs (fila lr)))
         /\ forall (window : nat) (tendencia : float),
              In (window, tendencia)
                 [(7%nat, ndvi_tendencia_7d (fila lr));
                  (14%nat, ndvi_tendencia_14d (fila lr))] ->
              ((7 < window)%nat ->
               tendencia = nan /\ forall x : float, (tendencia <? x) = false)
              /\ ((window <= 7)%nat ->
                  exists p : Etiquetada,
                    nth_error (crear_features Muestras64.obs_redondeo) (7 - window)
                    = Some p
                    /\ tendencia = ndvi (obs (fila lr)) - ndvi (obs (fila p))).
Proof.
  eexists. split; [reflexivity|]. split; [reflexivity|]. split; [reflexivity|].
  apply (crear_features_label_rules Muestras64.obs_redondeo 7). reflexivity.
Defined.

(** The levels of the nine-day sample.  On doubles the second row is
    moderate through its deficit, 0.4000000000000001 > 0.4, and the eighth
    through its 7-day trend, 0.5 - 0.53 = -0.030000000000000027 < -0.03;
    on exact rationals the deficit is 0.4 and the trend -0.03, and both
    rows would be left at level 0. *)
Lemma obs_redondeo_niveles :
  map estres_nivel (crear_features Muestras64.obs_redondeo)
  = [0; 1; 2; 2; 0; 0; 0; 1; 0]%Z
  /\ (0.4 <? deficit (mkObs (mkTimestamp 2024 1 2) 0.6 0.5 27 28 15 14.7)) = true
  /\ (0.5 - 0.53 <? -0.03) = true
  /\ map Ingenieria.estres_nivel (Ingenieria.crear_features Muestras.obs_redondeo)
     = [0; 0; 2; 2; 0; 0; 0; 0; 0]%Z.
Proof. repeat split. Qed.

(** The quantiles of two humidities one unit in the last place apart: the
    25th and the 50th percentile both round to the smaller value. *)
Lemma quantile_humedades_vecinas :
  quantile 0.25 Muestras64.humedades_vecinas = 20
  /\ quantile 0.5 Muestras64.humedades_vecinas = 20.
Proof. split; reflexivity. Qed.

End Labels64.

(** ** The labelled table, its null cells and the class gate *)

Module Pipeline.

Import Np Pd Ingenieria Entrenamiento NpFacts PdFacts RollFacts QuantileFacts RowFacts.
Open Scope Q_scope.

Lemma dropna_In (csv : list CsvRow) (o : Obs) :
  In o (dropna csv) -> exists r : CsvRow, In r csv /\ complete r = Some o.
Proof.
  induction csv as [|r csv IH]; simpl; [tauto|].
  destruct (complete r) as [o'|] eqn:E.
  - intros [<- | H].
    + exists r. auto.
    + destruct (IH H) as (r' & Hr' & Hc). exists r'. auto.
  - intro H. destruct (IH H) as (r' & Hr' & Hc). exists r'. auto.
Qed.

Lemma diff_isnull (w : nat) (xs : list Q) (i : nat) :
  (i < length xs)%nat ->
  (isnull (nth i (diff w xs) NaN) = true <-> (i < w)%nat).
Proof.
  intro Hi. destruct (Nat.lt_ge_cases i w) as [Hw|Hw].
  - rewrite (nth_error_nth _ _ NaN (diff_early w xs i Hi Hw)). simpl. tauto.
  - destruct (nth_error xs i) as [x|] eqn:Ex;
      [|apply nth_error_None in Ex; lia].
    destruct (nth_error xs (i - w)) as [y|] eqn:Ey;
      [|apply nth_error_None in Ey; lia].
    rewrite (nth_error_nth _ _ NaN (diff_late w xs i x y Hw Ex Ey)). simpl.
    split; [discriminate | lia].
Qed.

Lemma roll_mean_notnull (w : nat) (xs : list Q) (i : nat) :
  (1 <= w)%nat -> (i < length xs)%nat ->
  isnull (nth i (roll_mean w 1 xs) NaN) = false.
Proof.
  intros Hw Hi.
  destruct (nth_error xs i) as [x|] eqn:Ex;
    [|apply nth_error_None in Ex; lia].
  destruct (roll_mean_spec w xs i x Hw Ex) as (m & Hm & _).
  rewrite (nth_error_nth _ _ NaN Hm). reflexivity.
Qed.

Lemma roll_max_notnull (w : nat) (xs : list Q) (i : nat) :
  (1 <= w)%nat -> (i < length xs)%nat ->
  isnull (nth i (roll_max w xs) NaN) = false.
Proof.
  intros Hw Hi. unfold roll_max.
  assert (E : nth_error
                (map (fun j => match trailing w j xs with
                               | [] => NaN
                               | y :: ys => Fin (Qmaximum y ys)
                               end) (seq 0 (length xs))) i
              = Some (match trailing w i xs with
                      | [] => NaN
                      | y :: ys => Fin (Qmaximum y ys)
                      end)).
  { rewrite nth_error_map.
    rewrite (nth_error_nth' (seq 0 (length xs)) 0%nat)
      by (rewrite length_seq; exact Hi).
    rewrite seq_nth by exact Hi. reflexivity. }
  rewrite (nth_error_nth _ _ NaN E).
  pose proof (trailing_length w i xs Hi) as Hl.
  destruct (trailing w i xs); [cbn [length] in Hl; lia | reflexivity].
Qed.

Lemma ventana_row_notnull (w : nat) (df : list Obs) (i : nat) :
  (1 <= w)%nat -> (i < length df)%nat ->
  (ventana_notnull (ventana_row w df i) = true <-> (w <= i)%nat).
Proof.
  intros Hw Hi. unfold ventana_notnull, ventana_row. simpl.
  rewrite !roll_mean_notnull, roll_max_notnull by (rewrite ?length_map; assumption).
  simpl. rewrite !andb_true_r.
  pose proof (diff_isnull w (map ndvi df) i) as H1.
  pose proof (diff_isnull w (map soil_humidity df) i) as H2.
  rewrite length_map in H1, H2. specialize (H1 Hi). specialize (H2 Hi).
  rewrite andb_true_iff, !negb_true_iff.
  destruct (Nat.lt_ge_cases i w) as [Hlt|Hge].
  - apply H1 in Hlt. rewrite Hlt. split; [intros [H _]; discriminate | intro H].
    assert ((i < w)%nat) by (apply H2; tauto || (apply H1; reflexivity)).
    lia.
  - split; [intros _; exact Hge | intros _].
    split.
    + destruct (isnull (nth i (diff w (map ndvi df)) NaN)); [|reflexivity].
      assert ((i < w)%nat) by (apply H1; reflexivity). lia.
    + destruct (isnull (nth i (diff w (map soil_humidity df)) NaN)); [|reflexivity].
      assert ((i < w)%nat) by (apply H2; reflexivity). lia.
Qed.

(** The labelled table does carry null features: the table of a one-line
    file keeps its row, labelled 0, whose trend cells are null. *)
Lemma procesar_datos_keeps_null_trend :
  (exists lr : LabeledRow,
      In lr (procesar_datos Ejemplos.csv_una_fila)
      /\ ndvi_tendencia (v7 (feat lr)) = NaN
      /\ ndvi_tendencia (v14 (feat lr)) = NaN
      /\ estres_nivel lr = 0%Z
      /\ notnull lr = false)
  /\ ~ (forall (csv : list CsvRow) (lr : LabeledRow),
          In lr (procesar_datos csv) -> notnull lr = true).
Proof.
  assert (Hin : In (mkLabeledRow
                      (feature_row (sort_values Ejemplos.obs_una_fila) 0
                         (mkObs (Fecha.mkTimestamp 2024 6 15) 0.6 0.5 30 28 15 20))
                      0 (Some "sin_estres"%string))
                   (procesar_datos Ejemplos.csv_una_fila)).
  { left. reflexivity. }
  split.
  - eexists. split; [exact Hin|]. repeat split.
  - intro H. specialize (H _ _ Hin). discriminate H.
Qed.

(** C3 (as the code has it).  Lines with a missing raw cell are dropped
    before the features are derived.  Every remaining line is kept in the
    labelled table and labelled 0, 1 or 2: row [i] has null 7-day trends
    exactly when [i < 7] and null 14-day trends exactly when [i < 14], and
    on those rows the trend comparison of the label rules ([< -0.03] on the
    7-day trend, [< -0.05] on the 14-day trend) is false.  The rows with a
    null feature leave only in the trainer, whose [dropna] keeps the rows
    from index 14 on whose ratio is not null. *)
Theorem procesar_datos_null_rows (csv : list CsvRow) (i : nat) (lr : LabeledRow) :
  nth_error (procesar_datos csv) i = Some lr ->
  length (procesar_datos csv) = length (dropna csv)
  /\ (exists r : CsvRow, In r csv /\ complete r = Some (obs (feat lr)))
  /\ (isnull (ndvi_tendencia (v7 (feat lr))) = true <-> (i < 7)%nat)
  /\ (isnull (humedad_tendencia (v7 (feat lr))) = true <-> (i < 7)%nat)
  /\ (isnull (ndvi_tendencia (v14 (feat lr))) = true <-> (i < 14)%nat)
  /\ (isnull (humedad_tendencia (v14 (feat lr))) = true <-> (i < 14)%nat)
  /\ ((i < 7)%nat -> flt (ndvi_tendencia (v7 (feat lr))) (Fin (-0.03)) = false)
  /\ ((i < 14)%nat -> flt (ndvi_tendencia (v14 (feat lr))) (Fin (-0.05)) = false)
  /\ (estres_nivel lr = 0%Z \/ estres_nivel lr = 1%Z \/ estres_nivel lr = 2%Z)
  /\ (In lr (df_limpio (procesar_datos csv)) <->
      (14 <= i)%nat /\ isnull (evi_ndvi_ratio (feat lr)) = false).
Proof.
  unfold procesar_datos. intro Hnth.
  pose proof Hnth as Hrow. rewrite crear_features_nth in Hrow.
  destruct (nth_error (sort_values (dropna csv)) i) as [o|] eqn:Eo; [|discriminate].
  cbn [option_map] in Hrow. injection Hrow as Hlr.
  assert (Hfeat : feat lr = feature_row (sort_values (dropna csv)) i o).
  { rewrite <- Hlr. reflexivity. }
  assert (Hniv : estres_nivel lr
                 = nivel_de (umbrales (features (dropna csv))) (feat lr)).
  { rewrite <- Hlr. reflexivity. }
  clear Hlr.
  assert (Hi : (i < length (sort_values (dropna csv)))%nat).
  { apply nth_error_Some. congruence. }
  split; [apply crear_features_length|].
  split.
  { apply dropna_In. rewrite Hfeat.
    change (obs (feature_row (sort_values (dropna csv)) i o)) with o.
    unfold sort_values in Eo. apply nth_error_In in Eo.
    apply sort_In in Eo. exact Eo. }
  assert (Hd : forall (w : nat) (f : Obs -> Q),
             isnull (nth i (diff w (map f (sort_values (dropna csv)))) NaN) = true
             <-> (i < w)%nat).
  { intros w f. apply diff_isnull. rewrite length_map. exact Hi. }
  rewrite Hfeat.
  split; [apply (Hd 7%nat ndvi)|]. split; [apply (Hd 7%nat soil_humidity)|].
  split; [apply (Hd 14%nat ndvi)|]. split; [apply (Hd 14%nat soil_humidity)|].
  assert (Hcmp : forall (w : nat) (q : Q),
             (i < w)%nat ->
             flt (nth i (diff w (map ndvi (sort_values (dropna csv)))) NaN) (Fin q)
             = false).
  { intros w q Hw. apply (Hd w ndvi) in Hw.
    destruct (nth i (diff w (map ndvi (sort_values (dropna csv)))) NaN);
      try discriminate Hw. reflexivity. }
  split; [apply (Hcmp 7%nat)|]. split; [apply (Hcmp 14%nat)|].
  split.
  { rewrite Hniv. destruct (estres_severo _ _); [auto|].
    destruct (estres_moderado _ _); auto. }
  unfold df_limpio. rewrite filter_In.
  assert (Hnn : notnull lr = true
                <-> (14 <= i)%nat
                    /\ isnull (evi_ndvi_ratio
                                 (feature_row (sort_values (dropna csv)) i o)) = false).
  { unfold notnull. rewrite Hfeat.
    rewrite !andb_true_iff, negb_true_iff.
    change (v7 (feature_row (sort_values (dropna csv)) i o))
      with (ventana_row 7 (sort_values (dropna csv)) i).
    change (v14 (feature_row (sort_values (dropna csv)) i o))
      with (ventana_row 14 (sort_values (dropna csv)) i).
    rewrite (ventana_row_notnull 7 _ i) by (lia || exact Hi).
    rewrite (ventana_row_notnull 14 _ i) by (lia || exact Hi).
    intuition lia. }
  rewrite Hnn. split; [tauto|].
  intro H. split; [|exact H].
  apply nth_error_In with i. exact Hnth.
Qed.

Lemma procesar_datos_null_rows_witness :
  length (procesar_datos Ejemplos.csv_una_fila)
  = length (dropna Ejemplos.csv_una_fila)
  /\ (exists r : CsvRow,
         In r Ejemplos.csv_una_fila
         /\ complete r
            = Some (mkObs (Fecha.mkTimestamp 2024 6 15) 0.6 0.5 30 28 15 20))
  /\ (isnull NaN = true <-> (0 < 7)%nat)
  /\ (isnull NaN = true <-> (0 < 7)%nat)
  /\ (isnull NaN = true <-> (0 < 14)%nat)
  /\ (isnull NaN = true <-> (0 < 14)%nat)
  /\ ((0 < 7)%nat -> flt NaN (Fin (-0.03)) = false)
  /\ ((0 < 14)%nat -> flt NaN (Fin (-0.05)) = false)
  /\ (0%Z = 0%Z \/ 0%Z = 1%Z \/ 0%Z = 2%Z)
  /\ (In (mkLabeledRow
            (feature_row (sort_values Ejemplos.obs_una_fila) 0
               (mkObs (Fecha.mkTimestamp 2024 6 15) 0.6 0.5 30 28 15 20))
            0 (Some "sin_estres"%string))
         (df_limpio (procesar_datos Ejemplos.csv_una_fila))
      <-> (14 <= 0)%nat /\ isnull (Fin (0.5 / (0.6 + 0.001))) = false).
Proof.
  apply (procesar_datos_null_rows Ejemplos.csv_una_fila 0
           (mkLabeledRow
              (feature_row (sort_values Ejemplos.obs_una_fila) 0
                 (mkObs (Fecha.mkTimestamp 2024 6 15) 0.6 0.5 30 28 15 20))
              0 (Some "sin_estres"%string))).
  reflexivity.
Defined.

(** On a one-line table the labels hold a single level, and the caller
    receives the labelled table, not the signal the specification asks for. *)
Lemma crear_features_returns_single_class :
  nunique (map estres_nivel (crear_features Ejemplos.obs_una_fila)) = 1%nat
  /\ map estres_nivel (procesar_datos Ejemplos.csv_una_fila) = [0%Z]
  /\ Spec.derive_outcome (crear_features Ejemplos.obs_una_fila)
     = Spec.InsufficientLabelDiversity
  /\ Spec.Labeled (crear_features Ejemplos.obs_una_fila)
     <> Spec.derive_outcome (crear_features Ejemplos.obs_una_fila).
Proof.
  split; [reflexivity|]. split; [reflexivity|]. split; [reflexivity|].
  discriminate.
Qed.

(** C4 (as the code has it).  The Stress Label Deriver returns the labelled
    table of every complete line, whatever the levels in it; the check is
    made by the trainer, which returns [None] exactly when the label column
    of its null-filtered table holds fewer than two distinct levels and fits
    the classifier otherwise. *)
Theorem entrenar_modelo_class_gate
    (Modelo : Type) (ajustar : list FeatureRow -> list Z -> Modelo)
    (csv : list CsvRow) :
  length (procesar_datos csv) = length (dropna csv)
  /\ (entrenar_modelo Modelo ajustar (procesar_datos csv) = None
      <-> (nunique (map estres_nivel (df_limpio (procesar_datos csv))) < 2)%nat)
  /\ (entrenar_modelo Modelo ajustar (procesar_datos csv)
      = Some (ajustar (map feat (df_limpio (procesar_datos csv)))
                      (map estres_nivel (df_limpio (procesar_datos csv))))
      <-> (2 <= nunique (map estres_nivel (df_limpio (procesar_datos csv))))%nat).
Proof.
  split; [apply crear_features_length|].
  unfold entrenar_modelo.
  destruct (nunique (map estres_nivel (df_limpio (procesar_datos csv))) <? 2)%nat eqn:E.
  - apply Nat.ltb_lt in E. split; split; intro H; try reflexivity;
      try exact E; try discriminate; lia.
  - apply Nat.ltb_ge in E. split; split; intro H; try reflexivity;
      try exact E; try discriminate; lia.
Qed.

End Pipeline.
(** ** Reading the date of a request *)

Module FechaFacts.

Import Fecha.
Open Scope Z_scope.









(** Whatever it reads, [numeric_date] yields a date that exists. *)
Lemma numeric_date_valid (s : string) (t : Timestamp) :
  numeric_date s = Some t -> valid t = true.
Proof.
  assert (Hc : forall ymd, civil ymd = Some t -> valid t = true).
  { intros [[y m] d]. unfold civil.
    destruct (valid (mkTimestamp y m d)) eqn:E; [|discriminate].
    intros [= <-]. exact E. }
  unfold numeric_date.
  destruct (list_ascii_of_string s) as [|c0 [|c1 [|c2 [|c3 [|c4 [|c5 [|c6 [|c7
             [|c8 [|c9 [|? ?]]]]]]]]]]]; try discriminate.
  destruct (separador c4 && Ascii.eqb c4 c7).
  - destruct (number 0 [c0; c1; c2; c3]); [|discriminate].
    destruct (number 0 [c5; c6]); [|discriminate].
    destruct (number 0 [c8; c9]); [|discriminate]. apply Hc.
  - destruct (separador c2 && Ascii.eqb c2 c5); [|discriminate].
    destruct (number 0 [c0; c1]); [|discriminate].
    destruct (number 0 [c3; c4]); [|discriminate].
    destruct (number 0 [c6; c7; c8; c9]); [|discriminate]. apply Hc.
Qed.

End FechaFacts.

(** ** Single-Point Feature Approximator and the pointwise features *)

Module SinglePoint.

Import Np Pd Fecha NpFacts RowFacts.
Open Scope Q_scope.

(** When the divisor of the ratio is not zero and the date is read (as a
    Timestamp or as NaT), [calcular_features] returns the dictionary
    below. *)
Lemma calcular_features_ok
    (otras_cadenas : string -> parsed) (datos : Api.DatosEntrada)
    (fecha : option Timestamp) :
  Api.parse_date otras_cadenas (Api.date datos) = Ok fecha ->
  ~ Api.ndvi datos + 0.001 == 0 ->
  Api.calcular_features otras_cadenas datos
  = Ok (fold_left (Api.ventana_features datos) [7; 14]%nat
          [("ndvi"%string, Api.PyFloat (Api.ndvi datos));
           ("evi"%string, Api.PyFloat (Api.evi datos));
           ("lst"%string, Api.PyFloat (Api.lst datos));
           ("tmax"%string, Api.PyFloat (Api.tmax datos));
           ("tmin"%string, Api.PyFloat (Api.tmin datos));
           ("soil_humidity"%string, Api.PyFloat (Api.soil_humidity datos));
           ("evi_ndvi_ratio"%string,
            Api.PyFloat (Api.evi datos / (Api.ndvi datos + 0.001)));
           ("temp_promedio"%string,
            Api.PyFloat ((Api.tmax datos + Api.tmin datos) / 2));
           ("amplitud_termica"%string,
            Api.PyFloat (Api.tmax datos - Api.tmin datos));
           ("deficit_combinado"%string, Api.PyFloat (Api.deficit datos));
           ("mes"%string, Api.atributo month fecha);
           ("dia_año"%string, Api.atributo dayofyear fecha);
           ("dias_desde_inicio"%string, Api.PyInt 0)]).
Proof.
  intros Ht Hd. unfold Api.calcular_features, py_div.
  destruct (Qeq_bool (Api.ndvi datos + 0.001) 0) eqn:E.
  - apply Qeq_bool_iff in E. contradiction.
  - rewrite Ht. reflexivity.
Qed.





(** The same observation dated [2024-06-01]: the date is read day first, as
    the 6th of January. *)
Lemma calcular_features_primero_de_junio (otras_cadenas : string -> parsed) :
  exists f : Api.dict,
    Api.calcular_features otras_cadenas Muestras.datos_primero_de_junio = Ok f
    /\ Api.dict_get f "mes" = Some (Api.PyInt 1)
    /\ Api.dict_get f "dia_año" = Some (Api.PyInt 6).
Proof. eexists. repeat split. Qed.

(** Dated [15-06-2024], it gets the calendar entries of the 15th of June. *)
Lemma calcular_features_dia_primero (otras_cadenas : string -> parsed) :
  exists f : Api.dict,
    Api.calcular_features otras_cadenas Muestras.datos_dia_primero = Ok f
    /\ Api.dict_get f "mes" = Some (Api.PyInt 6)
    /\ Api.dict_get f "dia_año" = Some (Api.PyInt 167).
Proof. eexists. repeat split. Qed.

(** Without a date, where pandas answers NaT, the dictionary is returned
    all the same, its two calendar entries being nan. *)
Lemma calcular_features_sin_fecha (otras_cadenas : string -> parsed) :
  otras_cadenas ""%string = NaT ->
  exists f : Api.dict,
    Api.calcular_features otras_cadenas Muestras.datos_sin_fecha = Ok f
    /\ Api.dict_get f "mes" = Some Api.PyNaN
    /\ Api.dict_get f "dia_año" = Some Api.PyNaN
    /\ Api.dict_get f "ndvi_promedio_7d" = Some (Api.PyFloat 0.6).
Proof.
  intro H. eexists. split.
  - apply (calcular_features_ok otras_cadenas Muestras.datos_sin_fecha None).
    + unfold Api.parse_date, to_datetime. cbn [Api.date Muestras.datos_sin_fecha].
      change (numeric_date "") with (@None Timestamp). cbv beta iota.
      rewrite H. reflexivity.
    + intro E. discriminate E.
  - repeat split.
Qed.

End SinglePoint.

(** ** Deficit score and vegetation ratio on both paths *)

Module Pointwise.

Import Np Pd Fecha Ingenieria NpFacts RowFacts.
Open Scope Q_scope.

Lemma deficit_is_deficit_score (o : Obs) :
  deficit o == Spec.deficit_score (soil_humidity o) (lst o) (ndvi o).
Proof.
  unfold deficit, Spec.deficit_score, humedad_norm, temp_norm.
  apply clip_Proper; try reflexivity. ring.
Qed.

(** On the training path the score is the specification's blend, and it
    lies in [[0, 1]] for every input. *)
Lemma crear_features_deficit (df : list Obs) (lr : LabeledRow) :
  In lr (crear_features df) ->
  deficit_combinado (feat lr)
  == Spec.deficit_score (soil_humidity (obs (feat lr))) (lst (obs (feat lr)))
                        (ndvi (obs (feat lr)))
  /\ 0 <= deficit_combinado (feat lr) <= 1.
Proof.
  intro Hin.
  destruct (crear_features_In df lr Hin) as (i & o & _ & Hfeat & _).
  rewrite Hfeat.
  change (deficit_combinado (feature_row (sort_values df) i o)) with (deficit o).
  change (obs (feature_row (sort_values df) i o)) with o.
  split; [apply deficit_is_deficit_score|].
  unfold deficit. apply clip_bounds. lra.
Qed.

(** The humidity term saturates: any soil humidity at or below 0 gives the
    normalised humidity of 0. *)
Lemma humedad_norm_saturates (o : Obs) :
  soil_humidity o <= 0 -> humedad_norm o == 0.
Proof.
  intro H. unfold humedad_norm. apply clip_below; [lra|].
  apply Qle_shift_div_r; lra.
Qed.

(** The temperature term saturates as well: at or above 45 degrees the
    normalised temperature is 1, at or below 25 it is 0. *)
Lemma temp_norm_saturates (o : Obs) :
  (45 <= lst o -> temp_norm o == 1) /\ (lst o <= 25 -> temp_norm o == 0).
Proof.
  unfold temp_norm. split; intro H.
  - apply clip_above; [lra|]. apply Qle_shift_div_l; lra.
  - apply clip_below; [lra|]. apply Qle_shift_div_r; lra.
Qed.

(** C1 at an input far outside the humidity range.  For soil_humidity =
    -100, lst = 30, ndvi = 0.6 the specification's score is 0.655 and the
    training path stores that value, while [calcular_features] stores the
    blend without any clamp, 2.0835..., which is above 1. *)
Theorem calcular_features_deficit_unclamped (otras_cadenas : string -> parsed) :
  exists (f : Api.dict) (d : Q),
    Api.calcular_features otras_cadenas Ejemplos.datos_humedad_extrema = Ok f
    /\ Api.dict_get f "deficit_combinado" = Some (Api.PyFloat d)
    /\ d == 5834 # 2800
    /\ 1 < d
    /\ Spec.deficit_score (-100) 30 0.6 == 0.655
    /\ ~ d == Spec.deficit_score (-100) 30 0.6
    /\ exists x : Q,
         map (fun lr => deficit_combinado (feat lr))
             (crear_features Ejemplos.obs_humedad_extrema) = [x]
         /\ x == Spec.deficit_score (-100) 30 0.6.
Proof.
  eexists. eexists. split; [reflexivity|]. split; [reflexivity|].
  split; [reflexivity|]. split; [reflexivity|]. split; [reflexivity|].
  split; [intro H; discriminate H|].
  eexists. split; reflexivity.
Qed.

(** The ratio of the training path: the quotient, whenever its divisor is
    not zero. *)
Lemma crear_features_ratio (df : list Obs) (lr : LabeledRow) :
  In lr (crear_features df) ->
  ~ ndvi (obs (feat lr)) + 0.001 == 0 ->
  evi_ndvi_ratio (feat lr)
  = Fin (evi (obs (feat lr)) / (ndvi (obs (feat lr)) + 0.001)).
Proof.
  intros Hin Hd.
  destruct (crear_features_In df lr Hin) as (i & o & _ & Hfeat & _).
  rewrite Hfeat in *.
  change (obs (feature_row (sort_values df) i o)) with o in *.
  change (evi_ndvi_ratio (feature_row (sort_values df) i o))
    with (np_div (evi o) (ndvi o + 0.001)).
  unfold np_div. destruct (Qeq_bool (ndvi o + 0.001) 0) eqn:E; [|reflexivity].
  apply Qeq_bool_iff in E. contradiction.
Qed.

(** The ratio of the serving path, under the same condition. *)
Lemma calcular_features_ratio
    (otras_cadenas : string -> parsed) (datos : Api.DatosEntrada)
    (fecha : option Timestamp) :
  Api.parse_date otras_cadenas (Api.date datos) = Ok fecha ->
  ~ Api.ndvi datos + 0.001 == 0 ->
  exists f : Api.dict,
    Api.calcular_features otras_cadenas datos = Ok f
    /\ Api.dict_get f "evi_ndvi_ratio"
       = Some (Api.PyFloat (Api.evi datos / (Api.ndvi datos + 0.001))).
Proof.
  intros Ht Hd. unfold Api.calcular_features, py_div.
  destruct (Qeq_bool (Api.ndvi datos + 0.001) 0) eqn:E.
  - apply Qeq_bool_iff in E. contradiction.
  - rewrite Ht. eexists. split; reflexivity.
Qed.

(** With ndvi = 0 and evi = 0.5 the ratio is 500 on both paths. *)
Lemma ratio_at_ndvi_0 :
  py_div 0.5 (0 + 0.001) = Ok (0.5 / (0 + 0.001))
  /\ np_div 0.5 (0 + 0.001) = Fin (0.5 / (0 + 0.001))
  /\ 0.5 / (0 + 0.001) == 500.
Proof. repeat split. Qed.

(** C9 at ndvi = -0.001.  The divisor [ndvi + 0.001] is zero there:
    [calcular_features] raises ZeroDivisionError, and the training path
    stores an infinite ratio. *)
Theorem calcular_features_zero_division (otras_cadenas : string -> parsed) :
  Api.ndvi Ejemplos.datos_ndvi_menos_epsilon + 0.001 == 0
  /\ Api.calcular_features otras_cadenas Ejemplos.datos_ndvi_menos_epsilon
     = Raise ZeroDivisionError
  /\ map (fun lr => evi_ndvi_ratio (feat lr))
         (crear_features Ejemplos.obs_ndvi_menos_epsilon) = [PInf].
Proof. repeat split. Qed.

(** The two sample inputs behave in binary64 as they do on rationals: the
    unclamped blend exceeds 1, the ratio at ndvi = 0 is exactly 500, and the
    divisor at ndvi = -0.001 is exactly zero. *)
Lemma binary64_samples :
  PrimFloat.ltb 1 Binary64.deficit_humedad_extrema = true
  /\ Binary64.ratio_ndvi_0 = 500%float
  /\ PrimFloat.eqb Binary64.divisor_ndvi_menos_epsilon 0 = true.
Proof. repeat split. Qed.

End Pointwise.

(** ** The labelled table as a whole: order, dates, rolling maxima *)

Module Tabla.

Import Np Pd Fecha Ingenieria NpFacts PdFacts RollFacts QuantileFacts RowFacts.

Lemma insert_Permutation (A : Type) (leb : A -> A -> bool) (x : A) (l : list A) :
  Permutation (insert leb x l) (x :: l).
Proof.
  induction l as [|y l IH]; simpl; [reflexivity|].
  destruct (leb x y); [reflexivity|].
  rewrite IH. apply perm_swap.
Qed.

Lemma sort_Permutation (A : Type) (leb : A -> A -> bool) (l : list A) :
  Permutation (sort leb l) l.
Proof.
  induction l as [|x l IH]; simpl; [reflexivity|].
  rewrite insert_Permutation. constructor. exact IH.
Qed.

Section ByKey.
Variable A : Type.
Variable key : A -> Z.

Let leb (a b : A) : bool := (key a <=? key b)%Z.
Let R (a b : A) : Prop := (key a <= key b)%Z.

Lemma insert_key_sorted (x : A) (l : list A) :
  StronglySorted R l -> StronglySorted R (insert leb x l).
Proof.
  induction 1 as [|y l Hl IH Hy]; simpl.
  - constructor; constructor.
  - unfold leb at 1. destruct (key x <=? key y)%Z eqn:E.
    + apply Z.leb_le in E. constructor; [constructor; assumption|].
      constructor; [exact E|].
      eapply Forall_impl; [|exact Hy]. intros z Hz. unfold R in *. lia.
    + apply Z.leb_gt in E. constructor; [exact IH|].
      apply (Permutation_Forall (Permutation_sym (insert_Permutation A leb x l))).
      constructor; [unfold R; lia | exact Hy].
Qed.

Lemma sort_key_sorted (l : list A) : StronglySorted R (sort leb l).
Proof.
  induction l as [|x l IH]; simpl; [constructor | apply insert_key_sorted, IH].
Qed.

Lemma key_sorted_nth (l : list A) :
  StronglySorted R l ->
  forall (i j : nat) (a b : A),
    (i <= j)%nat -> nth_error l i = Some a -> nth_error l j = Some b ->
    (key a <= key b)%Z.
Proof.
  induction 1 as [|x l Hl IH Hx]; intros i j a b Hij Ha Hb.
  - destruct i; discriminate.
  - destruct i as [|i], j as [|j]; simpl in Ha, Hb; try lia.
    + injection Ha as <-. injection Hb as <-. lia.
    + injection Ha as <-. apply nth_error_In in Hb.
      rewrite Forall_forall in Hx. apply (Hx b Hb).
    + apply (IH i j a b); [lia | assumption | assumption].
Qed.
End ByKey.

Lemma sort_values_sorted (df : list Obs) :
  StronglySorted (fun a b => (toordinal (date a) <= toordinal (date b))%Z)
                 (sort_values df).
Proof. exact (sort_key_sorted Obs (fun o => toordinal (date o)) df). Qed.

Lemma sort_values_nth (df : list Obs) (i j : nat) (a b : Obs) :
  (i <= j)%nat ->
  nth_error (sort_values df) i = Some a ->
  nth_error (sort_values df) j = Some b ->
  (toordinal (date a) <= toordinal (date b))%Z.
Proof.
  exact (key_sorted_nth Obs (fun o => toordinal (date o)) (sort_values df)
           (sort_values_sorted df) i j a b).
Qed.

(** X1.  The labelled table holds exactly the complete lines of the file,
    each once, in ascending order of date. *)
Theorem procesar_datos_sorted (csv : list CsvRow) (i j : nat) (a b : LabeledRow) :
  (i <= j)%nat ->
  nth_error (procesar_datos csv) i = Some a ->
  nth_error (procesar_datos csv) j = Some b ->
  (toordinal (date (obs (feat a))) <= toordinal (date (obs (feat b))))%Z
  /\ Permutation (map (fun lr => obs (feat lr)) (procesar_datos csv)) (dropna csv).
Proof.
  intros Hij Ha Hb. unfold procesar_datos in *. split.
  - pose proof (crear_features_obs (dropna csv)) as E.
    assert (Ha' : nth_error (sort_values (dropna csv)) i = Some (obs (feat a))).
    { rewrite <- E, nth_error_map, Ha. reflexivity. }
    assert (Hb' : nth_error (sort_values (dropna csv)) j = Some (obs (feat b))).
    { rewrite <- E, nth_error_map, Hb. reflexivity. }
    exact (sort_values_nth (dropna csv) i j _ _ Hij Ha' Hb').
  - rewrite crear_features_obs. apply sort_Permutation.
Qed.

Lemma procesar_datos_sorted_witness :
  exists a b : LabeledRow,
    nth_error (procesar_datos Muestras.csv_tres_lineas) 0 = Some a
    /\ nth_error (procesar_datos Muestras.csv_tres_lineas) 1 = Some b
    /\ (toordinal (date (obs (feat a))) <= toordinal (date (obs (feat b))))%Z
    /\ Permutation
         (map (fun lr => obs (feat lr)) (procesar_datos Muestras.csv_tres_lineas))
         (dropna Muestras.csv_tres_lineas).
Proof.
  eexists. eexists. split; [reflexivity|]. split; [reflexivity|].
  apply (procesar_datos_sorted Muestras.csv_tres_lineas 0 1);
    [lia | reflexivity | reflexivity].
Defined.

Lemma Zminimum_le (xs : list Z) (x : Z) :
  (Zminimum x xs <= x)%Z /\ (forall y, In y xs -> (Zminimum x xs <= y)%Z).
Proof.
  unfold Zminimum. revert x. induction xs as [|z xs IH]; intro x; simpl.
  - split; [lia | tauto].
  - destruct (IH (Z.min x z)) as [H1 H2]. split; [lia|].
    intros y [<- | Hy]; [lia | apply H2, Hy].
Qed.

Lemma Zminimum_In (xs : list Z) (x : Z) : In (Zminimum x xs) (x :: xs).
Proof.
  unfold Zminimum. revert x. induction xs as [|z xs IH]; intro x; simpl.
  - left. reflexivity.
  - destruct (IH (Z.min x z)) as [H | H].
    + rewrite <- H.
      destruct (Z.min_spec x z) as [[_ E] | [_ E]]; rewrite E; auto.
    + right. right. exact H.
Qed.

(** In a table sorted by date, the earliest date is that of row 0. *)
Lemma fecha_min_sorted (df : list Obs) (o : Obs) :
  nth_error (sort_values df) 0 = Some o ->
  fecha_min (sort_values df) = toordinal (date o).
Proof.
  intro H0. unfold fecha_min.
  pose proof (sort_values_sorted df) as Hs.
  destruct (sort_values df) as [|x l] eqn:E; [discriminate|].
  injection H0 as ->. simpl map.
  destruct (Zminimum_le (map (fun x => toordinal (date x)) l) (toordinal (date o)))
    as [Hle _].
  destruct (Zminimum_In (map (fun x => toordinal (date x)) l) (toordinal (date o)))
    as [Hin | Hin]; [symmetry; exact Hin|].
  apply in_map_iff in Hin. destruct Hin as (y & Hy & Hin).
  apply StronglySorted_inv in Hs. destruct Hs as [_ Hall].
  rewrite Forall_forall in Hall. specialize (Hall y Hin). simpl in Hall. lia.
Qed.

(** X2.  [dias_desde_inicio] counts the days from the date of the first row
    of the sorted table: it is 0 on that row and never negative. *)
Theorem dias_desde_inicio_from_first_row (df : list Obs) (i : nat) (lr : LabeledRow) :
  nth_error (crear_features df) i = Some lr ->
  exists first : LabeledRow,
    nth_error (crear_features df) 0 = Some first
    /\ dias_desde_inicio (feat first) = 0%Z
    /\ dias_desde_inicio (feat lr)
       = (toordinal (date (obs (feat lr))) - toordinal (date (obs (feat first))))%Z
    /\ (0 <= dias_desde_inicio (feat lr))%Z.
Proof.
  intro Hi. pose proof Hi as Hrow. rewrite crear_features_nth in Hrow.
  destruct (nth_error (sort_values df) i) as [o|] eqn:Eo; [|discriminate].
  cbn [option_map] in Hrow. injection Hrow as Hlr.
  destruct (nth_error (sort_values df) 0) as [o0|] eqn:E0.
  2:{ apply nth_error_None in E0.
      assert (i < length (sort_values df))%nat by (apply nth_error_Some; congruence).
      lia. }
  pose proof (fecha_min_sorted df o0 E0) as Hmin.
  eexists. split.
  { rewrite crear_features_nth, E0. reflexivity. }
  cbn [feat obs dias_desde_inicio feature_row].
  rewrite <- Hlr. cbn [feat obs dias_desde_inicio feature_row].
  rewrite Hmin. split; [lia|]. split; [reflexivity|].
  pose proof (sort_values_nth df 0 i o0 o (Nat.le_0_l i) E0 Eo) as Hle.
  lia.
Qed.

Lemma dias_desde_inicio_from_first_row_witness :
  exists first : LabeledRow,
    nth_error (crear_features Muestras.obs_dos_filas) 0 = Some first
    /\ dias_desde_inicio (feat first) = 0%Z
    /\ 1%Z
       = (toordinal (mkTimestamp 2024 6 16) - toordinal (date (obs (feat first))))%Z
    /\ (0 <= 1)%Z.
Proof.
  destruct (nth_error (crear_features Muestras.obs_dos_filas) 1) as [lr|] eqn:E;
    [|discriminate E].
  injection E as E.
  pose proof (dias_desde_inicio_from_first_row Muestras.obs_dos_filas 1 lr) as H.
  rewrite <- E in H. apply H. reflexivity.
Defined.

End Tabla.

(** ** Rolling maxima and the range of rolling means *)

Module Ventanas.

Import Np Pd Fecha Ingenieria NpFacts PdFacts RollFacts QuantileFacts RowFacts.
Open Scope Q_scope.

Lemma Qmaximum_ge (xs : list Q) (x : Q) :
  x <= Qmaximum x xs /\ (forall y, In y xs -> y <= Qmaximum x xs).
Proof.
  unfold Qmaximum. revert x. induction xs as [|z xs IH]; intro x; simpl.
  - split; [apply Qle_refl | tauto].
  - destruct (IH (Qmax x z)) as [H1 H2]. split.
    + apply Qle_trans with (Qmax x z); [apply Q.le_max_l | exact H1].
    + intros y [<- | Hy]; [|apply H2, Hy].
      apply Qle_trans with (Qmax x z); [apply Q.le_max_r | exact H1].
Qed.

Lemma Qmaximum_In (xs : list Q) (x : Q) :
  exists y : Q, In y (x :: xs) /\ Qmaximum x xs == y.
Proof.
  unfold Qmaximum. revert x. induction xs as [|z xs IH]; intro x; simpl.
  - exists x. split; [auto | reflexivity].
  - destruct (IH (Qmax x z)) as (y & [Hy | Hy] & E).
    + destruct (Q.max_spec x z) as [[_ Em] | [_ Em]].
      * exists z. split; [auto|]. rewrite E, <- Hy. exact Em.
      * exists x. split; [auto|]. rewrite E, <- Hy. exact Em.
    + exists y. split; [auto | exact E].
Qed.

(** The rows of the trailing window ending at [i]. *)
Lemma trailing_In (w i : nat) (xs : list Q) (z : Q) :
  In z (trailing w i xs) <->
  exists j : nat, (S i - w <= j)%nat /\ (j <= i)%nat /\ nth_error xs j = Some z.
Proof.
  unfold trailing. split.
  - intro H. apply In_nth_error in H. destruct H as [k Hk].
    rewrite nth_error_firstn in Hk.
    destruct (k <? S i - (S i - w))%nat eqn:E; [|discriminate].
    apply Nat.ltb_lt in E. rewrite nth_error_skipn in Hk.
    exists (S i - w + k)%nat. split; [lia|]. split; [lia | exact Hk].
  - intros (j & H1 & H2 & Hj).
    apply nth_error_In with (j - (S i - w))%nat.
    rewrite nth_error_firstn.
    assert (E : (j - (S i - w) <? S i - (S i - w))%nat = true)
      by (apply Nat.ltb_lt; lia).
    rewrite E, nth_error_skipn.
    replace (S i - w + (j - (S i - w)))%nat with j by lia. exact Hj.
Qed.

(** A cell of the rolling maximum: at least the current value, attained by a
    row of the window. *)
Lemma roll_max_cell (w : nat) (xs : list Q) (i : nat) (x : Q) :
  (1 <= w)%nat -> nth_error xs i = Some x ->
  exists m : Q,
    nth i (roll_max w xs) NaN = Fin m
    /\ x <= m
    /\ (forall z, In z (trailing w i xs) -> z <= m)
    /\ (exists z, In z (trailing w i xs) /\ m == z).
Proof.
  intros Hw Hx.
  assert (Hi : (i < length xs)%nat) by (apply nth_error_Some; congruence).
  assert (E : nth_error (roll_max w xs) i
              = Some (match trailing w i xs with
                      | [] => NaN
                      | y :: ys => Fin (Qmaximum y ys)
                      end)).
  { unfold roll_max. rewrite nth_error_map.
    rewrite (nth_error_nth' (seq 0 (length xs)) 0%nat)
      by (rewrite length_seq; exact Hi).
    rewrite seq_nth by exact Hi. reflexivity. }
  rewrite (nth_error_nth _ _ NaN E).
  assert (Hin : In x (trailing w i xs)).
  { apply trailing_In. exists i. split; [lia|]. split; [lia | exact Hx]. }
  destruct (trailing w i xs) as [|y ys]; [contradiction|].
  exists (Qmaximum y ys).
  destruct (Qmaximum_ge ys y) as [H1 H2].
  assert (Hall : forall z, In z (y :: ys) -> z <= Qmaximum y ys).
  { intros z [<- | Hz]; [exact H1 | apply H2, Hz]. }
  split; [reflexivity|]. split; [apply Hall, Hin|]. split; [exact Hall|].
  destruct (Qmaximum_In ys y) as (z & Hz & Ez). exists z. auto.
Qed.

(** A wider window never lowers the rolling maximum. *)
Lemma roll_max_wider (w1 w2 : nat) (xs : list Q) (i : nat) (x : Q) :
  (1 <= w1)%nat -> (w1 <= w2)%nat -> nth_error xs i = Some x ->
  exists a b : Q,
    nth i (roll_max w1 xs) NaN = Fin a
    /\ nth i (roll_max w2 xs) NaN = Fin b
    /\ x <= a /\ a <= b.
Proof.
  intros H1 H12 Hx.
  destruct (roll_max_cell w1 xs i x H1 Hx) as (a & Ea & Hxa & _ & (z & Hz & Ez)).
  destruct (roll_max_cell w2 xs i x (Nat.le_trans _ _ _ H1 H12) Hx)
    as (b & Eb & _ & Hall & _).
  exists a, b. split; [exact Ea|]. split; [exact Eb|]. split; [exact Hxa|].
  rewrite Ez. apply Hall. apply trailing_In.
  apply trailing_In in Hz. destruct Hz as (j & Hj1 & Hj2 & Hj).
  exists j. split; [lia|]. split; [lia | exact Hj].
Qed.

(** X3.  On every row the 7-day maximum of the surface temperature is at
    least the row's own temperature and at most the 14-day maximum, and it
    is the temperature of one of the last seven rows. *)
Theorem lst_max_ordered (df : list Obs) (i : nat) (lr : LabeledRow) :
  nth_error (crear_features df) i = Some lr ->
  exists a b : Q,
    lst_max (v7 (feat lr)) = Fin a
    /\ lst_max (v14 (feat lr)) = Fin b
    /\ lst (obs (feat lr)) <= a
    /\ a <= b
    /\ exists (j : nat) (lr' : LabeledRow),
         (i - 6 <= j)%nat /\ (j <= i)%nat
         /\ nth_error (crear_features df) j = Some lr'
         /\ a == lst (obs (feat lr')).
Proof.
  intro Hi. pose proof Hi as Hrow. rewrite crear_features_nth in Hrow.
  destruct (nth_error (sort_values df) i) as [o|] eqn:Eo; [|discriminate].
  cbn [option_map] in Hrow. injection Hrow as Hlr.
  assert (Hx : nth_error (map lst (sort_values df)) i = Some (lst o)).
  { rewrite nth_error_map, Eo. reflexivity. }
  destruct (roll_max_wider 7 14 (map lst (sort_values df)) i (lst o)
              ltac:(lia) ltac:(lia) Hx) as (a & b & Ea & Eb & Hxa & Hab).
  destruct (roll_max_cell 7 (map lst (sort_values df)) i (lst o) ltac:(lia) Hx)
    as (a' & Ea' & _ & _ & (z & Hz & Ez)).
  assert (a' = a) by congruence. subst a'.
  exists a, b. rewrite <- Hlr. cbn [feat obs v7 v14 feature_row ventana_row lst_max].
  split; [exact Ea|]. split; [exact Eb|]. split; [exact Hxa|]. split; [exact Hab|].
  apply trailing_In in Hz. destruct Hz as (j & Hj1 & Hj2 & Hj).
  rewrite nth_error_map in Hj.
  destruct (nth_error (sort_values df) j) as [oj|] eqn:Ej; [|discriminate].
  injection Hj as Hj.
  eexists j, _. split; [lia|]. split; [exact Hj2|]. split.
  { rewrite crear_features_nth, Ej. reflexivity. }
  cbn [feat obs feature_row]. rewrite Hj. exact Ez.
Qed.

Lemma lst_max_ordered_witness :
  exists a b : Q,
    Fin (Qmax 30 33) = Fin a
    /\ Fin (Qmax 30 33) = Fin b
    /\ 33 <= a
    /\ a <= b
    /\ exists (j : nat) (lr' : LabeledRow),
         (1 - 6 <= j)%nat /\ (j <= 1)%nat
         /\ nth_error (crear_features Muestras.obs_dos_filas) j = Some lr'
         /\ a == lst (obs (feat lr')).
Proof.
  destruct (nth_error (crear_features Muestras.obs_dos_filas) 1) as [lr|] eqn:E;
    [|discriminate E].
  injection E as E.
  pose proof (lst_max_ordered Muestras.obs_dos_filas 1 lr) as H.
  rewrite <- E in H. apply H. reflexivity.
Defined.






End Ventanas.

(** ** Deficit, thresholds and labels across a table *)

Module Etiquetas.

Import Np Pd Fecha Ingenieria Entrenamiento.
Import NpFacts PdFacts RollFacts QuantileFacts RowFacts Labels Pipeline.
Open Scope Q_scope.

Lemma clip_mono (lo hi x y : Q) : x <= y -> clip lo hi x <= clip lo hi y.
Proof.
  intro H. unfold clip.
  apply Q.min_le_compat_r. apply Q.max_le_compat_r. exact H.
Qed.

(** X5.  The deficit score is monotone: an observation that is no wetter,
    no cooler and no greener than another has a deficit at least as large. *)
Theorem deficit_monotone (a b : Obs) :
  soil_humidity a <= soil_humidity b ->
  lst b <= lst a ->
  ndvi a <= ndvi b ->
  deficit b <= deficit a.
Proof.
  intros Hh Ht Hn. unfold deficit. apply clip_mono.
  assert (H1 : humedad_norm a <= humedad_norm b).
  { unfold humedad_norm. apply clip_mono.
    apply Qmult_le_compat_r; [exact Hh | discriminate]. }
  assert (H2 : temp_norm b <= temp_norm a).
  { unfold temp_norm. apply clip_mono.
    apply Qmult_le_compat_r; [lra | discriminate]. }
  lra.
Qed.

Lemma deficit_monotone_witness :
  deficit Muestras.obs_suave <= deficit Muestras.obs_seca.
Proof.
  apply (deficit_monotone Muestras.obs_seca Muestras.obs_suave);
    discriminate.
Defined.

(** The rows of a table are labelled against one set of thresholds. *)
Lemma crear_features_common_thresholds (df : list Obs) :
  df <> [] ->
  exists T : Spec.Thresholds,
    Spec.thresholds_of (sort_values df) T
    /\ forall lr : LabeledRow,
         In lr (crear_features df) ->
         Spec.label T (feat lr) (estres_nivel lr)
         /\ deficit_combinado (feat lr) = deficit (obs (feat lr)).
Proof.
  intro Hne.
  assert (Hs : sort_values df <> []).
  { intro E. apply (f_equal (@length Obs)) in E.
    unfold sort_values in E. rewrite sort_length in E.
    destruct df; [congruence | discriminate]. }
  destruct (umbrales_thresholds df Hs) as (T & HT & Hu).
  exists T. split; [exact HT|].
  intros lr Hin.
  destruct (crear_features_In df lr Hin) as (i & o & _ & Hfeat & Hniv & _).
  split.
  - rewrite Hniv, Hu, Hfeat. apply nivel_label.
  - rewrite Hfeat. reflexivity.
Qed.

(** X6.  Within one table the level is monotone: a row that is no wetter,
    no cooler and no greener than another row, with the same NDVI trends,
    never gets a lower stress level than that row. *)
Theorem estres_nivel_monotone (df : list Obs) (a b : LabeledRow) :
  In a (crear_features df) ->
  In b (crear_features df) ->
  soil_humidity (obs (feat a)) <= soil_humidity (obs (feat b)) ->
  lst (obs (feat b)) <= lst (obs (feat a)) ->
  ndvi (obs (feat a)) <= ndvi (obs (feat b)) ->
  ndvi_tendencia (v7 (feat a)) = ndvi_tendencia (v7 (feat b)) ->
  ndvi_tendencia (v14 (feat a)) = ndvi_tendencia (v14 (feat b)) ->
  (estres_nivel b <= estres_nivel a)%Z.
Proof.
  intros Ha Hb Hh Ht Hn H7 H14.
  assert (Hne : df <> []).
  { intro E. rewrite E in Ha. exact Ha. }
  destruct (crear_features_common_thresholds df Hne) as (T & _ & HT).
  destruct (HT a Ha) as [La Da]. destruct (HT b Hb) as [Lb Db].
  pose proof (deficit_monotone (obs (feat a)) (obs (feat b)) Hh Ht Hn) as Hd.
  assert (Hsev : Spec.severe T (feat b) -> Spec.severe T (feat a)).
  { unfold Spec.severe. rewrite H14. intros [H | [[H1 H2] | [H1 H2]]].
    - left. lra.
    - right. left. split; lra.
    - right. right. split; [lra | exact H2]. }
  assert (Hmod : Spec.moderate T (feat b) -> Spec.moderate T (feat a)).
  { unfold Spec.moderate. rewrite H7, Da, Db. intros [[H1 H2] | [[H1 H2] | [H1 H2]]].
    - left. split; lra.
    - right. left. split; lra.
    - right. right. split; [exact H1 | lra]. }
  destruct (label_cases T _ _ La) as [[Ea _] | [[Ea [Hna _]] | [Ea [Hna Hma]]]];
    destruct (label_cases T _ _ Lb) as [[Eb Hsb] | [[Eb [_ Hmb]] | [Eb _]]];
    rewrite Ea, Eb; try lia.
  - exfalso. apply Hna, Hsev, Hsb.
  - exfalso. apply Hna, Hsev, Hsb.
  - exfalso. apply Hma, Hmod, Hmb.
Qed.

Lemma estres_nivel_monotone_witness :
  exists a b : LabeledRow,
    nth_error (crear_features Muestras.obs_dos_filas) 1 = Some a
    /\ nth_error (crear_features Muestras.obs_dos_filas) 0 = Some b
    /\ (estres_nivel b <= estres_nivel a)%Z.
Proof.
  eexists. eexists. split; [reflexivity|]. split; [reflexivity|].
  apply (estres_nivel_monotone Muestras.obs_dos_filas).
  - right. left. reflexivity.
  - left. reflexivity.
  - discriminate.
  - discriminate.
  - discriminate.
  - reflexivity.
  - reflexivity.
Defined.

(** A quantile of a column lies between two values of the column. *)
Lemma quantile_range (q : Q) (xs : list Q) :
  0 <= q -> q <= 1 -> xs <> [] ->
  exists v a b : Q,
    quantile q xs = Fin v /\ In a xs /\ In b xs /\ a <= v /\ v <= b.
Proof.
  intros H0 H1 Hne. destruct xs as [|x xs]; [congruence|].
  rewrite quantile_interp.
  set (s := sort Qle_bool (x :: xs)).
  assert (Hlen : (0 < length s)%nat).
  { unfold s. rewrite sort_length. simpl. lia. }
  assert (Htop : 0 <= inject_Z (Z.of_nat (length s - 1))).
  { change 0 with (inject_Z 0). rewrite <- Zle_Qle. lia. }
  set (pos := q * inject_Z (Z.of_nat (length s - 1))).
  assert (Hp0 : 0 <= pos) by (apply Qmult_le_0_compat; assumption).
  assert (Hp1 : pos <= inject_Z (Z.of_nat (length s - 1))).
  { unfold pos. rewrite <- (Qmult_1_l (inject_Z (Z.of_nat (length s - 1)))) at 2.
    apply Qmult_le_compat_r; assumption. }
  destruct (floor_range s Hlen pos Hp0 Hp1) as [_ Hlo].
  destruct (interp_bounds s (sort_ascending (x :: xs)) Hlen pos Hp0 Hp1) as [Hd Hu].
  eexists. exists (nth (Z.to_nat (Qfloor pos)) s 0).
  exists (nth (Nat.min (S (Z.to_nat (Qfloor pos))) (length s - 1)) s 0).
  split; [reflexivity|].
  split; [apply (sort_In Q Qle_bool); fold s; apply nth_In; lia|].
  split; [apply (sort_In Q Qle_bool); fold s; apply nth_In; lia|].
  split; [exact Hd | exact Hu].
Qed.

(** The thresholds of a table, the labels against them, their order and
    their place inside the table. *)
Lemma thresholds_facts (df : list Obs) :
  df <> [] ->
  exists T : Spec.Thresholds,
    Spec.thresholds_of (sort_values df) T
    /\ (forall lr : LabeledRow,
          In lr (crear_features df) -> Spec.label T (feat lr) (estres_nivel lr))
    /\ Spec.P25_humidity T <= Spec.P50_humidity T
    /\ Spec.P25_ndvi T <= Spec.P50_ndvi T
    /\ (exists a b, In a df /\ In b df
                    /\ soil_humidity a <= Spec.P25_humidity T
                    /\ Spec.P50_humidity T <= soil_humidity b)
    /\ (exists a b, In a df /\ In b df
                    /\ ndvi a <= Spec.P25_ndvi T
                    /\ Spec.P50_ndvi T <= ndvi b)
    /\ (exists a b, In a df /\ In b df
                    /\ lst a <= Spec.P75_lst T
                    /\ Spec.P75_lst T <= lst b).
Proof.
  intro Hne.
  destruct (crear_features_common_thresholds df Hne) as (T & HT & Hlab).
  exists T. split; [exact HT|].
  split; [intros lr Hin; apply (Hlab lr Hin)|].
  destruct HT as (H1 & H2 & H3 & H4 & H5).
  assert (Hcol : forall (f : Obs -> Q) (q v : Q),
             0 <= q -> q <= 1 ->
             quantile q (map f (sort_values df)) = Fin v ->
             exists a b, In a df /\ In b df /\ f a <= v /\ v <= f b).
  { intros f q v Hq0 Hq1 Hv.
    destruct (quantile_range q (map f (sort_values df)) Hq0 Hq1)
      as (v' & a & b & Ev & Ha & Hb & Hav & Hvb).
    { intro E. rewrite E in Hv. discriminate. }
    rewrite Hv in Ev. injection Ev as <-.
    apply in_map_iff in Ha. destruct Ha as (oa & <- & Hoa).
    apply in_map_iff in Hb. destruct Hb as (ob & <- & Hob).
    unfold sort_values in Hoa, Hob. apply sort_In in Hoa. apply sort_In in Hob.
    exists oa, ob. auto. }
  assert (Hmono : forall (f : Obs -> Q) (v w : Q),
             quantile 0.25 (map f (sort_values df)) = Fin v ->
             quantile 0.50 (map f (sort_values df)) = Fin w -> v <= w).
  { intros f v w Hv Hw.
    destruct (quantile_mono 0.25 0.50 (map f (sort_values df)))
      as (a & b & Ha & Hb & Hab); [lra | lra | lra | |].
    { intro E. rewrite E in Hv. discriminate. }
    rewrite Hv in Ha. rewrite Hw in Hb.
    injection Ha as <-. injection Hb as <-. exact Hab. }
  split; [apply (Hmono soil_humidity); assumption|].
  split; [apply (Hmono ndvi); assumption|].
  destruct (Hcol soil_humidity 0.25 _ ltac:(lra) ltac:(lra) H1) as (a1 & _ & Ha1 & _ & L1 & _).
  destruct (Hcol soil_humidity 0.50 _ ltac:(lra) ltac:(lra) H2) as (_ & b2 & _ & Hb2 & _ & U2).
  destruct (Hcol ndvi 0.25 _ ltac:(lra) ltac:(lra) H3) as (a3 & _ & Ha3 & _ & L3 & _).
  destruct (Hcol ndvi 0.50 _ ltac:(lra) ltac:(lra) H4) as (_ & b4 & _ & Hb4 & _ & U4).
  destruct (Hcol lst 0.75 _ ltac:(lra) ltac:(lra) H5) as (a5 & b5 & Ha5 & Hb5 & L5 & U5).
  split; [exists a1, b2; auto|]. split; [exists a3, b4; auto|].
  exists a5, b5. auto.
Qed.






(** On a column of one value every quantile is that value. *)
Lemma quantile_singleton (q x v : Q) : quantile q [x] = Fin v -> v == x.
Proof.
  unfold quantile. cbn [sort insert length Nat.sub Z.of_nat].
  assert (E : Qfloor (q * inject_Z 0) = 0%Z).
  { assert (H : q * inject_Z 0 == 0) by (change (inject_Z 0) with 0; ring).
    rewrite (Qfloor_comp _ _ H). reflexivity. }
  rewrite E. cbn [Z.to_nat Nat.min nth]. intros [= <-]. ring.
Qed.

(** The only row of a one-line table. *)
Lemma single_row_facts (o : Obs) :
  exists lr : LabeledRow,
    crear_features [o] = [lr]
    /\ obs (feat lr) = o
    /\ estres_nivel lr = 0%Z
    /\ estres_etiqueta lr = Some "sin_estres"%string.
Proof.
  assert (Hne : [o] <> []) by discriminate.
  destruct (thresholds_facts [o] Hne) as (T & HT & Hlab & _).
  assert (Hlen : length (crear_features [o]) = 1%nat)
    by (rewrite crear_features_length; reflexivity).
  destruct (crear_features [o]) as [|lr [|? ?]] eqn:E; try discriminate.
  assert (Hin : In lr (crear_features [o])) by (rewrite E; left; reflexivity).
  destruct (crear_features_In [o] lr Hin) as (i & o' & Ho' & Hfeat & _ & Htag).
  assert (Hobs : obs (feat lr) = o).
  { rewrite Hfeat. cbn [obs feature_row].
    change (sort_values [o]) with [o] in Ho'.
    destruct i as [|[|i]]; simpl in Ho'; congruence. }
  exists lr. split; [reflexivity|]. split; [exact Hobs|].
  assert (Hniv : estres_nivel lr = 0%Z).
  { specialize (Hlab lr (or_introl eq_refl)).
    change (sort_values [o]) with [o] in HT.
    destruct HT as (H1 & H2 & H3 & H4 & H5). simpl map in *.
    apply quantile_singleton in H1, H2, H3, H4, H5.
    destruct (label_cases T _ _ Hlab) as [[_ Hs] | [[_ [_ Hm]] | [E0 _]]];
      [| | exact E0]; exfalso.
    - unfold Spec.severe in Hs. rewrite Hobs in Hs.
      destruct Hs as [H | [[_ H] | [H _]]]; lra.
    - unfold Spec.moderate in Hm. rewrite Hobs in Hm.
      destruct Hm as [[H _] | [[_ H] | [_ H]]]; lra. }
  split; [exact Hniv|]. rewrite Htag, Hniv. reflexivity.
Qed.

(** X9.  A table of a single line is labelled 0 whatever the line holds:
    no value is below or above a percentile of itself. *)
Theorem single_row_level_0 (o : Obs) :
  exists lr : LabeledRow,
    crear_features [o] = [lr]
    /\ obs (feat lr) = o
    /\ estres_nivel lr = 0%Z
    /\ estres_etiqueta lr = Some "sin_estres"%string.
Proof. exact (single_row_facts o). Qed.

(** The 25th percentile of two distinct values is above the smaller one. *)
Lemma quantile_25_pair (x y v : Q) :
  x < y ->
  quantile 0.25 [x; y] = Fin v \/ quantile 0.25 [y; x] = Fin v ->
  x < v.
Proof.
  intros Hxy H. unfold quantile in H. cbn [sort insert] in H.
  assert (Hpair : forall a b w : Q,
             Fin (nth (Z.to_nat (Qfloor (0.25 * inject_Z (Z.of_nat (length [a; b] - 1)))))
                      [a; b] 0
                  + (nth (Nat.min (S (Z.to_nat (Qfloor (0.25 * inject_Z
                                        (Z.of_nat (length [a; b] - 1))))))
                                  (length [a; b] - 1)) [a; b] 0
                     - nth (Z.to_nat (Qfloor (0.25 * inject_Z
                                        (Z.of_nat (length [a; b] - 1))))) [a; b] 0)
                    * (0.25 * inject_Z (Z.of_nat (length [a; b] - 1))
                       - inject_Z (Qfloor (0.25 * inject_Z
                                        (Z.of_nat (length [a; b] - 1)))))) = Fin w ->
             w == a + (b - a) * 0.25).
  { intros a b w. cbn [length Nat.sub].
    change (Qfloor (0.25 * inject_Z (Z.of_nat 1))) with 0%Z.
    cbn [Z.to_nat Nat.min nth].
    change (inject_Z (Z.of_nat 1)) with 1. change (inject_Z 0) with 0.
    intros [= <-]. ring. }
  destruct (Qle_bool x y) eqn:E1; destruct (Qle_bool y x) eqn:E2.
  - apply Qle_bool_iff in E2. lra.
  - destruct H as [H | H]; apply Hpair in H; lra.
  - apply Qle_bool_iff in E2. lra.
  - assert (Hle : x <= y) by lra. apply Qle_bool_iff in Hle. congruence.
Qed.

(** X18.  Labels are relative to the table.  Whatever an observation
    holds, alone in its table it is labelled 0; in a table of two lines
    beside an observation wetter by one point or more, both humidities
    being percentages between 0 and 100, it is labelled 2.  (A margin is
    needed on doubles: beside a humidity one unit in the last place above
    its own, the interpolated 25th percentile rounds back to the row's own
    humidity and the row stays at level 0.) *)
Theorem label_depends_on_table (o o' : Obs) :
  0 <= soil_humidity o -> soil_humidity o' <= 100 ->
  soil_humidity o + 1 <= soil_humidity o' ->
  (exists lr : LabeledRow,
      In lr (crear_features [o]) /\ obs (feat lr) = o /\ estres_nivel lr = 0%Z)
  /\ (exists lr : LabeledRow,
         In lr (crear_features [o; o']) /\ obs (feat lr) = o
         /\ estres_nivel lr = 2%Z).
Proof.
  intros _ _ Hmargin.
  assert (Hlt : soil_humidity o < soil_humidity o') by lra.
  split.
  - destruct (single_row_facts o) as (lr & E & Hobs & Hniv & _).
    exists lr. rewrite E. split; [left; reflexivity|]. split; assumption.
  - assert (Hne : [o; o'] <> []) by discriminate.
    destruct (thresholds_facts [o; o'] Hne) as (T & HT & Hlab & _).
    assert (Hin : In o (sort_values [o; o'])).
    { unfold sort_values. apply sort_In. left. reflexivity. }
    rewrite <- (RowFacts.crear_features_obs [o; o']) in Hin.
    apply in_map_iff in Hin. destruct Hin as (lr & Hobs & Hin).
    exists lr. split; [exact Hin|]. split; [exact Hobs|].
    destruct HT as (H25 & _).
    assert (Hp : soil_humidity o < Spec.P25_humidity T).
    { apply (quantile_25_pair _ (soil_humidity o')); [exact Hlt|].
      unfold sort_values in H25. cbn [sort insert] in H25.
      destruct (Fecha.toordinal (date o) <=? Fecha.toordinal (date o'))%Z;
        [left | right]; exact H25. }
    destruct (label_cases T _ _ (Hlab lr Hin)) as [[E _] | [[_ [Hns _]] | [_ [Hns _]]]];
      [exact E | |]; exfalso; apply Hns; left; rewrite Hobs; exact Hp.
Qed.

Lemma label_depends_on_table_witness :
  (exists lr : LabeledRow,
      In lr (crear_features [Muestras.obs_seca])
      /\ obs (feat lr) = Muestras.obs_seca /\ estres_nivel lr = 0%Z)
  /\ (exists lr : LabeledRow,
         In lr (crear_features [Muestras.obs_seca; Muestras.obs_suave])
         /\ obs (feat lr) = Muestras.obs_seca /\ estres_nivel lr = 2%Z).
Proof.
  apply (label_depends_on_table Muestras.obs_seca Muestras.obs_suave);
    discriminate.
Defined.

Lemma df_limpio_short (df : list Obs) :
  (length df <= 14)%nat -> df_limpio (crear_features df) = [].
Proof.
  intro Hlen. unfold df_limpio.
  destruct (filter notnull (crear_features df)) as [|lr l] eqn:E; [reflexivity|].
  exfalso.
  assert (Hin : In lr (filter notnull (crear_features df)))
    by (rewrite E; left; reflexivity).
  apply filter_In in Hin. destruct Hin as [Hin Hnn].
  destruct (crear_features_In df lr Hin) as (i & o & Ho & Hfeat & _).
  assert (Hi : (i < length (sort_values df))%nat)
    by (apply nth_error_Some; congruence).
  assert (Hi' : (i < 14)%nat).
  { unfold sort_values in Hi. rewrite sort_length in Hi. lia. }
  unfold notnull in Hnn. rewrite Hfeat in Hnn.
  change (v14 (feature_row (sort_values df) i o))
    with (ventana_row 14 (sort_values df) i) in Hnn.
  rewrite !andb_true_iff in Hnn. destruct Hnn as [[_ H14] _].
  apply (ventana_row_notnull 14 (sort_values df) i) in H14; [lia | lia | exact Hi].
Qed.

(** X10.  A file with at most 14 complete lines cannot be trained on: every
    row of its table has a null 14-day trend, the trainer's null filter
    leaves nothing, and [entrenar_modelo] returns [None]. *)
Theorem entrenar_modelo_needs_15_lines
    (Modelo : Type) (ajustar : list FeatureRow -> list Z -> Modelo)
    (csv : list CsvRow) :
  (length (dropna csv) <= 14)%nat ->
  df_limpio (procesar_datos csv) = []
  /\ entrenar_modelo Modelo ajustar (procesar_datos csv) = None.
Proof.
  intro Hlen. unfold procesar_datos.
  pose proof (df_limpio_short (dropna csv) Hlen) as E.
  split; [exact E|]. unfold entrenar_modelo. rewrite E. reflexivity.
Qed.

Lemma entrenar_modelo_needs_15_lines_witness :
  df_limpio (procesar_datos Muestras.csv_tres_lineas) = []
  /\ entrenar_modelo unit (fun _ _ => tt) (procesar_datos Muestras.csv_tres_lineas)
     = None.
Proof.
  apply (entrenar_modelo_needs_15_lines unit (fun _ _ => tt) Muestras.csv_tres_lineas).
  simpl. lia.
Defined.

Lemma unique_In (xs : list Z) (y : Z) : In y (unique xs) <-> In y xs.
Proof.
  induction xs as [|x xs IH]; simpl; [tauto|].
  rewrite filter_In, IH, negb_true_iff, Z.eqb_neq.
  destruct (Z.eq_dec x y); intuition auto.
Qed.

Lemma nunique_lt_2 (xs : list Z) :
  (nunique xs < 2)%nat <-> (forall a b : Z, In a xs -> In b xs -> a = b).
Proof.
  unfold nunique. destruct xs as [|x xs]; simpl.
  - split; [intros _ a b [] | lia].
  - split.
    + intros Hlt a b Ha Hb.
      assert (Hnil : filter (fun y => negb (x =? y)%Z) (unique xs) = []).
      { destruct (filter _ (unique xs)); [reflexivity | simpl in Hlt; lia]. }
      assert (Hall : forall y, In y xs -> y = x).
      { intros y Hy. destruct (Z.eq_dec x y) as [<- | Hn]; [reflexivity|].
        assert (Hf : In y (filter (fun y => negb (x =? y)%Z) (unique xs))).
        { apply filter_In. split; [apply unique_In, Hy|].
          apply negb_true_iff, Z.eqb_neq. exact Hn. }
        rewrite Hnil in Hf. destruct Hf. }
      assert (Hcase : forall c, x = c \/ In c xs -> c = x).
      { intros c [<- | Hc]; [reflexivity | apply Hall, Hc]. }
      rewrite (Hcase a Ha), (Hcase b Hb). reflexivity.
    + intro Hall.
      assert (Hnil : filter (fun y => negb (x =? y)%Z) (unique xs) = []).
      { destruct (filter _ (unique xs)) as [|y l] eqn:E; [reflexivity|]. exfalso.
        assert (Hf : In y (filter (fun y => negb (x =? y)%Z) (unique xs)))
          by (rewrite E; left; reflexivity).
        apply filter_In in Hf. destruct Hf as [Hy Hn].
        apply negb_true_iff, Z.eqb_neq in Hn. apply Hn.
        apply Hall; [left; reflexivity | right; apply unique_In, Hy]. }
      rewrite Hnil. simpl. lia.
Qed.

(** X11.  [entrenar_modelo] returns [None] exactly when the rows that
    survive its null filter all carry the same level (in particular when
    none survives); with two rows of different levels it fits the
    classifier. *)
Theorem entrenar_modelo_none_iff_one_level
    (Modelo : Type) (ajustar : list FeatureRow -> list Z -> Modelo)
    (df : list LabeledRow) :
  entrenar_modelo Modelo ajustar df = None
  <-> (forall a b : LabeledRow,
         In a (df_limpio df) -> In b (df_limpio df) ->
         estres_nivel a = estres_nivel b).
Proof.
  unfold entrenar_modelo.
  destruct (nunique (map estres_nivel (df_limpio df)) <? 2)%nat eqn:E.
  - apply Nat.ltb_lt in E. split; [intros _ | reflexivity].
    intros a b Ha Hb.
    apply (proj1 (nunique_lt_2 _) E); apply in_map; assumption.
  - apply Nat.ltb_ge in E. split; [discriminate|].
    intro Hall. exfalso.
    assert (Hlt : (nunique (map estres_nivel (df_limpio df)) < 2)%nat).
    { apply nunique_lt_2. intros x y Hx Hy.
      apply in_map_iff in Hx. destruct Hx as (a & <- & Ha).
      apply in_map_iff in Hy. destruct Hy as (b & <- & Hb).
      apply Hall; assumption. }
    lia.
Qed.





End Etiquetas.

(** ** The prediction service: columns, parity with training, responses *)

Module ServicioFacts.

Import Np Pd Fecha NpFacts RowFacts.
Open Scope Q_scope.

Lemma distintas_NoDup (l : list string) : Columnas.distintas l = true -> NoDup l.
Proof.
  induction l as [|x l IH]; simpl; intro H; [constructor|].
  apply andb_true_iff in H. destruct H as [Hx Hl].
  constructor; [|apply IH, Hl].
  intro Hin. apply negb_true_iff in Hx.
  assert (E : existsb (String.eqb x) l = true).
  { apply existsb_exists. exists x. split; [exact Hin | apply String.eqb_refl]. }
  congruence.
Qed.

Lemma incluidas_incl (l l' : list string) :
  Columnas.incluidas l l' = true -> incl l l'.
Proof.
  unfold Columnas.incluidas. intros H x Hx.
  rewrite forallb_forall in H. specialize (H x Hx).
  apply existsb_exists in H. destruct H as (y & Hy & E).
  apply String.eqb_eq in E. subst. exact Hy.
Qed.

Lemma dict_get_In (d : Api.dict) (k : string) :
  In k (map fst d) -> exists v, Api.dict_get d k = Some v.
Proof.
  induction d as [|[k' v'] d IH]; simpl; [tauto|].
  intros [-> | H].
  - rewrite String.eqb_refl. eauto.
  - destruct (String.eqb k' k); eauto.
Qed.

Lemma seleccionar_ok (d : Api.dict) (columnas : list string) :
  incl columnas (map fst d) ->
  exists X : list Api.pyval,
    Servicio.seleccionar d columnas = Servicio.Bien X
    /\ length X = length columnas
    /\ forall (i : nat) (k : string),
         nth_error columnas i = Some k ->
         nth_error X i = Api.dict_get d k.
Proof.
  induction columnas as [|k columnas IH]; intro Hincl.
  - exists []. split; [reflexivity|]. split; [reflexivity|].
    intros [|i] k; discriminate.
  - destruct (dict_get_In d k (Hincl k (or_introl eq_refl))) as [v Hv].
    destruct IH as (X & HX & Hlen & Hnth).
    { intros x Hx. apply Hincl. right. exact Hx. }
    exists (v :: X). split.
    { simpl. unfold Servicio.item. rewrite Hv. simpl. rewrite HX. reflexivity. }
    split; [simpl; rewrite Hlen; reflexivity|].
    intros [|i] k'; simpl.
    + intros [= <-]. symmetry. exact Hv.
    + apply Hnth.
Qed.

(** The dictionary of a call that returns. *)
Lemma calcular_features_inv
    (otras_cadenas : string -> parsed) (datos : Api.DatosEntrada) (f : Api.dict) :
  Api.calcular_features otras_cadenas datos = Ok f ->
  ~ Api.ndvi datos + 0.001 == 0
  /\ exists fecha : option Timestamp,
       Api.parse_date otras_cadenas (Api.date datos) = Ok fecha
       /\ f = fold_left (Api.ventana_features datos) [7; 14]%nat
            [("ndvi"%string, Api.PyFloat (Api.ndvi datos));
             ("evi"%string, Api.PyFloat (Api.evi datos));
             ("lst"%string, Api.PyFloat (Api.lst datos));
             ("tmax"%string, Api.PyFloat (Api.tmax datos));
             ("tmin"%string, Api.PyFloat (Api.tmin datos));
             ("soil_humidity"%string, Api.PyFloat (Api.soil_humidity datos));
             ("evi_ndvi_ratio"%string,
              Api.PyFloat (Api.evi datos / (Api.ndvi datos + 0.001)));
             ("temp_promedio"%string,
              Api.PyFloat ((Api.tmax datos + Api.tmin datos) / 2));
             ("amplitud_termica"%string,
              Api.PyFloat (Api.tmax datos - Api.tmin datos));
             ("deficit_combinado"%string, Api.PyFloat (Api.deficit datos));
             ("mes"%string, Api.atributo month fecha);
             ("dia_año"%string, Api.atributo dayofyear fecha);
             ("dias_desde_inicio"%string, Api.PyInt 0)].
Proof.
  unfold Api.calcular_features, py_div.
  destruct (Qeq_bool (Api.ndvi datos + 0.001) 0) eqn:E; [discriminate|].
  cbn [bind].
  destruct (Api.parse_date otras_cadenas (Api.date datos)) as [fecha|e] eqn:Ef;
    [|discriminate].
  cbn [bind]. intros [= <-]. split.
  - intro H. apply Qeq_bool_iff in H. congruence.
  - exists fecha. split; reflexivity.
Qed.

Lemma calcular_features_keys
    (otras_cadenas : string -> parsed) (datos : Api.DatosEntrada) (f : Api.dict) :
  Api.calcular_features otras_cadenas datos = Ok f ->
  map fst f
  = ["ndvi"; "evi"; "lst"; "tmax"; "tmin"; "soil_humidity";
     "evi_ndvi_ratio"; "temp_promedio"; "amplitud_termica"; "deficit_combinado";
     "mes"; "dia_año"; "dias_desde_inicio";
     "ndvi_promedio_7d"; "ndvi_tendencia_7d"; "humedad_promedio_7d";
     "humedad_tendencia_7d"; "lst_max_7d"; "tmax_promedio_7d";
     "ndvi_promedio_14d"; "ndvi_tendencia_14d"; "humedad_promedio_14d";
     "humedad_tendencia_14d"; "lst_max_14d"; "tmax_promedio_14d"]%string.
Proof.
  intro H.
  destruct (calcular_features_inv otras_cadenas datos f H) as (_ & t & _ & ->).
  reflexivity.
Qed.


(** X12.  The dictionary of [calcular_features] has exactly the 25 columns
    of the trainer's [features] list, each once, so the column selection of
    [predecir] by that list never meets a missing key and yields the 25
    values in the trainer's order. *)
Theorem calcular_features_columns
    (otras_cadenas : string -> parsed) (datos : Api.DatosEntrada) (f : Api.dict) :
  Api.calcular_features otras_cadenas datos = Ok f ->
  NoDup (map fst f)
  /\ Permutation (map fst f) Columnas.features
  /\ exists X : list Api.pyval,
       Servicio.seleccionar f Columnas.features = Servicio.Bien X
       /\ length X = 25%nat
       /\ forall (i : nat) (k : string),
            nth_error Columnas.features i = Some k ->
            nth_error X i = Api.dict_get f k.
Proof.
  intro H. pose proof (calcular_features_keys otras_cadenas datos f H) as Hk.
  assert (Hnd : NoDup (map fst f)).
  { rewrite Hk. apply distintas_NoDup. reflexivity. }
  assert (H1 : incl Columnas.features (map fst f)).
  { rewrite Hk. apply incluidas_incl. reflexivity. }
  assert (H2 : incl (map fst f) Columnas.features).
  { rewrite Hk. apply incluidas_incl. reflexivity. }
  split; [exact Hnd|]. split.
  - apply NoDup_Permutation; [exact Hnd | apply distintas_NoDup; reflexivity|].
    intro k. split; [apply H2 | apply H1].
  - destruct (seleccionar_ok f Columnas.features H1) as (X & HX & Hlen & Hnth).
    exists X. split; [exact HX|]. split; [exact Hlen | exact Hnth].
Qed.

Lemma calcular_features_columns_witness :
  exists f : Api.dict,
    Api.calcular_features Muestras.solo_vacia Ejemplos.datos_ejemplo = Ok f
    /\ NoDup (map fst f)
    /\ Permutation (map fst f) Columnas.features
    /\ exists X : list Api.pyval,
         Servicio.seleccionar f Columnas.features = Servicio.Bien X
         /\ length X = 25%nat
         /\ forall (i : nat) (k : string),
              nth_error Columnas.features i = Some k ->
              nth_error X i = Api.dict_get f k.
Proof.
  eexists. split; [reflexivity|].
  apply (calcular_features_columns Muestras.solo_vacia Ejemplos.datos_ejemplo).
  reflexivity.
Defined.

Lemma clip_inside (lo hi x : Q) : lo <= x -> x <= hi -> clip lo hi x == x.
Proof.
  intros H1 H2. unfold clip.
  rewrite (Q.max_l x lo H1). apply Q.min_l. exact H2.
Qed.

(** The two deficits side by side, on exact rationals: the served one is
    the trained one when the temperature is within [[25, 45]], below it
    under 25 degrees and above it over 45. *)
Lemma deficit_compared (datos : Api.DatosEntrada) (t : Timestamp) :
  0 <= Api.soil_humidity datos <= 35 ->
  0 <= Api.ndvi datos <= 1 ->
  (25 <= Api.lst datos <= 45 ->
   Api.deficit datos == Ingenieria.deficit (Paridad.como_obs datos t))
  /\ (Api.lst datos < 25 ->
      Api.deficit datos < Ingenieria.deficit (Paridad.como_obs datos t))
  /\ (45 < Api.lst datos ->
      Ingenieria.deficit (Paridad.como_obs datos t) < Api.deficit datos).
Proof.
  intros [Hh0 Hh1] [Hn0 Hn1].
  unfold Api.deficit, Ingenieria.deficit, Ingenieria.humedad_norm,
    Ingenieria.temp_norm, Paridad.como_obs.
  cbn [Ingenieria.soil_humidity Ingenieria.lst Ingenieria.ndvi].
  set (h := Api.soil_humidity datos) in *.
  set (l := Api.lst datos) in *.
  set (n := Api.ndvi datos) in *.
  assert (Eh : clip 0 1 (h / 35) == h / 35).
  { apply clip_inside; [apply Qle_shift_div_l | apply Qle_shift_div_r]; lra. }
  rewrite Eh.
  assert (Hq : 0 <= h / 35 <= 1).
  { split; [apply Qle_shift_div_l | apply Qle_shift_div_r]; lra. }
  set (hq := h / 35) in *.
  split; [|split]; intro Hl.
  - assert (Et : clip 0 1 ((l - 25) / 20) == (l - 25) / 20).
    { apply clip_inside; [apply Qle_shift_div_l | apply Qle_shift_div_r]; lra. }
    assert (Hr : 0 <= (l - 25) / 20 <= 1).
    { split; [apply Qle_shift_div_l | apply Qle_shift_div_r]; lra. }
    rewrite Et. set (tq := (l - 25) / 20) in *.
    rewrite clip_inside; lra.
  - assert (Et : clip 0 1 ((l - 25) / 20) == 0).
    { apply clip_below; [lra|]. apply Qle_shift_div_r; lra. }
    assert (Hr : (l - 25) / 20 < 0).
    { apply Qlt_shift_div_r; lra. }
    rewrite Et. set (tq := (l - 25) / 20) in *.
    rewrite clip_inside; lra.
  - assert (Et : clip 0 1 ((l - 25) / 20) == 1).
    { apply clip_above; [lra|]. apply Qle_shift_div_l; lra. }
    assert (Hr : 1 < (l - 25) / 20).
    { apply Qlt_shift_div_l; lra. }
    rewrite Et. set (tq := (l - 25) / 20) in *.
    rewrite clip_inside; lra.
Qed.

(** X13.  For a soil humidity within [[0, 35]] and an NDVI within [[0, 1]],
    the deficit served by [calcular_features] equals the deficit of the
    training table when the surface temperature lies within [[25, 45]];
    below 25 degrees the served deficit is at most the trained one, and
    strictly smaller from 24 degrees down; above 45 degrees it is at least
    the trained one, and strictly larger from 46 degrees up.  (Just under 25
    and just over 45 degrees the difference is too small to survive the
    rounding of doubles, hence the one-degree margins.) *)
Theorem deficit_serving_vs_training (datos : Api.DatosEntrada) (t : Timestamp) :
  0 <= Api.soil_humidity datos <= 35 ->
  0 <= Api.ndvi datos <= 1 ->
  (25 <= Api.lst datos <= 45 ->
   Api.deficit datos == Ingenieria.deficit (Paridad.como_obs datos t))
  /\ (Api.lst datos < 25 ->
      Api.deficit datos <= Ingenieria.deficit (Paridad.como_obs datos t))
  /\ (Api.lst datos <= 24 ->
      Api.deficit datos < Ingenieria.deficit (Paridad.como_obs datos t))
  /\ (45 < Api.lst datos ->
      Ingenieria.deficit (Paridad.como_obs datos t) <= Api.deficit datos)
  /\ (46 <= Api.lst datos ->
      Ingenieria.deficit (Paridad.como_obs datos t) < Api.deficit datos).
Proof.
  intros Hh Hn.
  destruct (deficit_compared datos t Hh Hn) as (Hin & Hlow & Hhigh).
  split; [exact Hin|].
  split; [intro H; apply Qlt_le_weak, Hlow, H|].
  split; [intro H; apply Hlow; lra|].
  split; [intro H; apply Qlt_le_weak, Hhigh, H|].
  intro H; apply Hhigh; lra.
Qed.

Lemma deficit_serving_vs_training_witness :
  (25 <= 20 <= 45 ->
   Api.deficit Muestras.datos_fresco
   == Ingenieria.deficit (Paridad.como_obs Muestras.datos_fresco (mkTimestamp 2024 6 15)))
  /\ (20 < 25 ->
      Api.deficit Muestras.datos_fresco
      <= Ingenieria.deficit (Paridad.como_obs Muestras.datos_fresco (mkTimestamp 2024 6 15)))
  /\ (20 <= 24 ->
      Api.deficit Muestras.datos_fresco
      < Ingenieria.deficit (Paridad.como_obs Muestras.datos_fresco (mkTimestamp 2024 6 15)))
  /\ (45 < 20 ->
      Ingenieria.deficit (Paridad.como_obs Muestras.datos_fresco (mkTimestamp 2024 6 15))
      <= Api.deficit Muestras.datos_fresco)
  /\ (46 <= 20 ->
      Ingenieria.deficit (Paridad.como_obs Muestras.datos_fresco (mkTimestamp 2024 6 15))
      < Api.deficit Muestras.datos_fresco).
Proof.
  apply (deficit_serving_vs_training Muestras.datos_fresco (mkTimestamp 2024 6 15));
    split; discriminate.
Defined.

(** At 20 degrees, with soil_humidity = 20 and ndvi = 0.6, the served
    deficit is 0.2193 below the trained 0.2943, on rationals and on
    doubles alike. *)
Lemma deficit_fresco :
  Api.deficit Muestras.datos_fresco
  < Ingenieria.deficit (Paridad.como_obs Muestras.datos_fresco (mkTimestamp 2024 6 15))
  /\ PrimFloat.ltb Muestras64.deficit_servido_fresco
                   (Ingenieria64.deficit Muestras64.obs_fresca)
     = true.
Proof. split; reflexivity. Qed.



Import Servicio.

Section Predecir.
Variable features_requeridos : list string.
Variable predict : list Api.pyval -> Z.
Variable predict_proba : list Api.pyval -> list Q.
Variable otras_cadenas : string -> parsed.

(** What a returning body of [predecir] went through. *)
Lemma cuerpo_inv (datos : Api.DatosEntrada) (p : Prediccion) :
  cuerpo features_requeridos predict predict_proba otras_cadenas datos = Bien p ->
  exists (f : Api.dict) (X : list Api.pyval) (texto alerta : string)
         (p0 p1 p2 : Q) (d : Api.pyval),
    Api.calcular_features otras_cadenas datos = Ok f
    /\ seleccionar f features_requeridos = Bien X
    /\ Ingenieria.dict_get mapa (predict X) = Some texto
    /\ buscar niveles_alerta texto = Some alerta
    /\ nth_error (predict_proba X) 0 = Some p0
    /\ nth_error (predict_proba X) 1 = Some p1
    /\ nth_error (predict_proba X) 2 = Some p2
    /\ Api.dict_get f "deficit_combinado" = Some d
    /\ fecha p = Api.date datos
    /\ prediccion p = texto
    /\ nivel_alerta p = alerta
    /\ probabilidad_sin_estres p = p0
    /\ probabilidad_moderado p = p1
    /\ probabilidad_severo p = p2
    /\ recomendacion p = generar_recomendacion texto (mkProbs p0 p1 p2) datos
    /\ m_deficit_combinado (metricas p) = float_of d.
Proof.
  unfold cuerpo, indice, item.
  destruct (Api.calcular_features otras_cadenas datos) as [f|e] eqn:Hf; [|discriminate].
  cbn [de_features ligar].
  destruct (seleccionar f features_requeridos) as [X|e] eqn:HX; [|discriminate].
  cbn [ligar].
  destruct (Ingenieria.dict_get mapa (predict X)) as [texto|] eqn:Hm; [|discriminate].
  cbn [ligar].
  destruct (buscar niveles_alerta texto) as [alerta|] eqn:Ha; [|discriminate].
  cbn [ligar].
  destruct (nth_error (predict_proba X) 0) as [p0|] eqn:H0; [|discriminate].
  cbn [ligar].
  destruct (nth_error (predict_proba X) 1) as [p1|] eqn:H1; [|discriminate].
  cbn [ligar].
  destruct (nth_error (predict_proba X) 2) as [p2|] eqn:H2; [|discriminate].
  cbn [ligar].
  destruct (Api.dict_get f "deficit_combinado") as [d|] eqn:Hd; [|discriminate].
  cbn [ligar]. intros [= <-].
  exists f, X, texto, alerta, p0, p1, p2, d.
  repeat split; first [reflexivity | assumption].
Qed.

(** X15.  A classifier fitted on fewer than three classes cannot be served:
    when [predict_proba] yields fewer than three probabilities, [predecir]
    answers every request with status 500. *)
Theorem predecir_needs_three_classes (datos : Api.DatosEntrada) :
  (forall X, (length (predict_proba X) < 3)%nat) ->
  exists e : excepcion,
    predecir features_requeridos predict predict_proba otras_cadenas datos = Http500 e.
Proof.
  intro Hlen. unfold predecir.
  destruct (cuerpo features_requeridos predict predict_proba otras_cadenas datos) as [p|e] eqn:E;
    [|exists e; reflexivity].
  exfalso.
  destruct (cuerpo_inv datos p E) as (f & X & ? & ? & p0 & p1 & p2 & ? & _ & _ & _ & _
                                      & _ & _ & H2 & _).
  specialize (Hlen X).
  assert ((2 < length (predict_proba X))%nat) by (apply nth_error_Some; congruence).
  lia.
Qed.

(** X16.  What [predecir] puts in a response: the request's date, the
    unclamped deficit of [calcular_features], the classifier's first three
    probabilities, and a tag, an alert level and a recommendation that all
    follow the predicted class; for a moderate class the delay is 3 days
    when the severe probability exceeds 0.3 and 5 days otherwise. *)
Theorem predecir_response (datos : Api.DatosEntrada) (p : Prediccion) :
  predecir features_requeridos predict predict_proba otras_cadenas datos = Http200 p ->
  fecha p = Api.date datos
  /\ m_deficit_combinado (metricas p) = Fin (Api.deficit datos)
  /\ exists X : list Api.pyval,
       nth_error (predict_proba X) 0 = Some (probabilidad_sin_estres p)
       /\ nth_error (predict_proba X) 1 = Some (probabilidad_moderado p)
       /\ nth_error (predict_proba X) 2 = Some (probabilidad_severo p)
       /\ ((predict X = 0%Z
            /\ prediccion p = "sin_estres"%string
            /\ nivel_alerta p = "✅ ÓPTIMO"%string
            /\ recomendacion p = "✅ Condiciones óptimas | Monitoreo rutinario semanal"%string)
           \/ (predict X = 1%Z
               /\ prediccion p = "estres_moderado"%string
               /\ nivel_alerta p = "⚠️ ALERTA HÍDRICA"%string
               /\ ((0.3 < probabilidad_severo p
                    /\ recomendacion p = "⚠️ Programar riego en 3 días | Monitorear cada 2 días"%string)
                   \/ (probabilidad_severo p <= 0.3
                       /\ recomendacion p = "⚠️ Programar riego en 5 días | Monitorear cada 2 días"%string)))
           \/ (predict X = 2%Z
               /\ prediccion p = "estres_severo"%string
               /\ nivel_alerta p = "🚨 CRÍTICO"%string
               /\ recomendacion p = "🚨 Aplicar riego inmediato: 25-30mm | Horario óptimo: 5-7am o 6-8pm"%string)).
Proof.
  unfold predecir.
  destruct (cuerpo features_requeridos predict predict_proba otras_cadenas datos) as [p'|e] eqn:E;
    [|discriminate].
  intros [= ->].
  destruct (cuerpo_inv datos p E)
    as (f & X & texto & alerta & p0 & p1 & p2 & d & Hf & _ & Hm & Ha & H0 & H1 & H2
        & Hd & Hfecha & Hpred & Hniv & E0 & E1 & E2 & Hrec & Hdef).
  split; [exact Hfecha|]. split.
  { rewrite Hdef.
    destruct (calcular_features_inv otras_cadenas datos f Hf) as (_ & t & _ & ->).
    assert (Hd' : Api.dict_get
                    (fold_left (Api.ventana_features datos) [7; 14]%nat
                       [("ndvi"%string, Api.PyFloat (Api.ndvi datos));
                        ("evi"%string, Api.PyFloat (Api.evi datos));
                        ("lst"%string, Api.PyFloat (Api.lst datos));
                        ("tmax"%string, Api.PyFloat (Api.tmax datos));
                        ("tmin"%string, Api.PyFloat (Api.tmin datos));
                        ("soil_humidity"%string, Api.PyFloat (Api.soil_humidity datos));
                        ("evi_ndvi_ratio"%string,
                         Api.PyFloat (Api.evi datos / (Api.ndvi datos + 0.001)));
                        ("temp_promedio"%string,
                         Api.PyFloat ((Api.tmax datos + Api.tmin datos) / 2));
                        ("amplitud_termica"%string,
                         Api.PyFloat (Api.tmax datos - Api.tmin datos));
                        ("deficit_combinado"%string, Api.PyFloat (Api.deficit datos));
                        ("mes"%string, Api.atributo month t);
                        ("dia_año"%string, Api.atributo dayofyear t);
                        ("dias_desde_inicio"%string, Api.PyInt 0)])
                    "deficit_combinado"
                  = Some (Api.PyFloat (Api.deficit datos))) by reflexivity.
    rewrite Hd' in Hd. injection Hd as <-. reflexivity. }
  exists X. rewrite E0, E1, E2.
  split; [exact H0|]. split; [exact H1|]. split; [exact H2|].
  rewrite Hpred, Hniv, Hrec.
  unfold mapa in Hm. cbn [Ingenieria.dict_get] in Hm.
  destruct (0 =? predict X)%Z eqn:Z0.
  { apply Z.eqb_eq in Z0. injection Hm as <-. cbn in Ha. injection Ha as <-.
    left. repeat split; [symmetry; exact Z0]. }
  destruct (1 =? predict X)%Z eqn:Z1.
  { apply Z.eqb_eq in Z1. injection Hm as <-. cbn in Ha. injection Ha as <-.
    right. left. split; [symmetry; exact Z1|]. split; [reflexivity|].
    split; [reflexivity|].
    unfold generar_recomendacion. cbn [String.eqb Ascii.eqb Bool.eqb severo].
    destruct (Qltb 0.3 p2) eqn:Eq.
    - left. split; [apply Qltb_lt; exact Eq | reflexivity].
    - right. split; [|reflexivity].
      destruct (Qlt_le_dec 0.3 p2) as [Hlt|Hle]; [|exact Hle].
      apply Qltb_lt in Hlt. congruence. }
  destruct (2 =? predict X)%Z eqn:Z2; [|discriminate].
  apply Z.eqb_eq in Z2. injection Hm as <-. cbn in Ha. injection Ha as <-.
  right. right. repeat split; [symmetry; exact Z2].
Qed.

End Predecir.

Lemma predecir_needs_three_classes_witness :
  exists e : excepcion,
    predecir Columnas.features Muestras.predict_1 Muestras.proba_2
             Muestras.solo_vacia Ejemplos.datos_ejemplo = Http500 e.
Proof.
  apply (predecir_needs_three_classes Columnas.features Muestras.predict_1
           Muestras.proba_2 Muestras.solo_vacia Ejemplos.datos_ejemplo).
  intro X. simpl. lia.
Defined.

Lemma predecir_response_witness :
  exists p : Prediccion,
    predecir Columnas.features Muestras.predict_1 Muestras.proba_3
             Muestras.solo_vacia Ejemplos.datos_ejemplo = Http200 p
    /\ (fecha p = Api.date Ejemplos.datos_ejemplo
  /\ m_deficit_combinado (metricas p) = Fin (Api.deficit Ejemplos.datos_ejemplo)
  /\ exists X : list Api.pyval,
       nth_error (Muestras.proba_3 X) 0 = Some (probabilidad_sin_estres p)
       /\ nth_error (Muestras.proba_3 X) 1 = Some (probabilidad_moderado p)
       /\ nth_error (Muestras.proba_3 X) 2 = Some (probabilidad_severo p)
       /\ ((Muestras.predict_1 X = 0%Z
            /\ prediccion p = "sin_estres"%string
            /\ nivel_alerta p = "✅ ÓPTIMO"%string
            /\ recomendacion p = "✅ Condiciones óptimas | Monitoreo rutinario semanal"%string)
           \/ (Muestras.predict_1 X = 1%Z
               /\ prediccion p = "estres_moderado"%string
               /\ nivel_alerta p = "⚠️ ALERTA HÍDRICA"%string
               /\ ((0.3 < probabilidad_severo p
                    /\ recomendacion p = "⚠️ Programar riego en 3 días | Monitorear cada 2 días"%string)
                   \/ (probabilidad_severo p <= 0.3
                       /\ recomendacion p = "⚠️ Programar riego en 5 días | Monitorear cada 2 días"%string)))
           \/ (Muestras.predict_1 X = 2%Z
               /\ prediccion p = "estres_severo"%string
               /\ nivel_alerta p = "🚨 CRÍTICO"%string
               /\ recomendacion p = "🚨 Aplicar riego inmediato: 25-30mm | Horario óptimo: 5-7am o 6-8pm"%string))).
Proof.
  eexists. split; [reflexivity|].
  apply (predecir_response Columnas.features Muestras.predict_1 Muestras.proba_3
           Muestras.solo_vacia Ejemplos.datos_ejemplo).
  reflexivity.
Defined.



(** The requests dated [15-06-2024], [2024-06-01] and, where pandas answers
    NaT to an empty date, the request without a date are all served. *)
Lemma predecir_otras_fechas :
  (exists p : Prediccion,
      predecir Columnas.features Muestras.predict_1 Muestras.proba_3
               Muestras.solo_vacia Muestras.datos_dia_primero = Http200 p)
  /\ (exists p : Prediccion,
         predecir Columnas.features Muestras.predict_1 Muestras.proba_3
                  Muestras.solo_vacia Muestras.datos_primero_de_junio = Http200 p)
  /\ (exists p : Prediccion,
         predecir Columnas.features Muestras.predict_1 Muestras.proba_3
                  Muestras.solo_vacia Muestras.datos_sin_fecha = Http200 p).
Proof. repeat split; eexists; reflexivity. Qed.

End ServicioFacts.
